(** * Retail KPI analytics: the synthetic data generator and the loader

    A shallow embedding of [data/generate_synthetic_data.py] and
    [python/load_to_database.py].

    Conventions of the embedding.
    - Python [int] is [Z]; Python and NumPy floats are exact rationals [Q]
      (binary64 rounding error is not modelled; [round(x, n)] is rounding
      half to even at [n] decimals).
    - NumPy's global random state is an explicit value threaded through a
      state-and-exception monad, together with the files written and the
      lines printed.  The bit generator itself is abstract (class
      [RandomState]); the NumPy samplers the script calls are derived from
      it the way [numpy.random.mtrand] derives them, including the
      argument checks that raise [ValueError].
    - A [pandas.DataFrame] is the list of its rows, a row is a record.
    - Exceptions are values of type [exn]; nothing in either script catches
      one, so the first exception ends the run. *)

From Stdlib Require Import ZArith QArith Qabs Qround String Ascii List Lia Lqa DecimalString.
From stdpp Require Import gmap strings list.

Open Scope Z_scope.

(** ** Python built-ins used by the scripts *)

Module Py.

Inductive exn : Type :=
  | ValueError      (* numpy argument checks, [astype(int)] on a non number *)
  | IndexError      (* [.iloc[0]] on an empty selection *)
  | OverflowError   (* date arithmetic leaving years 1..9999 *)
  | AttributeError. (* the [.str] accessor on a column that holds no strings *)

(** [range(lo, hi)]: empty when [hi <= lo]. *)
Definition range (lo hi : Z) : list Z :=
  map (fun k => lo + Z.of_nat k) (seq 0 (Z.to_nat (hi - lo))).

(** [int(x)] on a float truncates toward zero. *)
Definition int (x : Q) : Z := Z.quot (Qnum x) (Z.pos (Qden x)).

Definition Qltb (x y : Q) : bool := negb (Qle_bool y x).

(** Nearest integer, ties to the even neighbour. *)
Definition round_half_even (x : Q) : Z :=
  let f := Qfloor x in
  match Qcompare (x - inject_Z f) (1 # 2) with
  | Lt => f
  | Gt => f + 1
  | Eq => if Z.even f then f else f + 1
  end.

(** [round(x, ndigits)]. *)
Definition round (x : Q) (ndigits : nat) : Q :=
  let scale := Pos.pow 10 (Pos.of_nat ndigits) in
  match ndigits with
  | O => inject_Z (round_half_even x)
  | S _ => Qred (Qmake (round_half_even (x * inject_Z (Z.pos scale))) scale)
  end.

(** Decimal digits of a non-negative integer. *)
Definition digits (n : N) : string := NilZero.string_of_uint (N.to_uint n).

Fixpoint zeros (n : nat) : string :=
  match n with
  | O => EmptyString
  | S k => String "0" (zeros k)
  end.

Definition zfill (width : nat) (s : string) : string :=
  zeros (width - String.length s) +:+ s.

(** [f'{z:0{width}d}']: zero padded, the sign counts in the width. *)
Definition fmt_0d (width : nat) (z : Z) : string :=
  if z <? 0 then "-" +:+ zfill (width - 1) (digits (Z.abs_N z))
  else zfill width (digits (Z.abs_N z)).

(** [str(z)] / [f'{z}']. *)
Definition str (z : Z) : string := fmt_0d 0 z.

(** Thousands separators on a reversed digit list. *)
Fixpoint group3 (rev_digits : list ascii) : list ascii :=
  match rev_digits with
  | a :: b :: c :: ((_ :: _) as rest) => a :: b :: c :: ","%char :: group3 rest
  | short => short
  end.

(** [f'{z:,}']. *)
Definition fmt_commas (z : Z) : string :=
  let body :=
    string_of_list_ascii
      (rev (group3 (rev (list_ascii_of_string (digits (Z.abs_N z)))))) in
  if z <? 0 then "-" +:+ body else body.

(** [int(s)] for the strings the script converts: decimal digits only. *)
Definition digit_value (c : ascii) : option Z :=
  let n := Z.of_nat (nat_of_ascii c) in
  if (48 <=? n) && (n <=? 57) then Some (n - 48) else None.

Fixpoint parse_digits (acc : Z) (s : string) : option Z :=
  match s with
  | EmptyString => Some acc
  | String c rest =>
      match digit_value c with
      | Some d => parse_digits (10 * acc + d) rest
      | None => None
      end
  end.

Definition parse_int (s : string) : exn + Z :=
  match s with
  | EmptyString => inl ValueError
  | _ => match parse_digits 0 s with
         | Some z => inr z
         | None => inl ValueError
         end
  end.

(** [s[lo:hi]] for [0 <= lo <= hi]. *)
Definition slice (lo hi : nat) (s : string) : string := substring lo (hi - lo) s.

End Py.

(** ** [datetime]: the proleptic Gregorian calendar

    The functions follow the arithmetic of CPython's [datetime] module:
    a date is converted to its ordinal (1 = 0001-01-01) and back. *)

Module Datetime.

Record date : Type := mkdate { year : Z; month : Z; day : Z }.

Definition MAXORDINAL : Z := 3652059.   (* 9999-12-31 *)
Definition DI400Y : Z := 146097.
Definition DI100Y : Z := 36524.
Definition DI4Y : Z := 1461.

Definition is_leap (y : Z) : bool :=
  (y mod 4 =? 0) && (negb (y mod 100 =? 0) || (y mod 400 =? 0)).

Definition days_before_year (y : Z) : Z :=
  let p := y - 1 in p * 365 + p / 4 - p / 100 + p / 400.

Definition DAYS_IN_MONTH : list Z := [31; 28; 31; 30; 31; 30; 31; 31; 30; 31; 30; 31].
Definition DAYS_BEFORE_MONTH : list Z :=
  [0; 31; 59; 90; 120; 151; 181; 212; 243; 273; 304; 334].

Definition month_entry (table : list Z) (m : Z) : Z :=
  nth (Z.to_nat (m - 1)) table 0.

Definition days_before_month (leap : bool) (m : Z) : Z :=
  month_entry DAYS_BEFORE_MONTH m + (if (2 <? m) && leap then 1 else 0).

Definition toordinal (d : date) : Z :=
  days_before_year (year d) + days_before_month (is_leap (year d)) (month d) + day d.

Definition fromordinal (ordinal : Z) : date :=
  let n := ordinal - 1 in
  let n400 := n / DI400Y in let n := n mod DI400Y in
  let n100 := n / DI100Y in let n := n mod DI100Y in
  let n4 := n / DI4Y in let n := n mod DI4Y in
  let n1 := n / 365 in let n := n mod 365 in
  let y := n400 * 400 + 1 + n100 * 100 + n4 * 4 + n1 in
  if (n1 =? 4) || (n100 =? 4) then mkdate (y - 1) 12 31
  else
    let leapyear := (n1 =? 3) && (negb (n4 =? 24) || (n100 =? 3)) in
    let m := Z.shiftr (n + 50) 5 in
    let preceding := days_before_month leapyear m in
    if n <? preceding then
      let m' := m - 1 in
      let preceding' :=
        preceding - (month_entry DAYS_IN_MONTH m'
                     + (if (m' =? 2) && leapyear then 1 else 0)) in
      mkdate y m' (n - preceding' + 1)
    else mkdate y m (n - preceding + 1).

(** [d + timedelta(days=k)]. *)
Definition add_days (d : date) (k : Z) : Py.exn + date :=
  let o := toordinal d + k in
  if (1 <=? o) && (o <=? MAXORDINAL) then inr (fromordinal o)
  else inl Py.OverflowError.

(** [(a - b).days]. *)
Definition days_between (a b : date) : Z := toordinal a - toordinal b.

(** [d.weekday()]: Monday is 0. *)
Definition weekday (d : date) : Z := (toordinal d + 6) mod 7.

Definition isoweek1monday (y : Z) : Z :=
  let firstday := toordinal (mkdate y 1 1) in
  let firstweekday := (firstday + 6) mod 7 in
  let week1monday := firstday - firstweekday in
  if 3 <? firstweekday then week1monday + 7 else week1monday.

(** [d.isocalendar()[1]]. *)
Definition isoweek (d : date) : Z :=
  let today := toordinal d in
  let week := (today - isoweek1monday (year d)) / 7 in
  if week <? 0 then (today - isoweek1monday (year d - 1)) / 7 + 1
  else if (52 <=? week) && (isoweek1monday (year d + 1) <=? today) then 1
  else week + 1.

Definition MONTH_NAMES : list string :=
  ["January"; "February"; "March"; "April"; "May"; "June"; "July";
   "August"; "September"; "October"; "November"; "December"]%string.

Definition DAY_NAMES : list string :=
  ["Monday"; "Tuesday"; "Wednesday"; "Thursday"; "Friday"; "Saturday";
   "Sunday"]%string.

(** [strftime]: the four formats the generator uses.  CPython hands the
    format to the C library, and glibc's [%Y] prints the year without
    padding: 999-12-15 is ['999-12-15'], not ['0999-12-15'].  [%m] and [%d]
    are two digits. *)
Definition fmt_Ymd (d : date) : string :=        (* '%Y%m%d' *)
  Py.str (year d) +:+ Py.fmt_0d 2 (month d) +:+ Py.fmt_0d 2 (day d).

Definition fmt_Y_m_d (d : date) : string :=      (* '%Y-%m-%d' *)
  Py.str (year d) +:+ "-" +:+ Py.fmt_0d 2 (month d) +:+ "-"
    +:+ Py.fmt_0d 2 (day d).

Definition fmt_B (d : date) : string :=          (* '%B' *)
  nth (Z.to_nat (month d - 1)) MONTH_NAMES EmptyString.

Definition fmt_A (d : date) : string :=          (* '%A' *)
  nth (Z.to_nat (weekday d)) DAY_NAMES EmptyString.

End Datetime.

(** ** The six tables

    One record per table; the field names are the column names of the
    data frames the generator builds. *)

Module DimDate.
Record row : Type := mk {
  date_key : string;
  full_date : string;
  year : Z;
  month : Z;
  month_name : string;
  quarter : Z;
  day_of_week : Z;
  day_name : string;
  week_number : Z;
  fiscal_week : Z;
  fiscal_year : Z;
  is_weekend : Z;
  is_bank_holiday : Z
}.
Definition with_bank_holiday (r : row) (flag : Z) : row :=
  mk (date_key r) (full_date r) (year r) (month r) (month_name r) (quarter r)
     (day_of_week r) (day_name r) (week_number r) (fiscal_week r)
     (fiscal_year r) (is_weekend r) flag.
End DimDate.

Module DimStore.
Record row : Type := mk {
  store_id : Z;
  store_name : string;
  region : string;
  format : string;
  size_sqft : Z;
  manager_id : Z;
  opening_date : string;
  target_weekly_sales : Z
}.
End DimStore.

Module DimProduct.
Record row : Type := mk {
  product_id : Z;
  product_name : string;
  category : string;
  subcategory : string;
  unit_price : Q;
  cost_price : Q;
  margin_band : string;
  supplier_id : Z;
  is_own_label : Z
}.
End DimProduct.

Module FactTransactions.
Record row : Type := mk {
  transaction_id : string;
  store_id : Z;
  product_id : Z;
  transaction_date : string;
  transaction_hour : Z;
  quantity : Z;
  unit_price : Q;
  net_sales_value : Q;
  transaction_type : string
}.
End FactTransactions.

Module FactLabour.
Record row : Type := mk {
  store_id : Z;
  shift_date : string;
  fiscal_week : Z;
  contracted_hours : Q;
  actual_hours : Q;
  hourly_rate : Q;
  total_labour_cost : Q
}.
End FactLabour.

Module FactShrinkage.
Record row : Type := mk {
  store_id : Z;
  shrinkage_date : string;
  fiscal_week : Z;
  cause_code : string;
  category : string;
  shrinkage_value : Q
}.
End FactShrinkage.

(** What [to_csv] writes: the rows of one of the six data frames. *)
Inductive Table : Type :=
  | TDimDate (rows : list DimDate.row)
  | TDimStore (rows : list DimStore.row)
  | TDimProduct (rows : list DimProduct.row)
  | TFactTransactions (rows : list FactTransactions.row)
  | TFactLabour (rows : list FactLabour.row)
  | TFactShrinkage (rows : list FactShrinkage.row).

(** ** The random source and the effects of a run *)

(** The bit generator behind [numpy.random]: its state, seeding, and the
    four primitive draws the samplers below are built from. *)
Class RandomState : Type := {
  rng : Type;
  (** [np.random.seed(n)] *)
  seed : Z -> rng;
  (** a double in the half-open unit interval *)
  random_sample : rng -> Q * rng;
  (** an integer in [[low, high)], for [low < high] *)
  bounded_int : Z -> Z -> rng -> Z * rng;
  (** unit normal and unit exponential variates *)
  standard_normal : rng -> Q * rng;
  standard_exponential : rng -> Q * rng;
  (** [RandomState(n).choice(population, size, replace=False)]: the
      positions [DataFrame.sample] keeps, in order *)
  sample_positions : Z -> Z -> Z -> list nat;
  random_sample_range :
    forall s, (0 <= fst (random_sample s))%Q /\ (fst (random_sample s) < 1)%Q;
  bounded_int_range :
    forall low high s, low < high ->
      low <= fst (bounded_int low high s) < high
}.

Section Effects.
Context {RS : RandomState}.

(** The state a run acts on: the global NumPy generator, the files on
    disk and the lines printed so far. *)
Record World : Type := mkWorld {
  w_rng : rng;
  w_files : gmap string Table;
  w_stdout : list string
}.

(** A computation that may raise; the world it leaves behind is kept in
    both cases (files already written stay written). *)
Definition M (A : Type) : Type := World -> (Py.exn + A) * World.

Definition ret {A} (a : A) : M A := fun w => (inr a, w).

Definition raise {A} (e : Py.exn) : M A := fun w => (inl e, w).

Definition bind {A B} (m : M A) (k : A -> M B) : M B :=
  fun w =>
    match m w with
    | (inr a, w') => k a w'
    | (inl e, w') => (inl e, w')
    end.

(** Lift a pure computation that may raise. *)
Definition lift {A} (r : Py.exn + A) : M A :=
  match r with
  | inr a => ret a
  | inl e => raise e
  end.

(** Draw with one of the primitives of the global generator. *)
Definition draw {A} (f : rng -> A * rng) : M A :=
  fun w =>
    let '(a, s) := f (w_rng w) in
    (inr a, mkWorld s (w_files w) (w_stdout w)).

Definition print (line : string) : M unit :=
  fun w => (inr tt, mkWorld (w_rng w) (w_files w) (w_stdout w ++ [line])).

(** [df.to_csv(path, index=False)]: creates or overwrites the file. *)
Definition to_csv (path : string) (t : Table) : M unit :=
  fun w => (inr tt, mkWorld (w_rng w) (<[path := t]> (w_files w)) (w_stdout w)).

End Effects.

Declare Scope gen_scope.
Delimit Scope gen_scope with gen.
Notation "x <- m ;; k" := (bind m (fun x => k))
  (at level 100, m at next level, right associativity) : gen_scope.
Notation "m ;;; k" := (bind m (fun _ => k))
  (at level 100, right associativity) : gen_scope.

Local Open Scope gen_scope.

(** ** [numpy.random]: the samplers the generator calls *)

Module Np.
Section Samplers.
Context {RS : RandomState}.

Definition seed_ (n : Z) : M unit :=
  fun w => (inr tt, mkWorld (seed n) (w_files w) (w_stdout w)).

(** [np.random.randint(low, high)]; raises when the range is empty. *)
Definition randint (low high : Z) : M Z :=
  if high <=? low then raise Py.ValueError else draw (bounded_int low high).

Definition random : M Q := draw random_sample.

Definition uniform (low high : Q) : M Q :=
  u <- draw random_sample ;; ret (low + (high - low) * u)%Q.

Definition normal (loc scale : Q) : M Q :=
  z <- draw standard_normal ;; ret (loc + scale * z)%Q.

Definition exponential (scale : Q) : M Q :=
  e <- draw standard_exponential ;; ret (scale * e)%Q.

Definition Qsum (p : list Q) : Q := fold_left Qplus p 0%Q.

(** Running sums of [p]: [p.cumsum()]. *)
Fixpoint cumsum (acc : Q) (p : list Q) : list Q :=
  match p with
  | [] => []
  | x :: rest => (acc + x)%Q :: cumsum (acc + x)%Q rest
  end.

(** The tolerance of the check on [p]: the square root of the binary64
    machine epsilon, [2 ^ -26]. *)
Definition ATOL : Q := 1 # 67108864.

(** The argument checks of [choice(a, p=p)], in NumPy's order: a
    non-empty population, as many weights as elements, no negative weight,
    and weights that sum to one within [ATOL]. *)
Definition valid_weights (n : nat) (p : list Q) : bool :=
  negb (Nat.eqb n 0)
  && Nat.eqb (length p) n
  && forallb (fun x => Qle_bool 0 x) p
  && Qle_bool (Qabs (Qsum p - 1)) ATOL.

(** [cdf.searchsorted(u, side='right')] on the normalised running sums. *)
Definition searchsorted_right (p : list Q) (u : Q) : nat :=
  let total := Qsum p in
  length (List.filter (fun c => Qle_bool (c / total) u) (cumsum 0%Q p)).

(** [np.random.choice(a, p=p)] for a single draw. *)
Definition choice_p {A} (a : list A) (p : list Q) : M A :=
  if valid_weights (length a) p then
    u <- draw random_sample ;;
    match a !! searchsorted_right p u with
    | Some x => ret x
    | None => raise Py.IndexError
    end
  else raise Py.ValueError.

(** [np.random.choice(a)]: a uniform position. *)
Definition choice {A} (a : list A) : M A :=
  match a with
  | [] => raise Py.ValueError
  | _ =>
      i <- draw (bounded_int 0 (Z.of_nat (length a))) ;;
      match a !! Z.to_nat i with
      | Some x => ret x
      | None => raise Py.IndexError
      end
  end.

End Samplers.
End Np.

(** ** The generator: [data/generate_synthetic_data.py] *)

Module Generator.

Record Config : Type := mkConfig {
  N_STORES : Z;
  N_PRODUCTS : Z;
  N_DAYS : Z;
  START_DATE : Datetime.date
}.

(** The configuration block of the script. *)
Definition CONFIG : Config := mkConfig 20 500 730 (Datetime.mkdate 2023 1 1).

Definition SEED : Z := 42.
Definition OUTPUT_DIR : string := "data/generated".

Definition newline : string := String (ascii_of_nat 10) EmptyString.

(** A loop over [xs] that updates the local variables [s]. *)
Fixpoint for_ {RS : RandomState} {A S : Type}
    (xs : list A) (s : S) (body : A -> S -> M S) : M S :=
  match xs with
  | [] => ret s
  | x :: rest => s' <- body x s ;; for_ rest s' body
  end.

(** A comprehension whose element expression may raise. *)
Fixpoint traverse {A B : Type} (f : A -> Py.exn + B) (xs : list A)
    : Py.exn + list B :=
  match xs with
  | [] => inr []
  | x :: rest =>
      match f x with
      | inl e => inl e
      | inr y =>
          match traverse f rest with
          | inl e => inl e
          | inr ys => inr (y :: ys)
          end
      end
  end.

(** *** DIM: DATE *)

Definition date_row (start d : Datetime.date) : DimDate.row :=
  DimDate.mk
    (Datetime.fmt_Ymd d)
    (Datetime.fmt_Y_m_d d)
    (Datetime.year d)
    (Datetime.month d)
    (Datetime.fmt_B d)
    ((Datetime.month d - 1) / 3 + 1)
    (Datetime.weekday d)
    (Datetime.fmt_A d)
    (Datetime.isoweek d)
    (Datetime.days_between d start / 7 + 1)
    (if Datetime.year d =? 2023 then 2023 else 2024)
    (if 5 <=? Datetime.weekday d then 1 else 0)
    0.

(** The [df.loc[...] = 1] update: December rows whose day of month, read
    back from characters 8..9 of [full_date], is at least 15. *)
Definition mark_christmas (r : DimDate.row) : Py.exn + DimDate.row :=
  match Py.parse_int (Py.slice 8 10 (DimDate.full_date r)) with
  | inl e => inl e
  | inr dd =>
      inr (if (DimDate.month r =? 12) && (15 <=? dd)
           then DimDate.with_bank_holiday r 1 else r)
  end.

(** With no dates every column of the frame is built from an empty list
    and gets the dtype float64; the [.str] accessor of the update then
    raises AttributeError. *)
Definition generate_dim_date (cfg : Config) : Py.exn + list DimDate.row :=
  match traverse (Datetime.add_days (START_DATE cfg)) (Py.range 0 (N_DAYS cfg)) with
  | inl e => inl e
  | inr [] => inl Py.AttributeError
  | inr dates => traverse mark_christmas (map (date_row (START_DATE cfg)) dates)
  end.

Section WithRandomState.
Context {RS : RandomState}.

(** *** DIM: STORE *)

Definition REGIONS : list string :=
  ["London"; "South East"; "Midlands"; "North West"; "Yorkshire";
   "Scotland"; "Wales"; "South West"; "North East"; "East Anglia"]%string.

Definition FORMATS : list string :=
  ["High Street"; "Retail Park"; "Superstore"; "Local"]%string.

(** [xs[i % len(xs)]] *)
Definition cyclic (xs : list string) (i : Z) : string :=
  nth (Z.to_nat (i mod Z.of_nat (length xs))) xs EmptyString.

Definition generate_dim_store (cfg : Config) : M (list DimStore.row) :=
  for_ (Py.range 1 (N_STORES cfg + 1)) [] (fun i stores =>
    size_sqft <- Np.randint 3000 20000 ;;
    target_weekly_sales <- Np.randint 80000 250000 ;;
    ret (stores ++
         [DimStore.mk i ("Store " +:+ Py.fmt_0d 3 i) (cyclic REGIONS i)
            (cyclic FORMATS i) size_sqft i "2015-01-01" target_weekly_sales])).

(** *** DIM: PRODUCT *)

Definition CATEGORIES : list (string * list string) :=
  [("Frozen", ["Ready Meals"; "Ice Cream"; "Vegetables"; "Meat"]);
   ("Grocery", ["Tinned Goods"; "Cereals"; "Condiments"; "Pasta"]);
   ("Chilled", ["Dairy"; "Cooked Meats"; "Salads"; "Dips"]);
   ("Bakery", ["Bread"; "Cakes"; "Pastries"]);
   ("Drinks", ["Soft Drinks"; "Juices"; "Water"; "Energy"]);
   ("Household", ["Cleaning"; "Paper"; "Laundry"])]%string.

Definition margin_band_of (price : Q) : string :=
  if Py.Qltb price 2 then "Low" else if Py.Qltb price 5 then "Mid" else "High".

(** One pass of the innermost loop: a product of [subcat], numbered [pid]. *)
Definition new_product (cat subcat : string) (pid : Z) : M DimProduct.row :=
  u <- Np.uniform 0.49 8.99 ;;
  let price := Py.round u 2 in
  f <- Np.uniform 0.45 0.70 ;;
  supplier_id <- Np.randint 1 50 ;;
  is_own_label <- Np.choice_p [0; 1] [0.6; 0.4]%Q ;;
  ret (DimProduct.mk pid (subcat +:+ " Product " +:+ Py.str pid) cat subcat
         price (Py.round (price * f) 2) (margin_band_of price)
         supplier_id is_own_label).

Definition generate_dim_product (cfg : Config) : M (list DimProduct.row) :=
  st <- for_ CATEGORIES ([], 1) (fun '(cat, subcats) st =>
    for_ subcats st (fun subcat st =>
      let n := N_PRODUCTS cfg / 20 in
      for_ (Py.range 0 n) st (fun _ '(products, pid) =>
        p <- new_product cat subcat pid ;;
        ret (products ++ [p], pid + 1)))) ;;
  ret (fst st).

(** *** FACT: TRANSACTIONS *)

Definition QUANTITIES : list Z := [1; 1; 1; 2; 2; 3].
Definition QUANTITY_WEIGHTS : list Q := [0.4; 0.25; 0.15; 0.1; 0.07; 0.03]%Q.

(** The weights given for the hour of day, [range(7, 22)]. *)
Definition HOUR_WEIGHTS : list Q :=
  [0.02; 0.04; 0.08; 0.10; 0.12; 0.12; 0.11; 0.10; 0.09; 0.08; 0.06; 0.04;
   0.03; 0.01; 0.01]%Q.

Definition seasonal_multiplier (month day_of_week : Z) : Q :=
  let seasonal := 1.0%Q in
  let seasonal := if month =? 12 then 1.4%Q else seasonal in
  let seasonal := if (month =? 7) || (month =? 8) then 0.85%Q else seasonal in
  if (day_of_week =? 4) || (day_of_week =? 5) then (seasonal * 1.15)%Q
  else seasonal.

(** [dim_product[dim_product['product_id'] == product_id].iloc[0]] *)
Definition product_with_id (dim_product : list DimProduct.row) (product_id : Z)
    : M DimProduct.row :=
  match List.filter (fun p => DimProduct.product_id p =? product_id) dim_product with
  | p :: _ => ret p
  | [] => raise Py.IndexError
  end.

(** The body of the innermost loop: one transaction appended, the counter
    advanced.  [hour_weights] stands for the literal [HOUR_WEIGHTS]. *)
Definition new_transaction (hour_weights : list Q)
    (dim_product : list DimProduct.row) (date_str : string) (store_id : Z)
    (st : list FactTransactions.row * Z)
    : M (list FactTransactions.row * Z) :=
  let '(transactions, tid) := st in
  product_id <- Np.randint 1 (Z.of_nat (length dim_product) + 1) ;;
  product <- product_with_id dim_product product_id ;;
  quantity <- Np.choice_p QUANTITIES QUANTITY_WEIGHTS ;;
  r1 <- Np.random ;;
  let product_id := if Py.Qltb r1 0.02 then 9999 else product_id in
  r2 <- Np.random ;;
  tid_val <- (if Py.Qltb r2 0.01
              then k <- Np.randint 1 10 ;; ret (tid - k)
              else ret tid) ;;
  hour <- Np.choice_p (Py.range 7 22) hour_weights ;;
  ret (transactions ++
       [FactTransactions.mk ("T" +:+ Py.fmt_0d 8 tid_val) store_id product_id
          date_str hour quantity (DimProduct.unit_price product)
          (Py.round (inject_Z quantity * DimProduct.unit_price product) 2)
          "SALE"],
       tid + 1).

Definition SAMPLE_CAP : Z := 200000.

(** [df.sample(n, random_state=s).reset_index(drop=True)] *)
Definition sample {A} (df : list A) (n : Z) (s : Z) : list A :=
  omap (fun i => df !! i) (sample_positions s (Z.of_nat (length df)) n).

Definition generate_fact_transactions_with (hour_weights : list Q)
    (cfg : Config) (dim_date : list DimDate.row)
    (dim_store : list DimStore.row) (dim_product : list DimProduct.row)
    : M (list FactTransactions.row) :=
  print "Generating transactions (this takes ~60 seconds)..." ;;;
  st <- for_ dim_date ([], 1) (fun date_row st =>
    let date_str := DimDate.full_date date_row in
    let seasonal :=
      seasonal_multiplier (DimDate.month date_row) (DimDate.day_of_week date_row) in
    for_ (Py.range 1 (N_STORES cfg + 1)) st (fun store_id st =>
      x <- Np.normal 150 30 ;;
      let n_transactions := Py.int (x * seasonal) in
      let n_transactions := Z.max 50 (Z.min 350 n_transactions) in
      for_ (Py.range 0 n_transactions) st (fun _ st =>
        new_transaction hour_weights dim_product date_str store_id st))) ;;
  let df := fst st in
  if SAMPLE_CAP <? Z.of_nat (length df) then ret (sample df SAMPLE_CAP 42) else ret df.

(** The function of the script: the loop above with the weights as written. *)
Definition generate_fact_transactions :=
  generate_fact_transactions_with HOUR_WEIGHTS.

(** *** FACT: LABOUR *)

Definition new_shift (date_row : DimDate.row) (store_id : Z) : M FactLabour.row :=
  contracted <- Np.uniform 40 120 ;;
  f <- Np.uniform 0.90 1.15 ;;
  let actual := (contracted * f)%Q in
  hourly_rate <- Np.uniform 10.42 13.50 ;;
  ret (FactLabour.mk store_id (DimDate.full_date date_row)
         (DimDate.fiscal_week date_row) (Py.round contracted 1)
         (Py.round actual 1) (Py.round hourly_rate 2)
         (Py.round (actual * hourly_rate) 2)).

Definition generate_fact_labour (cfg : Config) (dim_date : list DimDate.row)
    : M (list FactLabour.row) :=
  for_ dim_date [] (fun date_row labour =>
    for_ (Py.range 1 (N_STORES cfg + 1)) labour (fun store_id labour =>
      r <- new_shift date_row store_id ;;
      ret (labour ++ [r]))).

(** *** FACT: SHRINKAGE *)

Definition CAUSE_CODES : list string :=
  ["SHOPLIFTING"; "ADMIN_ERROR"; "SUPPLIER_FRAUD"; "STAFF_THEFT"; "WASTAGE"]%string.
Definition CAUSE_WEIGHTS : list Q := [0.45; 0.20; 0.10; 0.10; 0.15]%Q.
Definition SHRINK_CATEGORIES : list string :=
  ["Frozen"; "Grocery"; "Chilled"; "Bakery"; "Drinks"; "Household"]%string.

Definition generate_fact_shrinkage (cfg : Config) (dim_date : list DimDate.row)
    : M (list FactShrinkage.row) :=
  for_ dim_date [] (fun date_row shrinkage =>
    for_ (Py.range 1 (N_STORES cfg + 1)) shrinkage (fun store_id shrinkage =>
      r <- Np.random ;;
      if Py.Qltb r 0.3 then
        base_value <- Np.exponential 50 ;;
        r' <- Np.random ;;
        let base_value := if Py.Qltb r' 0.05 then (base_value * 5)%Q else base_value in
        cause_code <- Np.choice_p CAUSE_CODES CAUSE_WEIGHTS ;;
        category <- Np.choice SHRINK_CATEGORIES ;;
        ret (shrinkage ++
             [FactShrinkage.mk store_id (DimDate.full_date date_row)
                (DimDate.fiscal_week date_row) cause_code category
                (Py.round base_value 2)])
      else ret shrinkage)).

(** *** MAIN *)

Definition path (name : string) : string := OUTPUT_DIR +:+ "/" +:+ name.

Definition len {A} (df : list A) : Z := Z.of_nat (length df).

(** The script run as a program: the seeding at import time, then the
    [__main__] block.  ([os.makedirs] only creates the directory.) *)
Definition main (cfg : Config) : M unit :=
  Np.seed_ SEED ;;;
  print "Generating dimension tables..." ;;;
  dim_date <- lift (generate_dim_date cfg) ;;
  dim_store <- generate_dim_store cfg ;;
  dim_product <- generate_dim_product cfg ;;
  to_csv (path "dim_date.csv") (TDimDate dim_date) ;;;
  to_csv (path "dim_store.csv") (TDimStore dim_store) ;;;
  to_csv (path "dim_product.csv") (TDimProduct dim_product) ;;;
  print ("  dim_date: " +:+ Py.str (len dim_date) +:+ " rows") ;;;
  print ("  dim_store: " +:+ Py.str (len dim_store) +:+ " rows") ;;;
  print ("  dim_product: " +:+ Py.str (len dim_product) +:+ " rows") ;;;
  print "Generating fact tables..." ;;;
  fact_transactions <- generate_fact_transactions cfg dim_date dim_store dim_product ;;
  fact_labour <- generate_fact_labour cfg dim_date ;;
  fact_shrinkage <- generate_fact_shrinkage cfg dim_date ;;
  to_csv (path "fact_transactions.csv") (TFactTransactions fact_transactions) ;;;
  to_csv (path "fact_labour.csv") (TFactLabour fact_labour) ;;;
  to_csv (path "fact_shrinkage.csv") (TFactShrinkage fact_shrinkage) ;;;
  print ("  fact_transactions: " +:+ Py.fmt_commas (len fact_transactions) +:+ " rows") ;;;
  print ("  fact_labour: " +:+ Py.fmt_commas (len fact_labour) +:+ " rows") ;;;
  print ("  fact_shrinkage: " +:+ Py.fmt_commas (len fact_shrinkage) +:+ " rows") ;;;
  print (newline +:+ "All files saved to " +:+ OUTPUT_DIR +:+ "/") ;;;
  print "Next step: run sql/01_create_schema.sql to set up the database".

End WithRandomState.
End Generator.

(** ** A scripted random source

    A bit generator whose stream is written out in advance: the state is
    the list of raw variates still to come (zero once it is used up).  It
    serves to run the generator on concrete draws. *)

Module Scripted.

Definition unit_interval (u : Q) : Q :=
  if Qle_bool 0 u && Py.Qltb u 1 then u else 0%Q.

Definition pop (s : list Q) : Q * list Q :=
  match s with
  | [] => (0%Q, [])
  | u :: rest => (u, rest)
  end.

Definition next_sample (s : list Q) : Q * list Q :=
  (unit_interval (fst (pop s)), snd (pop s)).

(** The raw variate scaled to the width of the range, rounded down. *)
Definition next_int (low high : Z) (s : list Q) : Z * list Q :=
  (low + Qfloor (unit_interval (fst (pop s)) * inject_Z (high - low)), snd (pop s)).

Lemma unit_interval_range u :
  (0 <= unit_interval u)%Q /\ (unit_interval u < 1)%Q.
Proof.
  unfold unit_interval, Py.Qltb.
  destruct (Qle_bool 0 u) eqn:H0; simpl; [| unfold Qle, Qlt; simpl; lia].
  destruct (Qle_bool 1 u) eqn:H1; simpl; [unfold Qle, Qlt; simpl; lia |].
  apply Qle_bool_iff in H0. split; [exact H0 |].
  apply Qnot_le_lt. intros H. apply Qle_bool_iff in H. congruence.
Qed.

Lemma next_int_range low high s :
  low < high -> low <= fst (next_int low high s) < high.
Proof.
  intros Hlt. unfold next_int. cbn [fst].
  destruct (unit_interval_range (fst (pop s))) as [H0 H1].
  set (u := unit_interval (fst (pop s))) in *.
  set (n := high - low).
  assert (Hn : (0 < inject_Z n)%Q).
  { change 0%Q with (inject_Z 0). rewrite <- Zlt_Qlt. unfold n. lia. }
  assert (Hlo : 0 <= Qfloor (u * inject_Z n)).
  { change 0 with (Qfloor (inject_Z 0)). apply Qfloor_resp_le.
    change (inject_Z 0) with 0%Q. apply Qmult_le_0_compat; [exact H0 |].
    apply Qlt_le_weak, Hn. }
  assert (Hhi : Qfloor (u * inject_Z n) < n).
  { rewrite Zlt_Qlt. eapply Qle_lt_trans; [apply Qfloor_le |].
    apply Qlt_le_trans with (1 * inject_Z n)%Q;
      [apply Qmult_lt_compat_r; assumption |].
    rewrite Qmult_1_l. apply Qle_refl. }
  unfold n in *. lia.
Qed.

(** The source whose stream after [np.random.seed(n)] is [stream n]. *)
#[refine] Instance source (stream : Z -> list Q) : RandomState := {|
  rng := list Q;
  seed := stream;
  random_sample := next_sample;
  bounded_int := next_int;
  standard_normal := pop;
  standard_exponential := pop;
  sample_positions := fun _ population n => seq 0 (Z.to_nat (Z.min population n))
|}.
Proof.
  - intros s. apply unit_interval_range.
  - apply next_int_range.
Defined.

(** A world with no files and nothing printed, its generator at [s]. *)
Definition world (stream : Z -> list Q) (s : list Q) : @World (source stream) :=
  mkWorld (RS := source stream) s ∅ [].

End Scripted.

(** ** The loader: [python/load_to_database.py] *)

Module Loader.

Definition DATA_DIR : string := "data/generated".
Definition DB_PATH : string := "data/retail_kpi.db".

(** What [pd.read_csv] returns: a header and the records below it. *)
Record DataFrame : Type := mkDataFrame {
  columns : list string;
  records : list (list string)
}.

Definition len (df : DataFrame) : Z := Z.of_nat (length (records df)).

Inductive exn : Type :=
  | FileNotFoundError
  | ReadError          (* [read_csv] rejects the file: empty, malformed *)
  | OperationalError.  (* SQLite: unknown database *)

(** The files on disk (path to contents), the tables of the database
    behind the engine, keyed by schema and name, and the lines printed. *)
Record World : Type := mkWorld {
  fs : gmap string string;
  db : gmap (string * string) DataFrame;
  stdout : list string
}.

Definition newline : string := String (ascii_of_nat 10) EmptyString.
Definition dquote : string := String (ascii_of_nat 34) EmptyString.

(** The lines the loader prints. *)
Definition loaded_message (df : DataFrame) (table_name schema : string) : string :=
  "  Loaded " +:+ Py.fmt_commas (len df) +:+ " rows → " +:+ schema +:+ "."
    +:+ table_name.

Definition warning (filepath : string) : string :=
  "  WARNING: " +:+ filepath +:+ " not found — run generate_synthetic_data.py first".

Definition total_message (total : Z) : string :=
  newline +:+ "Total rows loaded: " +:+ Py.fmt_commas total.

Definition READY_MESSAGE : string :=
  "Database ready. Open a SQL client pointed at: " +:+ DB_PATH.

Definition HINT_MESSAGE : string :=
  "Or use: python -c " +:+ dquote
    +:+ "import sqlite3; conn=sqlite3.connect('data/retail_kpi.db')" +:+ dquote.

Section WithParser.

(** [pd.read_csv] on the contents of a file; [None] when it raises. *)
Variable read_csv : string -> option DataFrame.

(** The schemas a connection made by [create_engine('sqlite:///...')]
    knows: the database file itself and the temporary database.  The script
    attaches no other. *)
Definition ATTACHED : list string := ["main"; "temp"]%string.

(** [df.to_sql(name, engine, schema=schema, if_exists='replace')]: the
    table [schema.name] is dropped if it exists and created from [df].
    SQLite rejects a statement on a schema that is not attached (unknown
    database), and nothing is written. *)
Definition to_sql (df : DataFrame) (table_name schema : string) (w : World)
    : exn + World :=
  if bool_decide (schema ∈ ATTACHED)
  then inr (mkWorld (fs w) (<[(schema, table_name) := df]> (db w)) (stdout w))
  else inl OperationalError.

Definition print (line : string) (w : World) : World :=
  mkWorld (fs w) (db w) (stdout w ++ [line]).

Definition load_table (filepath table_name schema : string) (w : World)
    : (exn + Z) * World :=
  match fs w !! filepath with
  | None => (inl FileNotFoundError, w)
  | Some contents =>
      match read_csv contents with
      | None => (inl ReadError, w)
      | Some df =>
          match to_sql df table_name schema w with
          | inl e => (inl e, w)
          | inr w =>
              let w := print (loaded_message df table_name schema) w in
              (inr (len df), w)
          end
      end
  end.

Definition TABLES : list (string * string * string) :=
  [(DATA_DIR +:+ "/dim_date.csv", "dim_date", "bronze");
   (DATA_DIR +:+ "/dim_store.csv", "dim_store", "bronze");
   (DATA_DIR +:+ "/dim_product.csv", "dim_product", "bronze");
   (DATA_DIR +:+ "/fact_transactions.csv", "fact_transactions", "bronze");
   (DATA_DIR +:+ "/fact_labour.csv", "fact_labour", "bronze");
   (DATA_DIR +:+ "/fact_shrinkage.csv", "fact_shrinkage", "bronze")]%string.

(** The [for filepath, table_name, schema in tables] loop with its
    running [total]. *)
Fixpoint load_all (tables : list (string * string * string)) (total : Z)
    (w : World) : (exn + Z) * World :=
  match tables with
  | [] => (inr total, w)
  | (filepath, table_name, schema) :: rest =>
      match fs w !! filepath with
      | Some _ =>                                   (* os.path.exists *)
          match load_table filepath table_name schema w with
          | (inr n, w') => load_all rest (total + n) w'
          | (inl e, w') => (inl e, w')
          end
      | None => load_all rest total (print (warning filepath) w)
      end
  end.

Definition main (w : World) : (exn + unit) * World :=
  let w := print ("Loading data to " +:+ DB_PATH) w in
  match load_all TABLES 0 w with
  | (inl e, w') => (inl e, w')
  | (inr total, w') =>
      let w' := print (total_message total) w' in
      let w' := print READY_MESSAGE w' in
      let w' := print HINT_MESSAGE w' in
      (inr tt, w')
  end.

End WithParser.
End Loader.

(** * Properties *)

(** ** The calendar: ordinals and dates *)

Module DatetimeFacts.
Import Datetime.


(** Moving a date by whole 400-year cycles. *)
Definition shift_cycles (q : Z) (d : date) : date :=
  mkdate (year d + 400 * q) (month d) (day d).

Lemma days_before_year_cycle y q :
  days_before_year (y + 400 * q) = days_before_year y + DI400Y * q.
Proof.
  unfold days_before_year, DI400Y. cbv zeta.
  replace (y + 400 * q - 1) with (y - 1 + q * 400) by lia.
  replace (y - 1 + q * 400) with (y - 1 + (q * 100) * 4) at 2 by lia.
  replace (y - 1 + q * 400) with (y - 1 + (q * 4) * 100) at 2 by lia.
  rewrite !Z.div_add by lia. lia.
Qed.

Lemma is_leap_cycle y q : is_leap (y + 400 * q) = is_leap y.
Proof.
  unfold is_leap.
  replace ((y + 400 * q) mod 4) with (y mod 4)
    by (replace (y + 400 * q) with (y + (q * 100) * 4) by lia; now rewrite Z.mod_add).
  replace ((y + 400 * q) mod 100) with (y mod 100)
    by (replace (y + 400 * q) with (y + (q * 4) * 100) by lia; now rewrite Z.mod_add).
  replace ((y + 400 * q) mod 400) with (y mod 400)
    by (replace (y + 400 * q) with (y + q * 400) by lia; now rewrite Z.mod_add).
  reflexivity.
Qed.

Lemma toordinal_shift_cycles q d :
  toordinal (shift_cycles q d) = toordinal d + DI400Y * q.
Proof.
  unfold toordinal, shift_cycles. cbn [year month day].
  rewrite days_before_year_cycle, is_leap_cycle. lia.
Qed.

Lemma fromordinal_cycle n :
  fromordinal n =
  shift_cycles ((n - 1) / DI400Y) (fromordinal ((n - 1) mod DI400Y + 1)).
Proof.
  unfold fromordinal. cbv zeta.
  replace ((n - 1) mod DI400Y + 1 - 1) with ((n - 1) mod DI400Y) by lia.
  assert (Hr : 0 <= (n - 1) mod DI400Y < DI400Y)
    by (apply Z.mod_pos_bound; reflexivity).
  rewrite (Z.div_small ((n - 1) mod DI400Y) DI400Y) by exact Hr.
  rewrite (Z.mod_small ((n - 1) mod DI400Y) DI400Y) by exact Hr.
  set (r := (n - 1) mod DI400Y). set (q := (n - 1) / DI400Y).
  repeat match goal with
         | |- context [if ?b then _ else _] => destruct b
         end; unfold shift_cycles; cbn [year month day]; f_equal; lia.
Qed.

(** A bounded search: [P] holds on the [p] consecutive integers from [k]. *)
Fixpoint all_from (p : positive) (k : Z) (P : Z -> bool) : bool :=
  match p with
  | xH => P k
  | xO q => if all_from q k P then all_from q (k + Z.pos q) P else false
  | xI q =>
      if P k then
        if all_from q (k + 1) P then all_from q (k + 1 + Z.pos q) P else false
      else false
  end.

Lemma all_from_spec P p : forall lo k,
  all_from p lo P = true -> lo <= k < lo + Z.pos p -> P k = true.
Proof.
  induction p as [q IH | q IH |]; intros lo k Hall Hk; cbn [all_from] in Hall.
  - destruct (P lo) eqn:Hlo; [| discriminate].
    destruct (all_from q (lo + 1) P) eqn:H1; [| discriminate].
    destruct (Z.eq_dec k lo) as [-> | Hne]; [exact Hlo |].
    destruct (Z_lt_le_dec k (lo + 1 + Z.pos q)).
    + apply (IH (lo + 1)); [exact H1 | lia].
    + apply (IH (lo + 1 + Z.pos q)); [exact Hall | lia].
  - destruct (all_from q lo P) eqn:H1; [| discriminate].
    destruct (Z_lt_le_dec k (lo + Z.pos q)).
    + apply (IH lo); [exact H1 | lia].
    + apply (IH (lo + Z.pos q)); [exact Hall | lia].
  - assert (k = lo) as -> by lia. exact Hall.
Qed.

(** What is checked of the date found for position [r] of a cycle. *)
Definition date_ok (r : Z) (d : date) : bool :=
  (toordinal d =? r + 1)
  && (1 <=? year d) && (year d <=? 400)
  && ((145730 <? r) || (year d <=? 399))
  && (1 <=? month d) && (month d <=? 12)
  && (1 <=? day d) && (day d <=? 31).

Lemma date_ok_spec r d :
  date_ok r d = true ->
  toordinal d = r + 1
  /\ 1 <= year d <= 400
  /\ (r <= 145730 -> year d <= 399)
  /\ 1 <= month d <= 12
  /\ 1 <= day d <= 31.
Proof.
  unfold date_ok. generalize (toordinal d). intros o.
  rewrite !andb_true_iff, orb_true_iff.
  rewrite Z.eqb_eq, !Z.leb_le, Z.ltb_lt. lia.
Qed.

Lemma cycle_checked :
  all_from 146097 0 (fun r => date_ok r (fromordinal (r + 1))) = true.
Proof. vm_cast_no_check (eq_refl true). Qed.

Lemma cycle_facts r :
  0 <= r < 146097 ->
  toordinal (fromordinal (r + 1)) = r + 1
  /\ 1 <= year (fromordinal (r + 1)) <= 400
  /\ (r <= 145730 -> year (fromordinal (r + 1)) <= 399)
  /\ 1 <= month (fromordinal (r + 1)) <= 12
  /\ 1 <= day (fromordinal (r + 1)) <= 31.
Proof.
  intros Hr. apply date_ok_spec.
  apply (all_from_spec _ 146097 0 r cycle_checked). lia.
Qed.

Lemma toordinal_fromordinal n : toordinal (fromordinal n) = n.
Proof.
  rewrite fromordinal_cycle, toordinal_shift_cycles.
  unfold DI400Y.
  assert (Hr : 0 <= (n - 1) mod 146097 < 146097)
    by (apply Z.mod_pos_bound; reflexivity).
  destruct (cycle_facts _ Hr) as [Hord _]. rewrite Hord.
  pose proof (Z.div_mod (n - 1) 146097). lia.
Qed.

Lemma fromordinal_valid n :
  1 <= n <= 3652059 ->
  1 <= year (fromordinal n) <= 9999
  /\ 1 <= month (fromordinal n) <= 12
  /\ 1 <= day (fromordinal n) <= 31.
Proof.
  intros Hn. rewrite fromordinal_cycle. unfold DI400Y.
  assert (Hr : 0 <= (n - 1) mod 146097 < 146097)
    by (apply Z.mod_pos_bound; reflexivity).
  destruct (cycle_facts _ Hr) as (_ & Hy & Hy' & Hm & Hd).
  unfold shift_cycles. cbn [year month day].
  generalize dependent (fromordinal ((n - 1) mod 146097 + 1)). intros d Hy Hy' Hm Hd.
  pose proof (Z.div_mod (n - 1) 146097 ltac:(lia)) as Hdm.
  assert (Hq : 0 <= (n - 1) / 146097 <= 24).
  { split; [apply Z.div_pos; lia |].
    assert ((n - 1) / 146097 < 25) by (apply Z.div_lt_upper_bound; lia). lia. }
  lia.
Qed.

(** From 1000-01-01 (ordinal 364878) on, the year has four digits. *)
Lemma year_fromordinal_ge n :
  364878 <= n -> 1000 <= year (fromordinal n).
Proof.
  intros Hn. unfold fromordinal, DI400Y, DI100Y, DI4Y. cbv zeta.
  set (N := n - 1).
  pose proof (Z.div_mod N 146097 ltac:(lia)) as H400.
  pose proof (Z.mod_pos_bound N 146097 ltac:(lia)) as B400.
  set (a := N / 146097) in *. set (r1 := N mod 146097) in *.
  pose proof (Z.div_mod r1 36524 ltac:(lia)) as H100.
  pose proof (Z.mod_pos_bound r1 36524 ltac:(lia)) as B100.
  set (b := r1 / 36524) in *. set (r2 := r1 mod 36524) in *.
  pose proof (Z.div_mod r2 1461 ltac:(lia)) as H4.
  pose proof (Z.mod_pos_bound r2 1461 ltac:(lia)) as B4.
  set (c := r2 / 1461) in *. set (r3 := r2 mod 1461) in *.
  pose proof (Z.div_mod r3 365 ltac:(lia)) as H1.
  pose proof (Z.mod_pos_bound r3 365 ltac:(lia)) as B1.
  set (e := r3 / 365) in *. set (r4 := r3 mod 365) in *.
  assert (HN : 364877 <= N) by (unfold N; lia).
  clearbody N a r1 b r2 c r3 e r4.
  assert (Hy : 1000 <= a * 400 + 1 + b * 100 + c * 4 + e).
  { assert (a = 2 \/ 3 <= a) as [-> | Ha] by lia; [| lia].
    assert (b = 1 \/ 2 <= b) as [-> | Hb] by lia; [| lia].
    assert (c = 24) as -> by lia. lia. }
  assert (Hspecial : e = 4 \/ b = 4 -> 1001 <= a * 400 + 1 + b * 100 + c * 4 + e).
  { intros [-> | ->]; [| lia].
    assert (a = 2 \/ 3 <= a) as [-> | Ha] by lia; [| lia].
    assert (b = 1 \/ 2 <= b) as [-> | Hb] by lia; [| lia].
    assert (c = 24) as -> by lia. lia. }
  destruct ((e =? 4) || (b =? 4)) eqn:Hsp.
  - cbn [year]. apply orb_true_iff in Hsp as [Hsp | Hsp];
      apply Z.eqb_eq in Hsp; lia.
  - repeat match goal with
           | |- context [if ?x then _ else _] => destruct x
           end; cbn [year]; lia.
Qed.

End DatetimeFacts.

(** ** Ranges and comprehensions *)

Lemma length_range lo hi : length (Py.range lo hi) = Z.to_nat (hi - lo).
Proof. unfold Py.range. now rewrite length_map, length_seq. Qed.

Lemma lookup_range lo hi (i : nat) :
  (i < Z.to_nat (hi - lo))%nat -> Py.range lo hi !! i = Some (lo + Z.of_nat i).
Proof.
  intros Hi. unfold Py.range. rewrite list_lookup_fmap.
  rewrite lookup_seq_lt by exact Hi. reflexivity.
Qed.

Lemma elem_of_range lo hi k : k ∈ Py.range lo hi <-> lo <= k < hi.
Proof.
  unfold Py.range. rewrite list_elem_of_fmap. split.
  - intros (i & -> & Hi). apply elem_of_seq in Hi. lia.
  - intros Hk. exists (Z.to_nat (k - lo)). split; [lia |].
    apply elem_of_seq. lia.
Qed.

Lemma range_empty lo hi : hi <= lo -> Py.range lo hi = [].
Proof.
  intros H. unfold Py.range. replace (Z.to_nat (hi - lo)) with 0%nat by lia.
  reflexivity.
Qed.

Lemma traverse_Forall2 {A B} (f : A -> Py.exn + B) xs ys :
  Generator.traverse f xs = inr ys -> Forall2 (fun x y => f x = inr y) xs ys.
Proof.
  revert ys. induction xs as [| x xs IH]; intros ys H; cbn in H.
  - injection H as <-. constructor.
  - destruct (f x) as [e | y] eqn:Hx; [discriminate |].
    destruct (Generator.traverse f xs) as [e | ys'] eqn:Hxs; [discriminate |].
    injection H as <-. constructor; [exact Hx | now apply IH].
Qed.

Lemma traverse_total {A B} (f : A -> Py.exn + B) xs :
  Forall (fun x => exists y, f x = inr y) xs ->
  exists ys, Generator.traverse f xs = inr ys.
Proof.
  induction 1 as [| x xs [y Hy] _ [ys Hys]]; cbn.
  - now exists [].
  - rewrite Hy, Hys. now exists (y :: ys).
Qed.

(** ** The date dimension *)

Module DimDateFacts.
Import Datetime DatetimeFacts Generator.

Lemma add_days_inv d k d' :
  add_days d k = inr d' ->
  d' = fromordinal (toordinal d + k) /\ 1 <= toordinal d + k <= MAXORDINAL.
Proof.
  unfold add_days. cbv zeta.
  destruct ((1 <=? toordinal d + k) && (toordinal d + k <=? MAXORDINAL)) eqn:Hb;
    [| discriminate].
  intros [= <-]. apply andb_true_iff in Hb as [H1 H2].
  apply Z.leb_le in H1, H2. auto.
Qed.

(** The update of the holiday flag leaves every other column alone. *)
Lemma mark_christmas_inv r r' :
  mark_christmas r = inr r' ->
  DimDate.full_date r' = DimDate.full_date r
  /\ DimDate.fiscal_week r' = DimDate.fiscal_week r
  /\ DimDate.month r' = DimDate.month r
  /\ DimDate.day_of_week r' = DimDate.day_of_week r.
Proof.
  unfold mark_christmas.
  destruct (Py.parse_int _) as [e | dd]; [discriminate |].
  intros [= <-]. destruct ((DimDate.month r =? 12) && (15 <=? dd)); now cbn.
Qed.

(** A date dimension that is returned was built from at least one date. *)
Lemma generate_dim_date_inv cfg rows :
  generate_dim_date cfg = inr rows ->
  exists dates,
    traverse (add_days (START_DATE cfg)) (Py.range 0 (N_DAYS cfg)) = inr dates
    /\ dates <> []
    /\ traverse mark_christmas (map (date_row (START_DATE cfg)) dates) = inr rows.
Proof.
  unfold generate_dim_date.
  destruct (traverse _ (Py.range 0 (N_DAYS cfg))) as [e | dates];
    [discriminate |].
  destruct dates as [| d dates]; [discriminate |].
  intros Hgen. now exists (d :: dates).
Qed.

(** Row [i] of the date dimension is built from the date [i] days after
    the start. *)
Lemma dim_date_row cfg rows (i : nat) row :
  generate_dim_date cfg = inr rows ->
  rows !! i = Some row ->
  exists d,
    add_days (START_DATE cfg) (Z.of_nat i) = inr d
    /\ mark_christmas (date_row (START_DATE cfg) d) = inr row.
Proof.
  intros Hgen Hrow.
  apply generate_dim_date_inv in Hgen as (dates & Hdates & _ & Hgen).
  apply traverse_Forall2 in Hdates, Hgen.
  destruct (Forall2_lookup_r _ _ _ _ _ Hgen Hrow) as (x & Hx & Hmark).
  rewrite list_lookup_fmap in Hx.
  destruct (dates !! i) as [d |] eqn:Hd; [| discriminate]. injection Hx as <-.
  destruct (Forall2_lookup_r _ _ _ _ _ Hdates Hd) as (k & Hk & Hadd).
  assert (Hi : (i < Z.to_nat (N_DAYS cfg - 0))%nat).
  { rewrite <- length_range. eapply lookup_lt_Some, Hk. }
  rewrite lookup_range in Hk by exact Hi. injection Hk as <-.
  exists d. split; [exact Hadd | exact Hmark].
Qed.

Lemma dim_date_length cfg rows :
  generate_dim_date cfg = inr rows -> length rows = Z.to_nat (N_DAYS cfg).
Proof.
  intros Hgen.
  apply generate_dim_date_inv in Hgen as (dates & Hdates & _ & Hgen).
  apply traverse_Forall2 in Hdates, Hgen.
  apply Forall2_length in Hdates, Hgen.
  rewrite length_map in Hgen. rewrite <- Hgen, <- Hdates, length_range.
  f_equal. lia.
Qed.

(** A date dimension that is returned has a row: there is at least one
    day. *)
Lemma dim_date_nonempty cfg rows :
  generate_dim_date cfg = inr rows -> rows <> [] /\ 1 <= N_DAYS cfg.
Proof.
  intros Hgen. pose proof (dim_date_length cfg rows Hgen) as Hlen.
  apply generate_dim_date_inv in Hgen as (dates & Hdates & Hne & Hgen).
  apply traverse_Forall2, Forall2_length in Hdates, Hgen.
  rewrite length_map in Hgen.
  assert (Hpos : (0 < length rows)%nat).
  { rewrite <- Hgen. destruct dates; [congruence | cbn; lia]. }
  split; [intros ->; cbn in Hpos; lia | lia].
Qed.

(** The fiscal week the code computes for the row [i] days after the
    start: one more than the number of whole weeks elapsed. *)
Lemma dim_date_fiscal_week cfg rows (i : nat) row :
  generate_dim_date cfg = inr rows ->
  rows !! i = Some row ->
  DimDate.fiscal_week row = Z.of_nat i / 7 + 1.
Proof.
  intros Hgen Hrow.
  destruct (dim_date_row _ _ _ _ Hgen Hrow) as (d & Hadd & Hmark).
  apply mark_christmas_inv in Hmark as (_ & -> & _).
  apply add_days_inv in Hadd as [-> _].
  cbn [date_row DimDate.fiscal_week]. unfold days_between.
  rewrite toordinal_fromordinal. do 2 f_equal. lia.
Qed.

(** *** The date dimension is generated for every range of real dates *)

Lemma substring_skip s t j k :
  substring (String.length s + j) k (s +:+ t) = substring j k t.
Proof. induction s as [| c s IH]; [reflexivity | exact IH]. Qed.

Lemma year_width_checked :
  all_from 9000 1000 (fun y => Nat.eqb (String.length (Py.str y)) 4) = true.
Proof. vm_cast_no_check (eq_refl true). Qed.

Lemma day_field_checked :
  all_from 12 1 (fun m => all_from 31 1 (fun d =>
    match Py.parse_int
            (substring 4 2 ("-" +:+ Py.fmt_0d 2 m +:+ "-" +:+ Py.fmt_0d 2 d)) with
    | inr z => z =? d
    | inl _ => false
    end)) = true.
Proof. vm_cast_no_check (eq_refl true). Qed.

(** Characters 8..9 of ['%Y-%m-%d'] read back as the day of the month
    when the year has four digits. *)
Lemma day_of_full_date d :
  1000 <= year d <= 9999 -> 1 <= month d <= 12 -> 1 <= day d <= 31 ->
  Py.parse_int (Py.slice 8 10 (fmt_Y_m_d d)) = inr (day d).
Proof.
  intros Hy Hm Hd. unfold Py.slice, fmt_Y_m_d.
  pose proof (all_from_spec _ _ _ (year d) year_width_checked ltac:(lia)) as Hw.
  cbv beta in Hw. apply Nat.eqb_eq in Hw.
  change (substring 8 (10 - 8)) with (substring (4 + 4) 2). rewrite <- Hw at 1.
  rewrite substring_skip.
  pose proof (all_from_spec _ _ _ (month d) day_field_checked ltac:(lia)) as Hc.
  cbv beta in Hc.
  pose proof (all_from_spec _ _ _ (day d) Hc ltac:(lia)) as Hc'. cbv beta in Hc'.
  destruct (Py.parse_int _) as [e | z]; [discriminate |].
  apply Z.eqb_eq in Hc'. now subst.
Qed.

Lemma generate_dim_date_total cfg :
  1 <= N_DAYS cfg ->
  364878 <= toordinal (START_DATE cfg) ->
  toordinal (START_DATE cfg) + N_DAYS cfg - 1 <= MAXORDINAL ->
  exists rows, generate_dim_date cfg = inr rows.
Proof.
  intros Hdays Hlo Hhi. unfold generate_dim_date.
  destruct (traverse_total (add_days (START_DATE cfg)) (Py.range 0 (N_DAYS cfg)))
    as [dates Hdates].
  { apply Forall_forall. intros k Hk. apply elem_of_range in Hk.
    unfold add_days. cbv zeta.
    destruct (Z.leb_spec 1 (toordinal (START_DATE cfg) + k)); [| lia].
    destruct (Z.leb_spec (toordinal (START_DATE cfg) + k) MAXORDINAL); [| lia].
    eauto. }
  rewrite Hdates.
  assert (Hall : exists rows,
             traverse mark_christmas (map (date_row (START_DATE cfg)) dates)
             = inr rows).
  { apply traverse_total.
    apply traverse_Forall2 in Hdates.
    apply Forall_forall. intros r Hr. apply list_elem_of_fmap in Hr as (d & -> & Hd).
    apply list_elem_of_lookup in Hd as [i Hd].
    destruct (Forall2_lookup_r _ _ _ _ _ Hdates Hd) as (k & Hk' & Hadd).
    apply list_elem_of_lookup_2, elem_of_range in Hk'.
    apply add_days_inv in Hadd as [-> Hk].
    destruct (fromordinal_valid _ Hk) as (Hy & Hm & Hdd).
    pose proof (year_fromordinal_ge (toordinal (START_DATE cfg) + k) ltac:(lia)) as Hy'.
    unfold mark_christmas. cbn [date_row DimDate.full_date].
    rewrite day_of_full_date by (assumption || lia). eauto. }
  destruct dates as [| d dates]; [| exact Hall].
  apply traverse_Forall2, Forall2_length in Hdates.
  rewrite length_range in Hdates. cbn in Hdates. lia.
Qed.

(** Without a day there is no date dimension: the update of the holiday
    flag raises. *)
Lemma dim_date_empty cfg :
  N_DAYS cfg <= 0 -> generate_dim_date cfg = inl Py.AttributeError.
Proof.
  intros H. unfold generate_dim_date. rewrite range_empty by lia. reflexivity.
Qed.

End DimDateFacts.

(** ** Reasoning about computations in [M] *)

Section Logic.
Context {RS : RandomState}.

(** [m] never raises, touches nothing but the random state, and returns a
    value satisfying [P]. *)
Definition sampling {A} (m : M A) (P : A -> Prop) : Prop :=
  forall w, exists a s,
    m w = (inr a, mkWorld s (w_files w) (w_stdout w)) /\ P a.

(** Whenever [m] returns, the value satisfies [P]. *)
Definition returning {A} (m : M A) (P : A -> Prop) : Prop :=
  forall w a w', m w = (inr a, w') -> P a.

(** The outcome of [m] is a function of the random state it starts from:
    the same result, random state, files written and lines printed,
    whatever files and output were there before. *)
Definition framed {A} (m : M A) : Prop :=
  forall r, exists res r' written printed,
    forall w, w_rng w = r ->
      m w = (res, mkWorld r' (written ∪ w_files w) (w_stdout w ++ printed)).

(** *** Total correctness *)

Lemma sampling_ret {A} (a : A) (P : A -> Prop) : P a -> sampling (ret a) P.
Proof. intros HP [r f o]. exists a, r. now split. Qed.

Lemma sampling_bind {A B} (m : M A) (k : A -> M B) P Q :
  sampling m P -> (forall a, P a -> sampling (k a) Q) -> sampling (bind m k) Q.
Proof.
  intros Hm Hk w. destruct (Hm w) as (a & s & Hw & HP).
  destruct (Hk a HP (mkWorld s (w_files w) (w_stdout w))) as (b & s' & Hw' & HQ).
  exists b, s'. unfold bind. rewrite Hw, Hw'. now split.
Qed.

Lemma sampling_weaken {A} (m : M A) (P Q : A -> Prop) :
  sampling m P -> (forall a, P a -> Q a) -> sampling m Q.
Proof.
  intros Hm HPQ w. destruct (Hm w) as (a & s & Hw & HP). exists a, s. auto.
Qed.

Lemma sampling_draw {A} (f : rng -> A * rng) (P : A -> Prop) :
  (forall s, P (fst (f s))) -> sampling (draw f) P.
Proof.
  intros HP w. unfold draw. specialize (HP (w_rng w)).
  destruct (f (w_rng w)) as [a s]. now exists a, s.
Qed.

Lemma sampling_randint low high :
  low < high -> sampling (Np.randint low high) (fun v => low <= v < high).
Proof.
  intros Hlt. unfold Np.randint.
  destruct (Z.leb_spec high low); [lia |].
  apply sampling_draw. intros s. now apply bounded_int_range.
Qed.

Lemma sampling_random :
  sampling Np.random (fun u => (0 <= u)%Q /\ (u < 1)%Q).
Proof. apply sampling_draw, random_sample_range. Qed.

Lemma sampling_uniform low high :
  sampling (Np.uniform low high)
    (fun x => exists u, (0 <= u)%Q /\ (u < 1)%Q /\ x = (low + (high - low) * u)%Q).
Proof.
  unfold Np.uniform. eapply sampling_bind; [apply sampling_random |].
  intros u [H0 H1]. apply sampling_ret. eauto.
Qed.

Lemma sampling_normal loc scale : sampling (Np.normal loc scale) (fun _ => True).
Proof.
  unfold Np.normal. eapply sampling_bind; [now apply (sampling_draw _ (fun _ => True)) |].
  intros z _. now apply sampling_ret.
Qed.

Lemma sampling_exponential scale : sampling (Np.exponential scale) (fun _ => True).
Proof.
  unfold Np.exponential.
  eapply sampling_bind; [now apply (sampling_draw _ (fun _ => True)) |].
  intros z _. now apply sampling_ret.
Qed.

(** A loop whose body keeps a relation between the items done so far and
    the local variables. *)
Lemma sampling_for {A S} (R : list A -> S -> Prop) (body : A -> S -> M S) xs :
  (forall done x s, R done s -> sampling (body x s) (R (done ++ [x]))) ->
  forall done s, R done s ->
    sampling (Generator.for_ xs s body) (R (done ++ xs)).
Proof.
  intros Hbody. induction xs as [| x xs IH]; intros done s HR; cbn.
  - rewrite app_nil_r. now apply sampling_ret.
  - eapply sampling_bind; [apply (Hbody _ _ _ HR) |].
    intros s' HR'. replace (done ++ x :: xs) with ((done ++ [x]) ++ xs)
      by now rewrite <- app_assoc.
    now apply IH.
Qed.

Lemma sampling_for_inv {A S} (Inv : S -> Prop) (body : A -> S -> M S) xs s :
  (forall x s, Inv s -> sampling (body x s) Inv) ->
  Inv s -> sampling (Generator.for_ xs s body) Inv.
Proof.
  intros Hbody HI.
  apply (sampling_for (fun _ => Inv) body xs (fun _ => Hbody) [] s HI).
Qed.

(** *** Partial correctness *)

Lemma sampling_returning {A} (m : M A) P : sampling m P -> returning m P.
Proof.
  intros Hm w a w' Hw. destruct (Hm w) as (a' & s & Hw' & HP). congruence.
Qed.

Lemma returning_ret {A} (a : A) (P : A -> Prop) : P a -> returning (ret a) P.
Proof. intros HP w a' w' [= <- _]. exact HP. Qed.

Lemma returning_raise {A} e (P : A -> Prop) : returning (raise e) P.
Proof. intros w a w' [=]. Qed.

Lemma returning_bind {A B} (m : M A) (k : A -> M B) P Q :
  returning m P -> (forall a, P a -> returning (k a) Q) -> returning (bind m k) Q.
Proof.
  intros Hm Hk w b w'. unfold bind.
  destruct (m w) as [[e | a] w1] eqn:Hw; [discriminate |].
  intros Hk'. exact (Hk a (Hm _ _ _ Hw) _ _ _ Hk').
Qed.

Lemma returning_weaken {A} (m : M A) (P Q : A -> Prop) :
  returning m P -> (forall a, P a -> Q a) -> returning m Q.
Proof. intros Hm HPQ w a w' Hw. eauto. Qed.

Lemma returning_true {A} (m : M A) : returning m (fun _ => True).
Proof. now intros w a w' _. Qed.

Lemma returning_randint low high :
  returning (Np.randint low high) (fun v => low <= v < high).
Proof.
  destruct (Z_lt_le_dec low high) as [Hlt | Hge].
  - now apply sampling_returning, sampling_randint.
  - unfold Np.randint. destruct (Z.leb_spec high low); [| lia].
    apply returning_raise.
Qed.

Lemma returning_for_inv {A S} (Inv : S -> Prop) (body : A -> S -> M S) xs :
  (forall x s, Inv s -> returning (body x s) Inv) ->
  forall s, Inv s -> returning (Generator.for_ xs s body) Inv.
Proof.
  intros Hbody. induction xs as [| x xs IH]; intros s HI; cbn.
  - now apply returning_ret.
  - eapply returning_bind; [apply (Hbody _ _ HI) |]. intros s' HI'. now apply IH.
Qed.

(** *** Framing *)

Lemma framed_ret {A} (a : A) : framed (ret a).
Proof.
  intros r. exists (inr a), r, ∅, []. intros [r' f o] [= ->]. unfold ret. cbn.
  now rewrite (left_id_L ∅ (∪)), app_nil_r.
Qed.

Lemma framed_raise {A} e : framed (@raise _ A e).
Proof.
  intros r. exists (inl e), r, ∅, []. intros [r' f o] [= ->]. unfold raise. cbn.
  now rewrite (left_id_L ∅ (∪)), app_nil_r.
Qed.

Lemma framed_lift {A} (x : Py.exn + A) : framed (lift x).
Proof. destruct x; [apply framed_raise | apply framed_ret]. Qed.

Lemma framed_bind {A B} (m : M A) (k : A -> M B) :
  framed m -> (forall a, framed (k a)) -> framed (bind m k).
Proof.
  intros Hm Hk r. destruct (Hm r) as (res & r1 & f1 & o1 & H1).
  destruct res as [e | a].
  - exists (inl e), r1, f1, o1. intros w Hw. unfold bind. now rewrite (H1 w Hw).
  - destruct (Hk a r1) as (res & r2 & f2 & o2 & H2).
    exists res, r2, (f2 ∪ f1), (o1 ++ o2). intros w Hw. unfold bind.
    rewrite (H1 w Hw).
    rewrite (H2 (mkWorld r1 (f1 ∪ w_files w) (w_stdout w ++ o1)) eq_refl). cbn.
    now rewrite (assoc_L (∪)), app_assoc.
Qed.

Lemma framed_draw {A} (f : rng -> A * rng) : framed (draw f).
Proof.
  intros r. exists (inr (fst (f r))), (snd (f r)), ∅, [].
  intros [r' fs o] [= ->]. unfold draw. cbn. destruct (f r) as [a s]. cbn.
  now rewrite (left_id_L ∅ (∪)), app_nil_r.
Qed.

Lemma framed_seed n : framed (Np.seed_ n).
Proof.
  intros r. exists (inr tt), (seed n), ∅, []. intros [r' f o] _.
  unfold Np.seed_. cbn. now rewrite (left_id_L ∅ (∪)), app_nil_r.
Qed.

Lemma framed_print line : framed (print line).
Proof.
  intros r. exists (inr tt), r, ∅, [line]. intros [r' f o] [= ->].
  unfold print. cbn. now rewrite (left_id_L ∅ (∪)).
Qed.

Lemma framed_to_csv p t : framed (to_csv p t).
Proof.
  intros r. exists (inr tt), r, {[p := t]}, []. intros [r' f o] [= ->].
  unfold to_csv. cbn. now rewrite insert_union_singleton_l, app_nil_r.
Qed.

Lemma framed_for {A S} (body : A -> S -> M S) xs :
  (forall x s, framed (body x s)) -> forall s, framed (Generator.for_ xs s body).
Proof.
  intros Hbody. induction xs as [| x xs IH]; intros s; cbn.
  - apply framed_ret.
  - apply framed_bind; [apply Hbody | exact IH].
Qed.

Lemma framed_if {A} (b : bool) (m1 m2 : M A) :
  framed m1 -> framed m2 -> framed (if b then m1 else m2).
Proof. now destruct b. Qed.

End Logic.

(** ** [choice] with weights never leaves the population *)

Module ChoiceFacts.
Import Np.

Lemma cumsum_snoc acc p x :
  cumsum acc (p ++ [x]) = cumsum acc p ++ [fold_left Qplus (p ++ [x]) acc].
Proof.
  revert acc. induction p as [| y p IH]; intros acc; cbn; [reflexivity |].
  now rewrite IH.
Qed.

Lemma length_cumsum acc p : length (cumsum acc p) = length p.
Proof. revert acc. induction p as [| y p IH]; intros acc; cbn; auto. Qed.

(** The last running sum is the total, so the position found for a
    variate below one is a position of the population. *)
Lemma searchsorted_right_lt p u :
  p <> [] -> (0 < Qsum p)%Q -> (u < 1)%Q ->
  (searchsorted_right p u < length p)%nat.
Proof.
  intros Hne Hpos Hu. destruct (exists_last Hne) as (p' & x & ->).
  unfold searchsorted_right. cbv zeta.
  rewrite cumsum_snoc, List.filter_app, !length_app. cbn [List.filter].
  fold (Qsum (p' ++ [x])). set (T := Qsum (p' ++ [x])) in *.
  destruct (Qle_bool (T / T) u) eqn:Hb.
  - exfalso. apply Qle_bool_iff in Hb.
    assert (HT : (T / T == 1)%Q).
    { unfold Qdiv. apply Qmult_inv_r. intros H0. rewrite H0 in Hpos.
      now apply Qlt_irrefl in Hpos. }
    rewrite HT in Hb. apply (Qlt_irrefl 1). eapply Qle_lt_trans; eauto.
  - cbn [length].
    pose proof (filter_length_le (fun c => Qle_bool (c / T) u) (cumsum 0 p')) as Hle.
    rewrite length_cumsum in Hle. lia.
Qed.

Lemma valid_weights_inv n p :
  valid_weights n p = true -> n <> 0%nat /\ length p = n /\ (0 < Qsum p)%Q.
Proof.
  unfold valid_weights. rewrite !andb_true_iff, negb_true_iff.
  intros [[[Hn Hlen] _] Hsum].
  apply Nat.eqb_neq in Hn. apply Nat.eqb_eq in Hlen.
  apply Qle_bool_iff, Qabs_Qle_condition in Hsum as [Hlo _].
  repeat split; [exact Hn | exact Hlen |].
  apply Qlt_le_trans with (1 + - ATOL)%Q; [reflexivity |].
  apply Qle_minus_iff in Hlo. apply Qle_minus_iff.
  setoid_replace (Qsum p + - (1 + - ATOL))%Q
    with (Qsum p - 1 + - - ATOL)%Q using relation Qeq by ring.
  exact Hlo.
Qed.

Section WithRandomState.
Context {RS : RandomState}.

Lemma sampling_choice_p {A} (a : list A) p :
  valid_weights (length a) p = true ->
  sampling (choice_p a p) (fun x => x ∈ a).
Proof.
  intros Hv. unfold choice_p. rewrite Hv.
  apply valid_weights_inv in Hv as (Hn & Hlen & Hpos).
  eapply sampling_bind; [apply sampling_random |].
  intros u [_ Hu].
  assert (Hi : (searchsorted_right p u < length a)%nat).
  { rewrite <- Hlen. apply searchsorted_right_lt; [| exact Hpos | exact Hu].
    intros ->. cbn in Hlen. congruence. }
  destruct (lookup_lt_is_Some_2 a _ Hi) as [x Hx]. rewrite Hx.
  apply sampling_ret. eapply list_elem_of_lookup_2, Hx.
Qed.

Lemma sampling_choice {A} (a : list A) :
  a <> [] -> sampling (choice a) (fun x => x ∈ a).
Proof.
  intros Hne. unfold choice.
  assert (Hlen : 0 < Z.of_nat (length a))
    by (destruct a; [congruence | cbn [length]; lia]).
  destruct a as [| a0 a'] eqn:Ha; [congruence |]. rewrite <- Ha in *.
  eapply sampling_bind.
  { apply (sampling_draw _ (fun v => 0 <= v < Z.of_nat (length a))). intros s.
    exact (bounded_int_range 0 (Z.of_nat (length a)) s Hlen). }
  intros i Hi. cbv beta in Hi.
  assert (Hlt : (Z.to_nat i < length a)%nat) by lia.
  destruct (lookup_lt_is_Some_2 a _ Hlt) as [x Hx]. rewrite Hx.
  apply sampling_ret. eapply list_elem_of_lookup_2, Hx.
Qed.

End WithRandomState.
End ChoiceFacts.

Lemma range_snoc lo hi : lo <= hi -> Py.range lo (hi + 1) = Py.range lo hi ++ [hi].
Proof.
  intros H. unfold Py.range.
  replace (Z.to_nat (hi + 1 - lo)) with (Z.to_nat (hi - lo) + 1)%nat by lia.
  rewrite seq_app, map_app. cbn. do 2 f_equal. lia.
Qed.

(** ** The dimension and fact generators *)

Module GeneratorFacts.
Import Generator ChoiceFacts.

Section WithRandomState.
Context {RS : RandomState}.

(** *** Stores *)

Lemma generate_dim_store_sampling cfg :
  sampling (generate_dim_store cfg)
    (fun rows => length rows = Z.to_nat (N_STORES cfg)).
Proof.
  unfold generate_dim_store.
  eapply sampling_weaken.
  - apply (sampling_for (fun done (s : list DimStore.row) => length s = length done)
             _ _) with (done := []); [| reflexivity].
    intros done i stores Hlen.
    eapply sampling_bind; [apply sampling_randint; lia |]. intros size _.
    eapply sampling_bind; [apply sampling_randint; lia |]. intros target _.
    apply sampling_ret. rewrite !length_app, Hlen. reflexivity.
  - cbn beta. intros rows ->. rewrite app_nil_l, length_range. f_equal. lia.
Qed.

Lemma generate_dim_store_none cfg :
  N_STORES cfg <= 0 -> generate_dim_store cfg = ret [].
Proof.
  intros H. unfold generate_dim_store. rewrite range_empty by lia. reflexivity.
Qed.

(** *** Products *)

(** The products so far are numbered 1, 2, ... and [pid] is the next
    number. *)
Definition numbered (st : list DimProduct.row * Z) : Prop :=
  snd st = 1 + Z.of_nat (length (fst st))
  /\ map DimProduct.product_id (fst st) = Py.range 1 (snd st).

Lemma new_product_sampling cat subcat pid :
  sampling (new_product cat subcat pid) (fun p => DimProduct.product_id p = pid).
Proof.
  unfold new_product.
  eapply sampling_bind; [apply sampling_uniform |]. intros u _.
  eapply sampling_bind; [apply sampling_uniform |]. intros f _.
  eapply sampling_bind; [apply sampling_randint; lia |]. intros supplier _.
  eapply sampling_bind; [now apply sampling_choice_p |]. intros own _.
  now apply sampling_ret.
Qed.

Lemma numbered_snoc products pid p :
  numbered (products, pid) -> DimProduct.product_id p = pid ->
  numbered (products ++ [p], pid + 1).
Proof.
  unfold numbered. cbn [fst snd]. intros [Hpid Hids] Hp. split.
  - rewrite length_app. cbn. lia.
  - rewrite map_app, Hids. cbn [map]. rewrite Hp, range_snoc by lia. reflexivity.
Qed.

Lemma generate_dim_product_sampling cfg :
  sampling (generate_dim_product cfg)
    (fun rows =>
       length rows = (22 * Z.to_nat (N_PRODUCTS cfg / 20))%nat
       /\ map DimProduct.product_id rows = Py.range 1 (Z.of_nat (length rows) + 1)).
Proof.
  unfold generate_dim_product. set (n := N_PRODUCTS cfg / 20).
  eapply sampling_bind.
  - apply (sampling_for
             (fun done st =>
                numbered st
                /\ length (fst st) = (length (flat_map snd done) * Z.to_nat n)%nat)
             _ CATEGORIES) with (done := []); [| now split].
    intros done [cat subcats] st [Hnum Hlen].
    eapply sampling_weaken.
    + apply (sampling_for
               (fun done' st' =>
                  numbered st'
                  /\ length (fst st')
                     = (length (fst st) + length done' * Z.to_nat n)%nat)
               _ subcats) with (done := []); [| split; [exact Hnum | cbn; lia]].
      intros done' subcat st' [Hnum' Hlen'].
      eapply sampling_weaken.
      * apply (sampling_for
                 (fun done'' st'' =>
                    numbered st''
                    /\ length (fst st'') = (length (fst st') + length done'')%nat)
                 _ (Py.range 0 n)) with (done := []);
          [| split; [exact Hnum' | cbn; lia]].
        intros done'' k [products pid] [Hnum'' Hlen''].
        eapply sampling_bind; [apply new_product_sampling |]. intros p Hp.
        apply sampling_ret. split; [now apply numbered_snoc |].
        cbn [fst] in *. rewrite !length_app, Hlen''. cbn. lia.
      * cbn beta. intros st'' [Hnum'' Hlen'']. split; [exact Hnum'' |].
        rewrite app_nil_l, length_range in Hlen''.
        rewrite Hlen'', Hlen', length_app. cbn [length].
        replace (n - 0) with n by lia. lia.
    + cbn beta. intros st' [Hnum' Hlen']. split; [exact Hnum' |].
      rewrite app_nil_l in Hlen'. rewrite Hlen', Hlen.
      rewrite flat_map_app, length_app. cbn [flat_map snd].
      rewrite app_nil_r. lia.
  - cbn beta. intros st [[Hpid Hids] Hlen]. apply sampling_ret.
    rewrite app_nil_l in Hlen. split; [exact Hlen |].
    rewrite Hids, Hpid. f_equal. lia.
Qed.

(** *** Labour *)

(** The key of a labour row: the store and the day of the shift. *)
Definition labour_key (r : FactLabour.row) : Z * string :=
  (FactLabour.store_id r, FactLabour.shift_date r).

(** The cost column is computed from the hours and the rate before they
    are rounded for their own columns. *)
Definition cost_from_unrounded (r : FactLabour.row) : Prop :=
  exists actual hourly_rate : Q,
    FactLabour.actual_hours r = Py.round actual 1
    /\ FactLabour.hourly_rate r = Py.round hourly_rate 2
    /\ FactLabour.total_labour_cost r = Py.round (actual * hourly_rate) 2.

Lemma new_shift_sampling date_row store_id :
  sampling (new_shift date_row store_id)
    (fun r => labour_key r = (store_id, DimDate.full_date date_row)
              /\ cost_from_unrounded r).
Proof.
  unfold new_shift.
  eapply sampling_bind; [apply sampling_uniform |]. intros contracted _.
  eapply sampling_bind; [apply sampling_uniform |]. intros f _.
  eapply sampling_bind; [apply sampling_uniform |]. intros hourly_rate _.
  apply sampling_ret. split; [reflexivity |].
  exists (contracted * f)%Q, hourly_rate. now cbn.
Qed.

Lemma generate_fact_labour_sampling cfg dim_date :
  sampling (generate_fact_labour cfg dim_date)
    (fun rows =>
       map labour_key rows
       = flat_map (fun d => map (fun s => (s, DimDate.full_date d))
                              (Py.range 1 (N_STORES cfg + 1))) dim_date
       /\ Forall cost_from_unrounded rows).
Proof.
  unfold generate_fact_labour.
  apply (sampling_for
           (fun done labour =>
              map labour_key labour
              = flat_map (fun d => map (fun s => (s, DimDate.full_date d))
                                     (Py.range 1 (N_STORES cfg + 1))) done
              /\ Forall cost_from_unrounded labour)
           _ dim_date) with (done := []); [| now split].
  intros done d labour [Hkeys Hcost].
  eapply sampling_weaken.
  - apply (sampling_for
             (fun done' labour' =>
                map labour_key labour'
                = map labour_key labour
                  ++ map (fun s => (s, DimDate.full_date d)) done'
                /\ Forall cost_from_unrounded labour')
             _ (Py.range 1 (N_STORES cfg + 1))) with (done := []);
      [| split; [now rewrite app_nil_r | exact Hcost]].
    intros done' s labour' [Hkeys' Hcost'].
    eapply sampling_bind; [apply new_shift_sampling |]. intros r [Hr Hc].
    apply sampling_ret. split.
    + rewrite !map_app, Hkeys'. cbn [map]. rewrite Hr. now rewrite <- app_assoc.
    + apply Forall_app. split; [exact Hcost' | now constructor].
  - cbn beta. intros labour' [Hkeys' Hcost']. split; [| exact Hcost'].
    rewrite app_nil_l in Hkeys'. rewrite Hkeys', Hkeys, flat_map_app. cbn [flat_map].
    now rewrite app_nil_r.
Qed.

(** *** Shrinkage *)

Lemma generate_fact_shrinkage_sampling cfg dim_date :
  sampling (generate_fact_shrinkage cfg dim_date) (fun _ => True).
Proof.
  unfold generate_fact_shrinkage.
  apply sampling_for_inv; [| exact I]. intros d shrinkage _.
  apply sampling_for_inv; [| exact I]. intros s shrinkage' _.
  eapply sampling_bind; [apply sampling_random |]. intros r _.
  destruct (Py.Qltb r 0.3); [| now apply sampling_ret].
  eapply sampling_bind; [apply sampling_exponential |]. intros base _.
  eapply sampling_bind; [apply sampling_random |]. intros r' _.
  eapply sampling_bind; [now apply sampling_choice_p |]. intros cause _.
  eapply sampling_bind; [now apply sampling_choice |]. intros category _.
  now apply sampling_ret.
Qed.

End WithRandomState.
End GeneratorFacts.

(** ** Transactions *)

Module TransactionFacts.
Import Generator ChoiceFacts.

Section WithRandomState.
Context {RS : RandomState}.

(** [m] raises from every state. *)
Definition raising {A} (m : M A) : Prop :=
  forall w, exists e w', m w = (inl e, w').

Lemma raising_raise {A} e : raising (@raise _ A e).
Proof. intros w. now exists e, w. Qed.

Lemma raising_bind {A B} (m : M A) (k : A -> M B) :
  (forall a, raising (k a)) -> raising (bind m k).
Proof.
  intros Hk w. unfold bind. destruct (m w) as [[e | a] w1]; [now exists e, w1 |].
  apply Hk.
Qed.

Lemma raising_bind_l {A B} (m : M A) (k : A -> M B) :
  raising m -> raising (bind m k).
Proof.
  intros Hm w. unfold bind. destruct (Hm w) as (e & w1 & ->). now exists e, w1.
Qed.

Lemma raising_for {A S} (body : A -> S -> M S) xs s :
  xs <> [] -> (forall x s, raising (body x s)) -> raising (for_ xs s body).
Proof.
  intros Hne Hbody. destruct xs as [| x xs]; [congruence |].
  cbn. apply raising_bind_l, Hbody.
Qed.

(** *** The function as written raises on its first transaction *)

Lemma hour_weights_rejected :
  Np.valid_weights (length (Py.range 7 22)) HOUR_WEIGHTS = false.
Proof. reflexivity. Qed.

Lemma hour_weights_sum : (Np.Qsum HOUR_WEIGHTS == 1.01)%Q.
Proof. reflexivity. Qed.

Lemma new_transaction_raises dim_product date_str store_id st :
  raising (new_transaction HOUR_WEIGHTS dim_product date_str store_id st).
Proof.
  destruct st as [transactions tid]. unfold new_transaction.
  do 6 (apply raising_bind; intros ?).
  apply raising_bind_l. unfold Np.choice_p. rewrite hour_weights_rejected.
  apply raising_raise.
Qed.

(** With at least one day and one store the first pass through the
    innermost loop raises: no transaction table is ever returned. *)
Lemma generate_fact_transactions_raises cfg dim_date dim_store dim_product :
  dim_date <> [] -> 1 <= N_STORES cfg ->
  raising (generate_fact_transactions cfg dim_date dim_store dim_product).
Proof.
  intros Hdays Hstores. unfold generate_fact_transactions,
    generate_fact_transactions_with.
  apply raising_bind. intros _. apply raising_bind_l.
  apply raising_for; [exact Hdays |]. intros d st.
  apply raising_for.
  { intros H. apply (f_equal (@length Z)) in H. rewrite length_range in H.
    cbn in H. lia. }
  intros s st'. apply raising_bind. intros x.
  apply raising_for.
  { intros H. apply (f_equal (@length Z)) in H. rewrite length_range in H.
    cbn in H. lia. }
  intros k st''. apply new_transaction_raises.
Qed.

End WithRandomState.
End TransactionFacts.

(** ** The generator is a function of the seed and the configuration *)

Module Determinism.
Import Generator.

Create HintDb framed discriminated.
#[export] Hint Resolve framed_ret framed_raise framed_draw framed_print
  framed_to_csv framed_lift framed_seed : framed.

(** Peel binds, loops and branches; close the leaves with the hints. *)
Ltac frame :=
  repeat first
    [ progress auto with framed
    | apply framed_bind; [| intros ?]
    | apply framed_for; intros ? ?
    | apply framed_if
    | match goal with
      | |- framed (match ?x with _ => _ end) => destruct x
      end ].

Section WithRandomState.
Context {RS : RandomState}.

Lemma framed_randint low high : framed (Np.randint low high).
Proof. unfold Np.randint. frame. Qed.

Lemma framed_random : framed Np.random.
Proof. unfold Np.random. frame. Qed.

Lemma framed_uniform low high : framed (Np.uniform low high).
Proof. unfold Np.uniform. frame. Qed.

Lemma framed_normal loc scale : framed (Np.normal loc scale).
Proof. unfold Np.normal. frame. Qed.

Lemma framed_exponential scale : framed (Np.exponential scale).
Proof. unfold Np.exponential. frame. Qed.

Lemma framed_choice_p {A} (a : list A) p : framed (Np.choice_p a p).
Proof. unfold Np.choice_p. frame. Qed.

Lemma framed_choice {A} (a : list A) : framed (Np.choice a).
Proof. unfold Np.choice. frame. Qed.

Hint Resolve framed_randint framed_random framed_uniform framed_normal
  framed_exponential framed_choice_p framed_choice : framed.

Lemma framed_generate_dim_store cfg : framed (generate_dim_store cfg).
Proof. unfold generate_dim_store. frame. Qed.

Lemma framed_generate_dim_product cfg : framed (generate_dim_product cfg).
Proof. unfold generate_dim_product, new_product. frame. Qed.

Lemma framed_generate_fact_transactions_with hw cfg dim_date dim_store dim_product :
  framed (generate_fact_transactions_with hw cfg dim_date dim_store dim_product).
Proof.
  unfold generate_fact_transactions_with, new_transaction, product_with_id. frame.
Qed.

Lemma framed_generate_fact_labour cfg dim_date :
  framed (generate_fact_labour cfg dim_date).
Proof. unfold generate_fact_labour, new_shift. frame. Qed.

Lemma framed_generate_fact_shrinkage cfg dim_date :
  framed (generate_fact_shrinkage cfg dim_date).
Proof. unfold generate_fact_shrinkage. frame. Qed.

Hint Resolve framed_generate_dim_store framed_generate_dim_product
  framed_generate_fact_transactions_with framed_generate_fact_labour
  framed_generate_fact_shrinkage : framed.

Lemma framed_main cfg : framed (main cfg).
Proof. unfold main, generate_fact_transactions. frame. Qed.

(** The run seeds the generator first, so its outcome does not depend on
    the random state it finds either. *)
Lemma main_outcome cfg :
  exists res r written printed,
    forall w : World,
      main cfg w
      = (res, mkWorld r (written ∪ w_files w) (w_stdout w ++ printed)).
Proof.
  assert (Hrest : exists k, main cfg = bind (Np.seed_ SEED) k
                            /\ forall a, framed (k a)).
  { eexists. split; [reflexivity |]. intros a. cbv beta.
    unfold generate_fact_transactions. frame. }
  destruct Hrest as (k & Hmain & Hk).
  destruct (Hk tt (seed SEED)) as (res & r & written & printed & H).
  exists res, r, written, printed. intros w. rewrite Hmain.
  unfold bind, Np.seed_.
  now rewrite (H (mkWorld (seed SEED) (w_files w) (w_stdout w)) eq_refl).
Qed.

End WithRandomState.
End Determinism.

(** ** Runs of the whole script *)

Module MainFacts.
Import Generator GeneratorFacts TransactionFacts.

Section WithRandomState.
Context {RS : RandomState}.

Lemma for_unchanged {A S} (body : A -> S -> M S) xs s :
  (forall x s w, body x s w = (inr s, w)) -> forall w, for_ xs s body w = (inr s, w).
Proof.
  intros Hbody. induction xs as [| x xs IH]; intros w; cbn; [reflexivity |].
  unfold bind. now rewrite Hbody, IH.
Qed.

(** No day or no store: the three fact loops do not run their bodies. *)
Lemma no_store_day cfg (dim_date : list DimDate.row) {S}
    (body : DimDate.row -> Z -> S -> M S) s w :
  dim_date = [] \/ N_STORES cfg <= 0 ->
  for_ dim_date s (fun d s =>
    for_ (Py.range 1 (N_STORES cfg + 1)) s (body d)) w = (inr s, w).
Proof.
  intros [-> | Hstores]; [reflexivity |].
  apply for_unchanged. intros d s' w'. rewrite range_empty by lia. reflexivity.
Qed.

Lemma generate_fact_transactions_none hw cfg dim_date dim_store dim_product w :
  dim_date = [] \/ N_STORES cfg <= 0 ->
  generate_fact_transactions_with hw cfg dim_date dim_store dim_product w
  = (inr [],
     mkWorld (w_rng w) (w_files w)
       (w_stdout w ++ ["Generating transactions (this takes ~60 seconds)..."%string])).
Proof.
  intros H. unfold generate_fact_transactions_with, bind at 1 2. cbn [print].
  rewrite (no_store_day cfg dim_date
             (fun d store_id st =>
                x <- Np.normal 150 30 ;;
                for_ (Py.range 0
                        (Z.max 50 (Z.min 350
                           (Py.int (x * seasonal_multiplier (DimDate.month d)
                                          (DimDate.day_of_week d))))))
                  st
                  (fun _ st =>
                     new_transaction hw dim_product (DimDate.full_date d) store_id st))
             _ _ H).
  reflexivity.
Qed.

Lemma generate_fact_labour_none cfg dim_date w :
  dim_date = [] \/ N_STORES cfg <= 0 ->
  generate_fact_labour cfg dim_date w = (inr [], w).
Proof.
  intros H. unfold generate_fact_labour.
  exact (no_store_day cfg dim_date
           (fun d store_id labour => r <- new_shift d store_id ;; ret (labour ++ [r]))
           _ _ H).
Qed.

Lemma generate_fact_shrinkage_none cfg dim_date w :
  dim_date = [] \/ N_STORES cfg <= 0 ->
  generate_fact_shrinkage cfg dim_date w = (inr [], w).
Proof.
  intros H. unfold generate_fact_shrinkage.
  refine (no_store_day cfg dim_date (fun d store_id shrinkage => _) _ _ H).
Qed.

Lemma bind_sampling {A B} (m : M A) (k : A -> M B) P w :
  sampling m P ->
  exists a s, P a /\ bind m k w = k a (mkWorld s (w_files w) (w_stdout w)).
Proof.
  intros Hm. destruct (Hm w) as (a & s & Hw & HP). exists a, s.
  split; [exact HP |]. unfold bind. now rewrite Hw.
Qed.

(** The files a complete run leaves behind. *)
Definition written_by_complete_run
    (dim_date : list DimDate.row) (dim_store : list DimStore.row)
    (dim_product : list DimProduct.row)
    (fact_transactions : list FactTransactions.row)
    (fact_labour : list FactLabour.row)
    (fact_shrinkage : list FactShrinkage.row)
    (files : gmap string Table) : gmap string Table :=
  <[path "fact_shrinkage.csv" := TFactShrinkage fact_shrinkage]>
  (<[path "fact_labour.csv" := TFactLabour fact_labour]>
  (<[path "fact_transactions.csv" := TFactTransactions fact_transactions]>
  (<[path "dim_product.csv" := TDimProduct dim_product]>
  (<[path "dim_store.csv" := TDimStore dim_store]>
  (<[path "dim_date.csv" := TDimDate dim_date]> files))))).

(** The files left behind when the fact tables are not reached. *)
Definition written_before_facts
    (dim_date : list DimDate.row) (dim_store : list DimStore.row)
    (dim_product : list DimProduct.row)
    (files : gmap string Table) : gmap string Table :=
  <[path "dim_product.csv" := TDimProduct dim_product]>
  (<[path "dim_store.csv" := TDimStore dim_store]>
  (<[path "dim_date.csv" := TDimDate dim_date]> files)).

(** Stepping through a run, the world spelled out. *)
Lemma bind_print {B} line (k : unit -> M B) r f o :
  bind (print line) k (mkWorld r f o) = k tt (mkWorld r f (o ++ [line])).
Proof. reflexivity. Qed.

Lemma bind_to_csv {B} p t (k : unit -> M B) r f o :
  bind (to_csv p t) k (mkWorld r f o) = k tt (mkWorld r (<[p := t]> f) o).
Proof. reflexivity. Qed.

Lemma bind_seed {B} n (k : unit -> M B) r f o :
  bind (Np.seed_ n) k (mkWorld r f o) = k tt (mkWorld (seed n) f o).
Proof. reflexivity. Qed.

Lemma bind_lift_value {A B} (a : A) (k : A -> M B) w :
  bind (lift (inr a)) k w = k a w.
Proof. reflexivity. Qed.

Lemma bind_value {A B} (m : M A) (k : A -> M B) w a w' :
  m w = (inr a, w') -> bind m k w = k a w'.
Proof. intros H. unfold bind. now rewrite H. Qed.

Lemma bind_error {A B} (m : M A) (k : A -> M B) w e w' :
  m w = (inl e, w') -> bind m k w = (inl e, w').
Proof. intros H. unfold bind. now rewrite H. Qed.

Lemma print_run line r f o :
  print line (mkWorld r f o) = (inr tt, mkWorld r f (o ++ [line])).
Proof. reflexivity. Qed.

#[local] Opaque generate_dim_store generate_dim_product
  generate_fact_transactions generate_fact_transactions_with
  generate_fact_labour generate_fact_shrinkage path Py.str Py.fmt_commas
  bind print to_csv Np.seed_ lift.

Ltac step_sampling m H a s Ha :=
  match goal with
  | |- context [bind m ?k ?w0] =>
      destruct (bind_sampling m k _ w0 H) as (a & s & Ha & ->)
  end.

(** Without a day or without a store the run completes: six files, the
    three fact tables empty. *)
Lemma main_completes_empty cfg dim_date (w : World) :
  generate_dim_date cfg = inr dim_date ->
  dim_date = [] \/ N_STORES cfg <= 0 ->
  exists dim_store dim_product w',
    main cfg w = (inr tt, w')
    /\ length dim_store = Z.to_nat (N_STORES cfg)
    /\ w_files w'
       = written_by_complete_run dim_date dim_store dim_product [] [] [] (w_files w).
Proof.
  intros Hdate Hnone. destruct w as [r0 f0 o0]. unfold main.
  rewrite bind_seed, bind_print, Hdate, bind_lift_value.
  step_sampling (generate_dim_store cfg) (generate_dim_store_sampling cfg)
    dim_store s1 Hs.
  step_sampling (generate_dim_product cfg) (generate_dim_product_sampling cfg)
    dim_product s2 Hp.
  cbn [w_rng w_files w_stdout].
  exists dim_store, dim_product.
  rewrite !bind_to_csv, !bind_print.
  rewrite (bind_value (generate_fact_transactions cfg dim_date _ _) _ _ _ _
             (generate_fact_transactions_none _ cfg dim_date _ _ _ Hnone)).
  rewrite (bind_value _ _ _ _ _ (generate_fact_labour_none cfg dim_date _ Hnone)).
  rewrite (bind_value _ _ _ _ _ (generate_fact_shrinkage_none cfg dim_date _ Hnone)).
  rewrite !bind_to_csv, !bind_print, print_run.
  eexists. split; [reflexivity |]. split; [exact Hs | reflexivity].
Qed.

(** With a day and a store the run aborts in the transaction loop, after
    the dimension files have been written. *)
Lemma main_aborts cfg dim_date (w : World) :
  generate_dim_date cfg = inr dim_date ->
  dim_date <> [] -> 1 <= N_STORES cfg ->
  exists e w', main cfg w = (inl e, w').
Proof.
  intros Hdate Hdays Hstores. destruct w as [r0 f0 o0]. unfold main.
  rewrite bind_seed, bind_print, Hdate, bind_lift_value.
  step_sampling (generate_dim_store cfg) (generate_dim_store_sampling cfg)
    dim_store s1 Hs.
  step_sampling (generate_dim_product cfg) (generate_dim_product_sampling cfg)
    dim_product s2 Hp.
  cbn [w_rng w_files w_stdout].
  rewrite !bind_to_csv, !bind_print.
  match goal with
  | |- context [bind (generate_fact_transactions cfg dim_date ?ds ?dp) ?k ?w0] =>
      destruct (generate_fact_transactions_raises cfg dim_date ds dp Hdays Hstores w0)
        as (e & w' & Hraise)
  end.
  rewrite (bind_error _ _ _ _ _ Hraise). eauto.
Qed.

End WithRandomState.
End MainFacts.

(** ** The loader *)

Module LoaderFacts.
Import Loader.

(** The schema every declared table is loaded into is not one the
    connection knows. *)
Lemma bronze_not_attached : bool_decide ("bronze"%string ∈ ATTACHED) = false.
Proof. reflexivity. Qed.


Section WithParser.
Variable read_csv : string -> option DataFrame.

(** The error a file that exists ends the run with: the reader's when the
    file does not parse, SQLite's when it does. *)
Definition error_at (contents : string) : exn :=
  match read_csv contents with
  | None => ReadError
  | Some _ => OperationalError
  end.

(** The loop on a list in two parts. *)
Lemma load_all_app pre rest : forall total w,
  load_all read_csv (pre ++ rest) total w
  = match load_all read_csv pre total w with
    | (inr total', w') => load_all read_csv rest total' w'
    | (inl e, w') => (inl e, w')
    end.
Proof.
  induction pre as [| [[filepath table_name] schema] pre IH]; intros total w;
    [reflexivity |].
  cbn [app load_all]. destruct (fs w !! filepath).
  - destruct (load_table read_csv filepath table_name schema w) as [[e | n] w'];
      [reflexivity | apply IH].
  - apply IH.
Qed.

(** Files that are missing cost a warning each and nothing else. *)
Lemma load_all_missing tables : forall total w,
  Forall (fun e : string * string * string => fs w !! e.1.1 = None) tables ->
  load_all read_csv tables total w
  = (inr total,
     mkWorld (fs w) (db w)
       (stdout w ++ map (fun e : string * string * string => warning e.1.1) tables)).
Proof.
  induction tables as [| [[filepath table_name] schema] rest IH];
    intros total [files tables out] Hmiss.
  - cbn. now rewrite app_nil_r.
  - apply Forall_cons in Hmiss as [Hfile Hrest]. cbn [fst snd fs] in *.
    cbn [load_all fs]. rewrite Hfile. unfold print. cbn [fs db stdout].
    rewrite IH by exact Hrest. cbn [fs db stdout map fst].
    now rewrite <- app_assoc.
Qed.

(** A bronze table whose file exists stops the loop where it stands:
    nothing is written. *)
Lemma load_all_present filepath table_name rest total w contents :
  fs w !! filepath = Some contents ->
  load_all read_csv ((filepath, table_name, "bronze"%string) :: rest) total w
  = (inl (error_at contents), w).
Proof.
  intros Hfile. cbn [load_all]. unfold load_table, error_at, to_sql.
  rewrite Hfile. destruct (read_csv contents); [| reflexivity].
  now rewrite bronze_not_attached.
Qed.

(** The run when the first declared file that exists is [filepath]. *)
Lemma main_stops pre filepath table_name post w contents :
  TABLES = pre ++ (filepath, table_name, "bronze"%string) :: post ->
  Forall (fun e : string * string * string => fs w !! e.1.1 = None) pre ->
  fs w !! filepath = Some contents ->
  main read_csv w
  = (inl (error_at contents),
     mkWorld (fs w) (db w)
       (stdout w ++ ["Loading data to " +:+ DB_PATH]
        ++ map (fun e : string * string * string => warning e.1.1) pre)).
Proof.
  intros Htables Hpre Hfile. unfold main. cbv zeta. rewrite Htables.
  rewrite load_all_app, load_all_missing by exact Hpre.
  cbn [print fs db stdout].
  rewrite (load_all_present _ _ _ _ _ contents) by exact Hfile.
  now rewrite <- app_assoc.
Qed.




End WithParser.
End LoaderFacts.

(** ** Distinct days have distinct [full_date] strings *)

Module FullDateFacts.
Import Datetime DatetimeFacts Generator DimDateFacts.

(** Reading a ['%Y-%m-%d'] string back, field by field: the year is what
    stands before the first dash, whatever its width. *)
Fixpoint no_dash (s : string) : bool :=
  match s with
  | EmptyString => true
  | String c rest => negb (Ascii.eqb c "-") && no_dash rest
  end.

Fixpoint before_dash (s : string) : string :=
  match s with
  | EmptyString => EmptyString
  | String c rest =>
      if Ascii.eqb c "-" then EmptyString else String c (before_dash rest)
  end.

Fixpoint after_dash (s : string) : string :=
  match s with
  | EmptyString => EmptyString
  | String c rest => if Ascii.eqb c "-" then rest else after_dash rest
  end.

Lemma before_dash_app a b :
  no_dash a = true -> before_dash (a +:+ String "-" b) = a.
Proof.
  induction a as [| c a IH]; intros Ha; [reflexivity |].
  cbn [no_dash] in Ha. apply andb_true_iff in Ha as [Hc Ha].
  apply negb_true_iff in Hc.
  change (before_dash (String c (a +:+ String "-" b)) = String c a).
  cbn [before_dash]. rewrite Hc. now rewrite IH.
Qed.

Lemma after_dash_app a b :
  no_dash a = true -> after_dash (a +:+ String "-" b) = b.
Proof.
  induction a as [| c a IH]; intros Ha; [reflexivity |].
  cbn [no_dash] in Ha. apply andb_true_iff in Ha as [Hc Ha].
  apply negb_true_iff in Hc.
  change (after_dash (String c (a +:+ String "-" b)) = b).
  cbn [after_dash]. rewrite Hc. now apply IH.
Qed.

Lemma year_digits_checked :
  all_from 9999 1 (fun y =>
    no_dash (Py.str y)
    && match Py.parse_int (Py.str y) with
       | inr z => z =? y
       | inl _ => false
       end) = true.
Proof. vm_cast_no_check (eq_refl true). Qed.

Lemma field_digits_checked :
  all_from 31 1 (fun m =>
    no_dash (Py.fmt_0d 2 m)
    && match Py.parse_int (Py.fmt_0d 2 m) with
       | inr z => z =? m
       | inl _ => false
       end) = true.
Proof. vm_cast_no_check (eq_refl true). Qed.

Lemma year_digits y :
  1 <= y <= 9999 ->
  no_dash (Py.str y) = true /\ Py.parse_int (Py.str y) = inr y.
Proof.
  intros Hy.
  pose proof (all_from_spec _ _ _ y year_digits_checked ltac:(lia)) as Hc.
  cbv beta in Hc. apply andb_true_iff in Hc as [Hn Hp]. split; [exact Hn |].
  destruct (Py.parse_int _) as [e | z]; [discriminate |].
  apply Z.eqb_eq in Hp. now subst.
Qed.

Lemma field_digits m :
  1 <= m <= 31 ->
  no_dash (Py.fmt_0d 2 m) = true /\ Py.parse_int (Py.fmt_0d 2 m) = inr m.
Proof.
  intros Hm.
  pose proof (all_from_spec _ _ _ m field_digits_checked ltac:(lia)) as Hc.
  cbv beta in Hc. apply andb_true_iff in Hc as [Hn Hp]. split; [exact Hn |].
  destruct (Py.parse_int _) as [e | z]; [discriminate |].
  apply Z.eqb_eq in Hp. now subst.
Qed.

Definition valid (d : date) : Prop :=
  1 <= year d <= 9999 /\ 1 <= month d <= 12 /\ 1 <= day d <= 31.

Lemma fmt_Y_m_d_inj d1 d2 :
  valid d1 -> valid d2 -> fmt_Y_m_d d1 = fmt_Y_m_d d2 -> d1 = d2.
Proof.
  intros (Hy1 & Hm1 & Hd1) (Hy2 & Hm2 & Hd2) Heq.
  destruct d1 as [y1 m1 dd1], d2 as [y2 m2 dd2]. unfold fmt_Y_m_d in Heq.
  cbn [year month day] in *.
  destruct (year_digits y1 Hy1) as [Ny1 Py1], (year_digits y2 Hy2) as [Ny2 Py2].
  destruct (field_digits m1 ltac:(lia)) as [Nm1 Pm1].
  destruct (field_digits m2 ltac:(lia)) as [Nm2 Pm2].
  destruct (field_digits dd1 Hd1) as [_ Pd1], (field_digits dd2 Hd2) as [_ Pd2].
  change (Py.str y1 +:+ String "-" (Py.fmt_0d 2 m1 +:+ String "-" (Py.fmt_0d 2 dd1))
          = Py.str y2 +:+ String "-" (Py.fmt_0d 2 m2 +:+ String "-" (Py.fmt_0d 2 dd2)))
    in Heq.
  pose proof (f_equal before_dash Heq) as Hy. rewrite !before_dash_app in Hy by assumption.
  pose proof (f_equal after_dash Heq) as Hrest. rewrite !after_dash_app in Hrest by assumption.
  pose proof (f_equal before_dash Hrest) as Hm. rewrite !before_dash_app in Hm by assumption.
  pose proof (f_equal after_dash Hrest) as Hd. rewrite !after_dash_app in Hd by assumption.
  rewrite Hy in Py1. rewrite Hm in Pm1. rewrite Hd in Pd1.
  congruence.
Qed.

Lemma full_date_date_row start d :
  DimDate.full_date (date_row start d) = fmt_Y_m_d d.
Proof. reflexivity. Qed.

Lemma full_date_by_ordinal a b :
  1 <= a <= MAXORDINAL -> 1 <= b <= MAXORDINAL ->
  fmt_Y_m_d (fromordinal a) = fmt_Y_m_d (fromordinal b) -> a = b.
Proof.
  intros Ha Hb Heq.
  pose proof (fromordinal_valid a Ha) as Va.
  pose proof (fromordinal_valid b Hb) as Vb.
  revert Heq Va Vb. generalize (toordinal_fromordinal a) (toordinal_fromordinal b).
  generalize (fromordinal a) (fromordinal b). intros da db Hoa Hob Heq Va Vb.
  rewrite <- Hoa, <- Hob. f_equal. now apply fmt_Y_m_d_inj.
Qed.

Lemma dim_date_full_dates_distinct cfg rows :
  generate_dim_date cfg = inr rows -> NoDup (map DimDate.full_date rows).
Proof.
  intros Hgen. apply NoDup_alt. intros i j s Hi Hj.
  rewrite list_lookup_fmap in Hi, Hj.
  destruct (rows !! i) as [ri |] eqn:Hri; [| discriminate].
  destruct (rows !! j) as [rj |] eqn:Hrj; [| discriminate].
  injection Hi as Hi. injection Hj as Hj.
  destruct (dim_date_row _ _ _ _ Hgen Hri) as (di & Hai & Hmi).
  destruct (dim_date_row _ _ _ _ Hgen Hrj) as (dj & Haj & Hmj).
  apply mark_christmas_inv in Hmi as (Hfi & _), Hmj as (Hfj & _).
  apply add_days_inv in Hai as [Hdi Hoi], Haj as [Hdj Hoj].
  rewrite full_date_date_row in Hfi, Hfj.
  assert (Heq : toordinal (START_DATE cfg) + Z.of_nat i
                = toordinal (START_DATE cfg) + Z.of_nat j).
  { apply full_date_by_ordinal; [exact Hoi | exact Hoj |].
    rewrite <- Hdi, <- Hdj, <- Hfi, <- Hfj, Hi, Hj. reflexivity. }
  lia.
Qed.

(** Pairing distinct days with distinct stores gives distinct keys. *)
Lemma NoDup_store_days {A} (f : A -> string) (stores : list Z) (days : list A) :
  NoDup stores -> NoDup (map f days) ->
  NoDup (flat_map (fun d => map (fun s => (s, f d)) stores) days).
Proof.
  intros Hs. induction days as [| d days IH]; cbn; intros Hd; [constructor |].
  apply NoDup_cons in Hd as [Hfresh Hd]. apply NoDup_app. repeat split.
  - apply NoDup_fmap_2; [| exact Hs]. intros s1 s2 [=]. assumption.
  - intros [s x] Hin Hin'. apply list_elem_of_fmap in Hin as (s' & [= -> ->] & _).
    apply list_elem_of_In, in_flat_map in Hin' as (d' & Hd' & Hin').
    apply list_elem_of_In, list_elem_of_fmap in Hin' as (s'' & [= -> Hf] & _).
    apply Hfresh. rewrite Hf. apply list_elem_of_fmap. exists d'.
    split; [reflexivity | now apply list_elem_of_In].
  - now apply IH.
Qed.

Lemma NoDup_range lo hi : NoDup (Py.range lo hi).
Proof.
  unfold Py.range. apply NoDup_fmap_2; [| apply NoDup_seq].
  intros a b H. lia.
Qed.

End FullDateFacts.

Import Datetime Generator.
Import DatetimeFacts DimDateFacts FullDateFacts GeneratorFacts TransactionFacts.
Import Determinism MainFacts LoaderFacts.

(** ** Runs that abort *)

Module AbortFacts.
Import ChoiceFacts.

Section WithRandomState.
Context {RS : RandomState}.

(** [m] leaves the files and the output alone; a value it returns
    satisfies [P], an exception it raises satisfies [Q]. *)
Definition outcome {A} (m : M A) (P : A -> Prop) (Q : Py.exn -> Prop) : Prop :=
  forall w, exists res s,
    m w = (res, mkWorld s (w_files w) (w_stdout w))
    /\ match res with inl e => Q e | inr a => P a end.

Lemma outcome_sampling {A} (m : M A) P Q : sampling m P -> outcome m P Q.
Proof.
  intros Hm w. destruct (Hm w) as (a & s & Hw & HP). now exists (inr a), s.
Qed.

Lemma outcome_raise {A} e (P : A -> Prop) (Q : Py.exn -> Prop) :
  Q e -> outcome (raise e) P Q.
Proof. intros HQ [r f o]. now exists (inl e), r. Qed.

Lemma outcome_bind {A B} (m : M A) (k : A -> M B) P P' Q :
  outcome m P Q -> (forall a, P a -> outcome (k a) P' Q) -> outcome (bind m k) P' Q.
Proof.
  intros Hm Hk w. destruct (Hm w) as ([e | a] & s & Hw & H).
  - exists (inl e), s. unfold bind. now rewrite Hw.
  - destruct (Hk a H (mkWorld s (w_files w) (w_stdout w))) as (res & s' & Hw' & H').
    exists res, s'. unfold bind. now rewrite Hw, Hw'.
Qed.

Lemma outcome_randint low high (Q : Py.exn -> Prop) :
  Q Py.ValueError ->
  outcome (Np.randint low high) (fun v => low <= v < high) Q.
Proof.
  intros HQ. destruct (Z_lt_le_dec low high) as [Hlt | Hge].
  - now apply outcome_sampling, sampling_randint.
  - unfold Np.randint. destruct (Z.leb_spec high low); [| lia].
    now apply outcome_raise.
Qed.

(** A loop whose body always raises, run on at least one item. *)
Lemma outcome_for_raises {A S} (body : A -> S -> M S) xs s Q :
  xs <> [] ->
  (forall x s, outcome (body x s) (fun _ => False) Q) ->
  outcome (for_ xs s body) (fun _ => False) Q.
Proof.
  intros Hne Hbody. destruct xs as [| x xs]; [congruence |]. cbn.
  eapply outcome_bind; [apply Hbody |]. intros s' [].
Qed.

Lemma range_nonempty lo hi : lo < hi -> Py.range lo hi <> [].
Proof.
  intros Hlt H. apply (f_equal (@length Z)) in H. rewrite length_range in H.
  cbn in H. lia.
Qed.

(** A product dimension numbered 1, 2, ... has a row for every id up to
    its length. *)
Lemma product_with_id_found dim_product product_id :
  product_id ∈ map DimProduct.product_id dim_product ->
  exists p, product_with_id dim_product product_id = ret p.
Proof.
  unfold product_with_id. induction dim_product as [| q rest IH]; cbn [map List.filter].
  - intros H. now apply elem_of_nil in H.
  - intros H. destruct (Z.eqb_spec (DimProduct.product_id q) product_id) as [Heq | Hne].
    + now exists q.
    + apply elem_of_cons in H as [H | H]; [congruence |]. now apply IH.
Qed.

(** The loop body as written: whatever was drawn before, the hour of day
    cannot be drawn. *)
Lemma new_transaction_aborts dim_product date_str store_id st :
  map DimProduct.product_id dim_product
  = Py.range 1 (Z.of_nat (length dim_product) + 1) ->
  outcome (new_transaction HOUR_WEIGHTS dim_product date_str store_id st)
    (fun _ => False) (fun e => e = Py.ValueError).
Proof.
  intros Hids. destruct st as [transactions tid]. unfold new_transaction.
  eapply outcome_bind; [now apply outcome_randint |]. intros product_id Hid.
  cbv beta in Hid.
  destruct (product_with_id_found dim_product product_id) as [product ->].
  { rewrite Hids. apply elem_of_range. lia. }
  eapply outcome_bind;
    [apply outcome_sampling, (sampling_ret _ (fun _ => True)), I |]. intros p _.
  eapply outcome_bind; [now apply outcome_sampling, sampling_choice_p |].
  intros quantity _.
  eapply outcome_bind; [apply outcome_sampling, sampling_random |]. intros r1 _.
  eapply outcome_bind; [apply outcome_sampling, sampling_random |]. intros r2 _.
  eapply outcome_bind with (P := fun _ => True).
  { apply outcome_sampling. destruct (Py.Qltb r2 0.01); [| now apply sampling_ret].
    eapply sampling_bind; [apply sampling_randint; lia |]. intros k _.
    now apply sampling_ret. }
  intros tid_val _.
  eapply outcome_bind with (P := fun _ => False); [| intros ? []].
  unfold Np.choice_p. rewrite hour_weights_rejected. now apply outcome_raise.
Qed.

(** With a day and a store, the transaction generator prints its line and
    raises ValueError from its first pass through the innermost loop. *)
Lemma generate_fact_transactions_aborts cfg dim_date dim_store dim_product r f o :
  dim_date <> [] -> 1 <= N_STORES cfg ->
  map DimProduct.product_id dim_product
  = Py.range 1 (Z.of_nat (length dim_product) + 1) ->
  exists s,
    generate_fact_transactions cfg dim_date dim_store dim_product (mkWorld r f o)
    = (inl Py.ValueError,
       mkWorld s f
         (o ++ ["Generating transactions (this takes ~60 seconds)..."%string])).
Proof.
  intros Hdays Hstores Hids.
  unfold generate_fact_transactions, generate_fact_transactions_with.
  rewrite bind_print.
  match goal with
  | |- context [bind ?m ?k ?w0] =>
      assert (Hloop : outcome m (fun _ => False) (fun e => e = Py.ValueError))
  end.
  { apply outcome_for_raises; [exact Hdays |]. intros d st.
    apply outcome_for_raises; [apply range_nonempty; lia |]. intros s st'.
    eapply outcome_bind; [apply outcome_sampling, sampling_normal |]. intros x _.
    apply outcome_for_raises; [apply range_nonempty; lia |]. intros k st''.
    now apply new_transaction_aborts. }
  match goal with
  | |- context [bind ?m ?k ?w0] =>
      destruct (Hloop w0) as ([e | a] & s & Hrun & Hres); [| destruct Hres]
  end.
  subst e. exists s. exact (bind_error _ _ _ _ _ Hrun).
Qed.

End WithRandomState.
End AbortFacts.

Import AbortFacts.

(** ** Runs, draw by draw *)

Module TraceFacts.
Import ChoiceFacts.

Section WithRandomState.
Context {RS : RandomState}.

(** From the generator state [r], [m] ends with [res] in the state [r'],
    and leaves the files and the output alone. *)
Definition runs {A} (m : M A) (r : rng) (res : Py.exn + A) (r' : rng) : Prop :=
  forall f o, m (mkWorld r f o) = (res, mkWorld r' f o).

Lemma runs_ret {A} (a : A) r : runs (ret a) r (inr a) r.
Proof. now intros f o. Qed.


Lemma runs_draw {A} (g : rng -> A * rng) r :
  runs (draw g) r (inr (fst (g r))) (snd (g r)).
Proof. intros f o. unfold draw. cbn. now destruct (g r). Qed.

Lemma runs_bind {A B} (m : M A) (k : A -> M B) r a r1 res r2 :
  runs m r (inr a) r1 -> runs (k a) r1 res r2 -> runs (bind m k) r res r2.
Proof. intros Hm Hk f o. unfold bind. now rewrite Hm, Hk. Qed.



Lemma runs_uniform low high r :
  runs (Np.uniform low high) r
    (inr (low + (high - low) * fst (random_sample r))%Q) (snd (random_sample r)).
Proof.
  unfold Np.uniform. eapply runs_bind; [apply runs_draw | apply runs_ret].
Qed.



(** *** The only pass the transaction generator makes *)




(** *** The labour table, draw by draw *)

(** NumPy's [uniform(low, high)] from a variate of the unit interval. *)
Definition uniform_value (low high u : Q) : Q := (low + (high - low) * u)%Q.

(** The shift recorded for a day and a store from its three uniform
    variates: the contracted hours, the factor worked and the hourly rate.
    The cost is the product of the unrounded hours worked and the unrounded
    rate, rounded once. *)
Definition shift_row (d : DimDate.row) (store_id : Z) (u1 u2 u3 : Q)
    : FactLabour.row :=
  let contracted := uniform_value 40 120 u1 in
  let actual := (contracted * uniform_value 0.90 1.15 u2)%Q in
  let hourly_rate := uniform_value 10.42 13.50 u3 in
  FactLabour.mk store_id (DimDate.full_date d) (DimDate.fiscal_week d)
    (Py.round contracted 1) (Py.round actual 1) (Py.round hourly_rate 2)
    (Py.round (actual * hourly_rate) 2).

(** The rows for a list of (day, store) pairs, three draws each. *)
Fixpoint labour_rows (keys : list (DimDate.row * Z)) (r : rng)
    : list FactLabour.row * rng :=
  match keys with
  | [] => ([], r)
  | (d, store_id) :: rest =>
      let u1 := random_sample r in
      let u2 := random_sample (snd u1) in
      let u3 := random_sample (snd u2) in
      let rows := labour_rows rest (snd u3) in
      (shift_row d store_id (fst u1) (fst u2) (fst u3) :: fst rows, snd rows)
  end.

Lemma labour_rows_app keys1 keys2 r :
  labour_rows (keys1 ++ keys2) r
  = ((labour_rows keys1 r).1 ++ (labour_rows keys2 (labour_rows keys1 r).2).1,
     (labour_rows keys2 (labour_rows keys1 r).2).2).
Proof.
  revert r. induction keys1 as [| [d s] keys1 IH]; intros r.
  - cbn. now destruct (labour_rows keys2 r).
  - cbn [app labour_rows]. cbv zeta. rewrite IH. reflexivity.
Qed.

Lemma runs_new_shift d store_id r :
  let u1 := random_sample r in
  let u2 := random_sample (snd u1) in
  let u3 := random_sample (snd u2) in
  runs (new_shift d store_id) r
    (inr (shift_row d store_id (fst u1) (fst u2) (fst u3))) (snd u3).
Proof.
  intros u1 u2 u3. unfold new_shift.
  eapply runs_bind; [apply runs_uniform |].
  eapply runs_bind; [apply runs_uniform |].
  eapply runs_bind; [apply runs_uniform |].
  apply runs_ret.
Qed.

Lemma runs_labour_stores d stores : forall labour r,
  runs (for_ stores labour (fun store_id labour =>
          row <- new_shift d store_id ;; ret (labour ++ [row]))) r
    (inr (labour ++ (labour_rows (map (pair d) stores) r).1))
    (labour_rows (map (pair d) stores) r).2.
Proof.
  induction stores as [| s stores IH]; intros labour r; cbn [for_ map labour_rows].
  - rewrite app_nil_r. apply runs_ret.
  - cbv zeta. eapply runs_bind.
    { eapply runs_bind; [apply runs_new_shift | apply runs_ret]. }
    cbn [fst snd].
    match goal with
    | |- runs _ _ (inr (?l ++ ?x :: ?rest)) _ =>
        replace (l ++ x :: rest) with ((l ++ [x]) ++ rest)
          by (now rewrite <- app_assoc)
    end.
    apply IH.
Qed.

(** The (day, store) pairs in the order the loops visit them. *)
Definition shift_keys (cfg : Config) (dim_date : list DimDate.row)
    : list (DimDate.row * Z) :=
  flat_map (fun d => map (pair d) (Py.range 1 (N_STORES cfg + 1))) dim_date.

Lemma runs_labour_days cfg dim_date : forall labour r,
  runs (for_ dim_date labour (fun date_row labour =>
          for_ (Py.range 1 (N_STORES cfg + 1)) labour (fun store_id labour =>
            row <- new_shift date_row store_id ;; ret (labour ++ [row])))) r
    (inr (labour ++ (labour_rows (shift_keys cfg dim_date) r).1))
    (labour_rows (shift_keys cfg dim_date) r).2.
Proof.
  unfold shift_keys.
  induction dim_date as [| d dim_date IH]; intros labour r; cbn [for_ flat_map].
  - cbn. rewrite app_nil_r. apply runs_ret.
  - rewrite labour_rows_app. cbn [fst snd].
    eapply runs_bind; [apply runs_labour_stores |].
    rewrite app_assoc. apply IH.
Qed.

Lemma runs_generate_fact_labour cfg dim_date r :
  runs (generate_fact_labour cfg dim_date) r
    (inr (labour_rows (shift_keys cfg dim_date) r).1)
    (labour_rows (shift_keys cfg dim_date) r).2.
Proof. exact (runs_labour_days cfg dim_date [] r). Qed.

End WithRandomState.
End TraceFacts.

Import TraceFacts.

(** ** The whole script when it aborts *)

Module MainAborts.

Section WithRandomState.
Context {RS : RandomState}.

Lemma bind_lift_error {A B} e (k : A -> M B) w :
  bind (lift (inl e)) k w = (inl e, w).
Proof. reflexivity. Qed.

#[local] Opaque generate_dim_store generate_dim_product
  generate_fact_transactions generate_fact_transactions_with
  generate_fact_labour generate_fact_shrinkage path Py.str Py.fmt_commas
  bind print to_csv Np.seed_ lift.

Ltac run_sampling m H a s Ha :=
  match goal with
  | |- context [bind m ?k ?w0] =>
      destruct (bind_sampling m k _ w0 H) as (a & s & Ha & ->)
  end.

(** The lines printed up to the point where the transactions abort. *)
Definition printed_before_abort
    (dim_date : list DimDate.row) (dim_store : list DimStore.row)
    (dim_product : list DimProduct.row) : list string :=
  ["Generating dimension tables...";
   "  dim_date: " +:+ Py.str (len dim_date) +:+ " rows";
   "  dim_store: " +:+ Py.str (len dim_store) +:+ " rows";
   "  dim_product: " +:+ Py.str (len dim_product) +:+ " rows";
   "Generating fact tables...";
   "Generating transactions (this takes ~60 seconds)..."]%string.

Lemma main_aborts_after_dimensions cfg dim_date r0 f0 o0 :
  generate_dim_date cfg = inr dim_date ->
  dim_date <> [] -> 1 <= N_STORES cfg ->
  exists dim_store dim_product s,
    main cfg (mkWorld r0 f0 o0)
    = (inl Py.ValueError,
       mkWorld s (written_before_facts dim_date dim_store dim_product f0)
         (o0 ++ printed_before_abort dim_date dim_store dim_product)).
Proof.
  intros Hdate Hdays Hstores. unfold main.
  rewrite bind_seed, bind_print, Hdate, bind_lift_value.
  run_sampling (generate_dim_store cfg) (generate_dim_store_sampling cfg)
    dim_store s1 Hs.
  run_sampling (generate_dim_product cfg) (generate_dim_product_sampling cfg)
    dim_product s2 Hp.
  cbn [w_rng w_files w_stdout].
  rewrite !bind_to_csv, !bind_print.
  destruct Hp as [_ Hids].
  match goal with
  | |- context [bind (generate_fact_transactions cfg dim_date ?ds ?dp) ?k
                  (mkWorld ?r ?f ?o)] =>
      destruct (generate_fact_transactions_aborts cfg dim_date ds dp r f o
                  Hdays Hstores Hids) as (s & Hraise)
  end.
  rewrite (bind_error _ _ _ _ _ Hraise).
  exists dim_store, dim_product, s. unfold printed_before_abort.
  rewrite <- !app_assoc. reflexivity.
Qed.

(** A date range that leaves the calendar stops the run before anything
    is written. *)
Lemma main_stops_at_dates cfg e r0 f0 o0 :
  generate_dim_date cfg = inl e ->
  main cfg (mkWorld r0 f0 o0)
  = (inl e, mkWorld (seed SEED) f0 (o0 ++ ["Generating dimension tables..."%string])).
Proof.
  intros Hdate. unfold main. rewrite bind_seed, bind_print, Hdate.
  apply bind_lift_error.
Qed.

End WithRandomState.
End MainAborts.

Import MainAborts.

(** * The claims *)

(** ** Concrete inputs *)

Module Inputs.
Import Generator.

(** A random source whose variates are all written out by the caller. *)
Definition no_stream : Z -> list Q := fun _ => [].
Definition scripted : RandomState := Scripted.source no_stream.
Definition world (script : list Q) : @World scripted :=
  Scripted.world no_stream script.

Definition NEW_YEAR : Datetime.date := Datetime.mkdate 2023 1 1.

(** One store, one day. *)
Definition one_store_day : Config := mkConfig 1 500 1 NEW_YEAR.
Definition one_day : list DimDate.row := [date_row NEW_YEAR NEW_YEAR].

(** The script's configuration with the day count set to zero. *)
Definition no_days : Config := mkConfig 20 500 0 NEW_YEAR.

(** One day and no store. *)
Definition no_stores : Config := mkConfig 0 500 1 NEW_YEAR.

Definition one_product : list DimProduct.row :=
  [DimProduct.mk 1 "Bread Product 1" "Bakery" "Bread" 1.99 1.05 "Low" 7 0].

(** A parser for the loader: the first line is the header, every further
    line one record; an empty file is rejected. *)
Fixpoint lines (current : string) (s : string) : list string :=
  match s with
  | EmptyString => [current]
  | String c rest =>
      if Ascii.eqb c (ascii_of_nat 10) then current :: lines EmptyString rest
      else lines (current +:+ String c EmptyString) rest
  end.

Definition parse_lines (contents : string) : option Loader.DataFrame :=
  match contents with
  | EmptyString => None
  | _ =>
      match lines EmptyString contents with
      | header :: records =>
          Some (Loader.mkDataFrame [header] (map (fun l => [l]) records))
      | [] => None
      end
  end.


(** The store file alone, the date file missing. *)
Definition store_file_only : Loader.World :=
  Loader.mkWorld
    (<[Loader.DATA_DIR +:+ "/dim_store.csv"
         := "store_id" +:+ Loader.newline +:+ "1"]> ∅)
    ∅ [].

Lemma one_day_generated : generate_dim_date one_store_day = inr one_day.
Proof. vm_compute. reflexivity. Qed.

Lemma no_stores_generated : generate_dim_date no_stores = inr one_day.
Proof. vm_compute. reflexivity. Qed.

End Inputs.

Import Datetime Generator.
Import DatetimeFacts DimDateFacts FullDateFacts GeneratorFacts TransactionFacts.
Import Determinism MainFacts LoaderFacts AbortFacts TraceFacts MainAborts Inputs.

Lemma length_store_days {A} (f : A -> string) (stores : list Z) (days : list A) :
  length (flat_map (fun d => map (fun s => (s, f d)) stores) days)
  = (length days * length stores)%nat.
Proof.
  induction days as [| d days IH]; cbn; [reflexivity |].
  now rewrite length_app, length_map, IH.
Qed.

(** ** C1 *)

(** C1: for the fixed seed and a fixed configuration, two runs of the
    generator agree whatever state they start from: the same result (or
    the same exception), the same final random state, the same tables
    written to the same files and the same lines printed. *)
Theorem C1_generator_deterministic {RS : RandomState} (cfg : Config)
    (w1 w2 : World) :
  (main cfg w1).1 = (main cfg w2).1
  /\ w_rng (main cfg w1).2 = w_rng (main cfg w2).2
  /\ exists written printed,
       w_files (main cfg w1).2 = written ∪ w_files w1
       /\ w_files (main cfg w2).2 = written ∪ w_files w2
       /\ w_stdout (main cfg w1).2 = w_stdout w1 ++ printed
       /\ w_stdout (main cfg w2).2 = w_stdout w2 ++ printed.
Proof.
  destruct (main_outcome cfg) as (res & r & written & printed & H).
  rewrite (H w1), (H w2). cbn. repeat split. now exists written, printed.
Qed.

(** ** C2 *)

(** C2, as stated, fails on the first day of the shipped configuration:
    its fiscal week is not [0 / 7]. *)
Lemma C2_counterexample :
  ~ (forall rows (i : nat) row,
       generate_dim_date CONFIG = inr rows ->
       rows !! i = Some row ->
       DimDate.fiscal_week row = Z.of_nat i / 7).
Proof.
  intros Hclaim.
  destruct (generate_dim_date_total CONFIG) as [rows Hrows];
    [vm_compute; discriminate .. |].
  pose proof (dim_date_length _ _ Hrows) as Hlen.
  destruct (lookup_lt_is_Some_2 rows 0) as [row Hrow];
    [rewrite Hlen; cbn; lia |].
  pose proof (Hclaim _ _ _ Hrows Hrow) as H0.
  pose proof (dim_date_fiscal_week _ _ _ _ Hrows Hrow) as H1.
  rewrite H0 in H1. discriminate.
Qed.

(** C2 (amended): for every row of the date dimension, the fiscal week is
    the floor of (days since the configured start date divided by 7) plus
    one; in particular the first day's fiscal week is 1. *)
Theorem C2_fiscal_week_is_one_based (cfg : Config) (rows : list DimDate.row) :
  generate_dim_date cfg = inr rows ->
  (forall (i : nat) row,
     rows !! i = Some row -> DimDate.fiscal_week row = Z.of_nat i / 7 + 1)
  /\ (forall row, rows !! 0%nat = Some row -> DimDate.fiscal_week row = 1).
Proof.
  intros Hrows. split.
  - intros i row Hrow. exact (dim_date_fiscal_week cfg rows i row Hrows Hrow).
  - intros row Hrow. exact (dim_date_fiscal_week cfg rows 0 row Hrows Hrow).
Qed.

Lemma C2_witness :
  generate_dim_date one_store_day = inr one_day
  /\ (forall (i : nat) row,
        one_day !! i = Some row -> DimDate.fiscal_week row = Z.of_nat i / 7 + 1)
  /\ (forall row, one_day !! 0%nat = Some row -> DimDate.fiscal_week row = 1).
Proof.
  split; [vm_compute; reflexivity |].
  apply (C2_fiscal_week_is_one_based one_store_day one_day).
  vm_compute. reflexivity.
Defined.

(** ** C3 *)

(** C3: with 20 stores and 730 days, [generate_fact_labour] returns
    exactly 14,600 rows: the rows are, in order, one for each day of the
    date dimension and each store 1..20, and no (store, day) key occurs
    twice. *)
Theorem C3_labour_one_row_per_store_day {RS : RandomState} (cfg : Config)
    (dim_date : list DimDate.row) (w : World) :
  N_STORES cfg = 20 -> N_DAYS cfg = 730 ->
  generate_dim_date cfg = inr dim_date ->
  exists rows w',
    generate_fact_labour cfg dim_date w = (inr rows, w')
    /\ Z.of_nat (length rows) = 14600
    /\ map labour_key rows
       = flat_map (fun d => map (fun s => (s, DimDate.full_date d)) (Py.range 1 21))
           dim_date
    /\ NoDup (map labour_key rows).
Proof.
  intros Hstores Hdays Hdate.
  destruct (generate_fact_labour_sampling cfg dim_date w)
    as (rows & s & Hrun & Hkeys & _).
  rewrite Hstores in Hkeys. change (20 + 1) with 21 in Hkeys.
  exists rows, (mkWorld s (w_files w) (w_stdout w)).
  split; [exact Hrun |]. split; [| split; [exact Hkeys |]].
  - rewrite <- (length_map labour_key), Hkeys, length_store_days.
    rewrite (dim_date_length _ _ Hdate), Hdays, length_range. reflexivity.
  - rewrite Hkeys. apply NoDup_store_days; [apply NoDup_range |].
    now apply (dim_date_full_dates_distinct cfg).
Qed.

Lemma C3_witness :
  exists dim_date rows w',
    generate_dim_date CONFIG = inr dim_date
    /\ generate_fact_labour (RS := scripted) CONFIG dim_date (world []) = (inr rows, w')
    /\ Z.of_nat (length rows) = 14600.
Proof.
  destruct (generate_dim_date_total CONFIG) as [dim_date Hdate];
    [vm_compute; discriminate .. |].
  destruct (C3_labour_one_row_per_store_day (RS := scripted) CONFIG dim_date
              (world []) eq_refl eq_refl Hdate)
    as (rows & w' & Hrun & Hlen & _).
  exists dim_date, rows, w'.
  split; [exact Hdate | split; [exact Hrun | exact Hlen]].
Defined.

(** ** C4 *)



(** ** C5 *)

(** C5, as stated, fails: with 100.04 hours worked at a rate of 12.004 the
    row records 100.0 hours, a rate of 12.00 and a cost of 1200.88, not
    100.0 x 12.00. *)
Lemma C5_counterexample :
  exists r,
    (generate_fact_labour (RS := scripted) one_store_day one_day
       (world [0.75; 0.4016; 18 # 35]%Q)).1 = inr [r]
    /\ (FactLabour.actual_hours r == 100)%Q
    /\ (FactLabour.hourly_rate r == 12)%Q
    /\ (FactLabour.total_labour_cost r == 1200.88)%Q
    /\ ~ (FactLabour.total_labour_cost r
          == Py.round (FactLabour.actual_hours r * FactLabour.hourly_rate r) 2)%Q.
Proof.
  eexists. split; [vm_compute; reflexivity |].
  repeat split; try (vm_compute; reflexivity).
  intros H. vm_compute in H. discriminate H.
Qed.

(** C5 (amended): the labour table is, row for row, the table of
    [labour_rows]: for each day of the date dimension and each store, in
    order, three variates of the unit interval are drawn, and the row
    records the contracted hours [uniform(40, 120)], the hours worked (contracted times
    the factor [uniform(0.90, 1.15)]) and the rate [uniform(10.42, 13.50)],
    each rounded for its own column, and as [total_labour_cost] the
    product of the unrounded hours worked and the unrounded rate, rounded
    to two decimals. *)
Theorem C5_cost_from_unrounded_values {RS : RandomState} (cfg : Config)
    (dim_date : list DimDate.row) (w : World) :
  generate_fact_labour cfg dim_date w
  = (inr (labour_rows (shift_keys cfg dim_date) (w_rng w)).1,
     mkWorld (labour_rows (shift_keys cfg dim_date) (w_rng w)).2
       (w_files w) (w_stdout w))
  /\ Forall (fun r =>
        exists d store_id u1 u2 u3,
          d ∈ dim_date
          /\ (0 <= u1 < 1)%Q /\ (0 <= u2 < 1)%Q /\ (0 <= u3 < 1)%Q
          /\ r = shift_row d store_id u1 u2 u3
          /\ FactLabour.actual_hours r
             = Py.round (uniform_value 40 120 u1 * uniform_value 0.90 1.15 u2) 1
          /\ FactLabour.hourly_rate r = Py.round (uniform_value 10.42 13.50 u3) 2
          /\ FactLabour.total_labour_cost r
             = Py.round (uniform_value 40 120 u1 * uniform_value 0.90 1.15 u2
                         * uniform_value 10.42 13.50 u3) 2)
       (labour_rows (shift_keys cfg dim_date) (w_rng w)).1.
Proof.
  split.
  - destruct w as [r f o]. exact (runs_generate_fact_labour cfg dim_date r f o).
  - assert (Hkeys : Forall (fun k : DimDate.row * Z => k.1 ∈ dim_date)
                      (shift_keys cfg dim_date)).
    { apply Forall_forall. intros [d s] Hin. unfold shift_keys in Hin.
      apply list_elem_of_In, in_flat_map in Hin as (d' & Hd' & Hin).
      apply list_elem_of_In, list_elem_of_fmap in Hin as (s' & [= -> ->] & _).
      now apply list_elem_of_In. }
    revert Hkeys. generalize (shift_keys cfg dim_date) (w_rng w).
    induction l as [| [d s] keys IH]; intros r Hkeys; [constructor |].
    apply Forall_cons in Hkeys as [Hd Hkeys]. cbn [labour_rows]. cbv zeta.
    cbn [fst]. constructor; [| apply IH, Hkeys].
    exists d, s. do 3 eexists. split; [exact Hd |].
    do 3 (split; [apply random_sample_range |]).
    split; [reflexivity |]. now repeat split.
Qed.

(** ** C6 *)



(** ** C7 *)

(** C7, as stated, fails: with the store count set to zero the run does
    not abort, and it writes files. *)
Lemma C7_counterexample :
  ~ (N_DAYS no_stores <= 0 \/ N_STORES no_stores <= 0 ->
     (exists e, (main (RS := scripted) no_stores (world [])).1 = inl e)
     /\ w_files (main (RS := scripted) no_stores (world [])).2 = w_files (world [])).
Proof.
  intros Hclaim.
  destruct Hclaim as [[e He] _]; [right; vm_compute; discriminate |].
  destruct (main_completes_empty (RS := scripted) no_stores one_day (world [])
              no_stores_generated)
    as (dim_store & dim_product & w' & Hmain & _);
    [right; vm_compute; discriminate |].
  rewrite Hmain in He. discriminate He.
Qed.

(** C7 (amended): the generator does not validate its configuration.
    With a non-positive day count the run does end in an error before any
    file is written, though not on a check of the count: the holiday update
    of the date dimension raises AttributeError on the empty frame.  With
    a non-positive store count and a date dimension that is built, it does
    not abort: it runs to completion and writes all six files, the store
    dimension and the transaction, labour and shrinkage tables empty. *)
Theorem C7_only_the_day_count_aborts {RS : RandomState} (cfg : Config)
    (w : World) :
  (N_DAYS cfg <= 0 ->
   main cfg w
   = (inl Py.AttributeError,
      mkWorld (seed SEED) (w_files w)
        (w_stdout w ++ ["Generating dimension tables..."%string])))
  /\ (forall dim_date,
        generate_dim_date cfg = inr dim_date -> N_STORES cfg <= 0 ->
        exists dim_product w',
          main cfg w = (inr tt, w')
          /\ w_files w'
             = <[path "fact_shrinkage.csv" := TFactShrinkage []]>
               (<[path "fact_labour.csv" := TFactLabour []]>
               (<[path "fact_transactions.csv" := TFactTransactions []]>
               (<[path "dim_product.csv" := TDimProduct dim_product]>
               (<[path "dim_store.csv" := TDimStore []]>
               (<[path "dim_date.csv" := TDimDate dim_date]> (w_files w))))))).
Proof.
  split.
  - intros Hdays. destruct w as [r0 f0 o0].
    apply main_stops_at_dates. now apply dim_date_empty.
  - intros dim_date Hgen Hstores.
    destruct (main_completes_empty cfg dim_date w Hgen (or_intror Hstores))
      as (dim_store & dim_product & w' & Hmain & Hlen & Hfiles).
    assert (dim_store = []) as -> by (destruct dim_store; [reflexivity | cbn in Hlen; lia]).
    exists dim_product, w'. split; [exact Hmain | exact Hfiles].
Qed.

Lemma C7_witness :
  main (RS := scripted) no_days (world [])
  = (inl Py.AttributeError,
     mkWorld (seed SEED) (w_files (world []))
       (w_stdout (world []) ++ ["Generating dimension tables..."%string]))
  /\ exists dim_product w',
       main (RS := scripted) no_stores (world []) = (inr tt, w')
       /\ w_files w'
          = <[path "fact_shrinkage.csv" := TFactShrinkage []]>
            (<[path "fact_labour.csv" := TFactLabour []]>
            (<[path "fact_transactions.csv" := TFactTransactions []]>
            (<[path "dim_product.csv" := TDimProduct dim_product]>
            (<[path "dim_store.csv" := TDimStore []]>
            (<[path "dim_date.csv" := TDimDate one_day]> (w_files (world []))))))).
Proof.
  split.
  - apply (proj1 (C7_only_the_day_count_aborts (RS := scripted) no_days (world []))).
    vm_compute. discriminate.
  - apply (proj2 (C7_only_the_day_count_aborts (RS := scripted) no_stores (world []))
             one_day no_stores_generated).
    vm_compute. discriminate.
Defined.

(** ** C8 *)

(** C8 (code bug): a declared file that exists and parses stops the load.
    The files declared before it that are missing get their warning; then
    [to_sql] is asked for a table in the schema bronze, which the SQLite
    connection does not know, and raises; the exception is not caught.  No
    table is written, the remaining tables are not looked at and no total
    is printed. *)
Theorem C8_present_file_stops_the_load
    (read_csv : string -> option Loader.DataFrame)
    (pre post : list (string * string * string))
    (filepath table_name contents : string) (df : Loader.DataFrame)
    (w : Loader.World) :
  Loader.TABLES = pre ++ (filepath, table_name, "bronze"%string) :: post ->
  Forall (fun e : string * string * string => Loader.fs w !! e.1.1 = None) pre ->
  Loader.fs w !! filepath = Some contents ->
  read_csv contents = Some df ->
  Loader.main read_csv w
  = (inl Loader.OperationalError,
     Loader.mkWorld (Loader.fs w) (Loader.db w)
       (Loader.stdout w ++ ["Loading data to " +:+ Loader.DB_PATH]
        ++ map (fun e : string * string * string => Loader.warning e.1.1) pre)).
Proof.
  intros Htables Hpre Hfile Hread.
  rewrite (main_stops read_csv pre filepath table_name post w contents
             Htables Hpre Hfile).
  unfold error_at. now rewrite Hread.
Qed.

Lemma C8_witness :
  Loader.main parse_lines store_file_only
  = (inl Loader.OperationalError,
     Loader.mkWorld (Loader.fs store_file_only) (Loader.db store_file_only)
       (Loader.stdout store_file_only ++ ["Loading data to " +:+ Loader.DB_PATH]
        ++ map (fun e : string * string * string => Loader.warning e.1.1)
             [(Loader.DATA_DIR +:+ "/dim_date.csv", "dim_date", "bronze")]%string)).
Proof.
  eapply (C8_present_file_stops_the_load parse_lines
            [(Loader.DATA_DIR +:+ "/dim_date.csv", "dim_date", "bronze")]%string).
  - reflexivity.
  - constructor; [vm_compute; reflexivity | constructor].
  - vm_compute. reflexivity.
  - vm_compute. reflexivity.
Defined.

(** ** C9 *)



(** ** C10 *)



(** * Further properties *)

(** ** The date dimension *)

Module DimDateMore.

Lemma traverse_raises {A B} (f : A -> Py.exn + B) e xs :
  (forall x, x ∈ xs -> (exists y, f x = inr y) \/ f x = inl e) ->
  (exists x, x ∈ xs /\ f x = inl e) ->
  traverse f xs = inl e.
Proof.
  induction xs as [| x xs IH]; intros Hall (x0 & Hin & Hx0).
  - now apply elem_of_nil in Hin.
  - cbn. destruct (Hall x (list_elem_of_here _ _)) as [[y Hy] | Hx].
    + rewrite Hy. rewrite IH; [reflexivity | |].
      * intros x' Hx'. apply Hall. now right.
      * apply elem_of_cons in Hin as [-> | Hin]; [congruence |].
        now exists x0.
    + now rewrite Hx.
Qed.

Lemma day_of_week_date_row start d :
  DimDate.day_of_week (date_row start d) = weekday d.
Proof. reflexivity. Qed.

Lemma is_weekend_date_row start d :
  DimDate.is_weekend (date_row start d) = if 5 <=? weekday d then 1 else 0.
Proof. reflexivity. Qed.

Lemma month_date_row start d : DimDate.month (date_row start d) = month d.
Proof. reflexivity. Qed.

Lemma year_date_row start d : DimDate.year (date_row start d) = year d.
Proof. reflexivity. Qed.

Lemma quarter_date_row start d :
  DimDate.quarter (date_row start d) = (month d - 1) / 3 + 1.
Proof. reflexivity. Qed.

Lemma is_bank_holiday_date_row start d :
  DimDate.is_bank_holiday (date_row start d) = 0.
Proof. reflexivity. Qed.

Lemma weekday_fromordinal n : weekday (fromordinal n) = (n + 6) mod 7.
Proof. unfold weekday. now rewrite toordinal_fromordinal. Qed.

(** What the holiday update does to a row: the flag is set or the row is
    returned as it is. *)
Lemma mark_christmas_cases r r' :
  mark_christmas r = inr r' ->
  exists dd,
    Py.parse_int (Py.slice 8 10 (DimDate.full_date r)) = inr dd
    /\ r' = if (DimDate.month r =? 12) && (15 <=? dd)
            then DimDate.with_bank_holiday r 1 else r.
Proof.
  unfold mark_christmas.
  destruct (Py.parse_int _) as [e | dd]; [discriminate |].
  intros [= <-]. now exists dd.
Qed.

(** The row [i] days after the start, column by column, in terms of the
    date [d] of that day. *)
Lemma dim_date_row_columns cfg rows (i : nat) row :
  generate_dim_date cfg = inr rows ->
  rows !! i = Some row ->
  exists d,
    toordinal d = toordinal (START_DATE cfg) + Z.of_nat i
    /\ valid d
    /\ DimDate.full_date row = fmt_Y_m_d d
    /\ DimDate.year row = year d
    /\ DimDate.month row = month d
    /\ DimDate.quarter row = (month d - 1) / 3 + 1
    /\ DimDate.day_of_week row = weekday d
    /\ DimDate.is_weekend row = (if 5 <=? weekday d then 1 else 0)
    /\ (DimDate.is_bank_holiday row = 0 \/ DimDate.is_bank_holiday row = 1)
    /\ (1000 <= year d ->
        DimDate.is_bank_holiday row
        = (if (month d =? 12) && (15 <=? day d) then 1 else 0)).
Proof.
  intros Hgen Hrow.
  destruct (dim_date_row _ _ _ _ Hgen Hrow) as (d & Hadd & Hmark).
  apply add_days_inv in Hadd as [Hd Ho].
  pose proof (fromordinal_valid _ Ho) as Hvalid.
  pose proof (toordinal_fromordinal (toordinal (START_DATE cfg) + Z.of_nat i)) as Hord.
  rewrite <- Hd in Hvalid, Hord. clear Hd.
  exists d. split; [exact Hord |]. split; [exact Hvalid |].
  destruct Hvalid as (Hy & Hm & Hdd).
  pose proof (mark_christmas_inv _ _ Hmark) as (Hfull & _).
  rewrite full_date_date_row in Hfull. split; [exact Hfull |]. clear Hfull.
  apply mark_christmas_cases in Hmark as (dd & Hparse & ->).
  rewrite month_date_row.
  assert (Hflag : 1000 <= year d ->
            (if (month d =? 12) && (15 <=? dd) then 1 else 0)
            = (if (month d =? 12) && (15 <=? day d) then 1 else 0)).
  { intros Hy'.
    rewrite full_date_date_row, (day_of_full_date d ltac:(lia) Hm Hdd) in Hparse.
    now injection Hparse as <-. }
  destruct ((month d =? 12) && (15 <=? dd)).
  - repeat (split; [reflexivity |]). split; [now right | exact Hflag].
  - repeat (split; [reflexivity |]). split; [now left | exact Hflag].
Qed.

(** A last day after 9999-12-31 cannot be represented. *)
Lemma generate_dim_date_overflow (cfg : Config) :
  1 <= N_DAYS cfg ->
  MAXORDINAL < toordinal (START_DATE cfg) + N_DAYS cfg - 1 ->
  generate_dim_date cfg = inl Py.OverflowError.
Proof.
  intros Hdays Hhi. unfold generate_dim_date.
  rewrite (traverse_raises (add_days (START_DATE cfg)) Py.OverflowError); [reflexivity | |].
  - intros k _. unfold add_days. cbv zeta.
    destruct ((1 <=? _) && (_ <=? MAXORDINAL)); eauto.
  - exists (N_DAYS cfg - 1). split; [apply elem_of_range; lia |].
    unfold add_days. cbv zeta.
    destruct (Z.leb_spec (toordinal (START_DATE cfg) + (N_DAYS cfg - 1)) MAXORDINAL);
      [lia |].
    now rewrite andb_false_r.
Qed.

End DimDateMore.

Import DimDateMore.

(** Ten days around the middle of December. *)
Definition december : Config := mkConfig 1 500 10 (mkdate 2023 12 10).
Definition december_rows : list DimDate.row :=
  Eval vm_compute in
    match generate_dim_date december with inr rows => rows | inl _ => [] end.

Lemma december_generated : generate_dim_date december = inr december_rows.
Proof. vm_compute. reflexivity. Qed.

(** X1: with at least one day, a start date on or after 1000-01-01 (so
    that every year prints with four digits) and a last day no later than
    9999-12-31, the date dimension is generated and has exactly [N_DAYS]
    rows. *)
Theorem X1_dim_date_row_count (cfg : Config) :
  1 <= N_DAYS cfg ->
  toordinal (mkdate 1000 1 1) <= toordinal (START_DATE cfg) ->
  toordinal (START_DATE cfg) + N_DAYS cfg - 1 <= toordinal (mkdate 9999 12 31) ->
  exists rows,
    generate_dim_date cfg = inr rows /\ length rows = Z.to_nat (N_DAYS cfg).
Proof.
  intros Hdays Hlo Hhi.
  destruct (generate_dim_date_total cfg Hdays Hlo Hhi) as [rows Hgen].
  exists rows. split; [exact Hgen | exact (dim_date_length cfg rows Hgen)].
Qed.

Lemma X1_witness :
  exists rows,
    generate_dim_date CONFIG = inr rows /\ length rows = Z.to_nat (N_DAYS CONFIG).
Proof.
  apply (X1_dim_date_row_count CONFIG); vm_compute; discriminate.
Defined.

(** X2: when there is at least one day and the last day falls after
    9999-12-31, generating the date dimension raises OverflowError. *)
Theorem X2_dim_date_overflow (cfg : Config) :
  1 <= N_DAYS cfg ->
  MAXORDINAL < toordinal (START_DATE cfg) + N_DAYS cfg - 1 ->
  generate_dim_date cfg = inl Py.OverflowError.
Proof. apply generate_dim_date_overflow. Qed.

Lemma X2_witness :
  generate_dim_date (mkConfig 20 500 2 (mkdate 9999 12 31)) = inl Py.OverflowError.
Proof.
  apply X2_dim_date_overflow; vm_compute; (reflexivity || discriminate).
Defined.

(** X3: no two rows of the date dimension carry the same [full_date]. *)
Theorem X3_full_date_is_a_key (cfg : Config) (rows : list DimDate.row) :
  generate_dim_date cfg = inr rows -> NoDup (map DimDate.full_date rows).
Proof. apply dim_date_full_dates_distinct. Qed.

Lemma X3_witness :
  length december_rows = 10%nat /\ NoDup (map DimDate.full_date december_rows).
Proof.
  split; [reflexivity |].
  apply (X3_full_date_is_a_key december december_rows). exact december_generated.
Defined.

(** X4: the fiscal week never decreases from one row to a later one, and
    it is exactly one more seven rows later. *)
Theorem X4_fiscal_week_steps (cfg : Config) (rows : list DimDate.row)
    (i j : nat) (ri rj : DimDate.row) :
  generate_dim_date cfg = inr rows ->
  rows !! i = Some ri -> rows !! j = Some rj ->
  ((i <= j)%nat -> DimDate.fiscal_week ri <= DimDate.fiscal_week rj)
  /\ (j = (i + 7)%nat -> DimDate.fiscal_week rj = DimDate.fiscal_week ri + 1).
Proof.
  intros Hgen Hi Hj.
  rewrite (dim_date_fiscal_week cfg rows i ri Hgen Hi).
  rewrite (dim_date_fiscal_week cfg rows j rj Hgen Hj).
  split.
  - intros Hle. apply Z.add_le_mono_r, Z.div_le_mono; lia.
  - intros ->. replace (Z.of_nat (i + 7)) with (Z.of_nat i + 1 * 7) by lia.
    rewrite Z.div_add by lia. lia.
Qed.

(** X5: the day of the week of the row [i] days after the start is the
    start's weekday advanced by [i] modulo 7 (Monday is 0), and
    [is_weekend] is 1 exactly on days 5 and 6. *)
Theorem X5_day_of_week (cfg : Config) (rows : list DimDate.row)
    (i : nat) (row : DimDate.row) :
  generate_dim_date cfg = inr rows ->
  rows !! i = Some row ->
  DimDate.day_of_week row = (weekday (START_DATE cfg) + Z.of_nat i) mod 7
  /\ 0 <= DimDate.day_of_week row <= 6
  /\ DimDate.is_weekend row = (if 5 <=? DimDate.day_of_week row then 1 else 0).
Proof.
  intros Hgen Hrow.
  destruct (dim_date_row_columns cfg rows i row Hgen Hrow)
    as (d & Hord & _ & _ & _ & _ & _ & Hdow & Hwe & _ & _).
  rewrite Hwe, Hdow. unfold weekday. rewrite Hord.
  split; [| split; [| reflexivity]].
  - rewrite Zplus_mod_idemp_l. f_equal. lia.
  - pose proof (Z.mod_pos_bound (toordinal (START_DATE cfg) + Z.of_nat i + 6) 7).
    lia.
Qed.

(** X6: in a row whose year has four digits, the holiday flag is 1
    exactly when the date lies between 15 and 31 December: the day of the
    month that the code reads back from characters 8..9 of [full_date] is
    then the day of the row's date. *)
Theorem X6_bank_holiday_flag (cfg : Config) (rows : list DimDate.row)
    (i : nat) (row : DimDate.row) :
  generate_dim_date cfg = inr rows ->
  rows !! i = Some row ->
  1000 <= DimDate.year row ->
  exists d,
    toordinal d = toordinal (START_DATE cfg) + Z.of_nat i
    /\ DimDate.full_date row = fmt_Y_m_d d
    /\ DimDate.month row = month d
    /\ DimDate.is_bank_holiday row
       = (if (month d =? 12) && (15 <=? day d) then 1 else 0).
Proof.
  intros Hgen Hrow Hyear.
  destruct (dim_date_row_columns cfg rows i row Hgen Hrow)
    as (d & Hord & _ & Hfull & Hy & Hm & _ & _ & _ & _ & Hflag).
  exists d. repeat split; try assumption. apply Hflag. now rewrite <- Hy.
Qed.

(** X7: every row of the date dimension has a year in 1..9999, a month in
    1..12, the quarter of that month in 1..4, a fiscal week of at least 1
    and 0/1 flags. *)
Theorem X7_dim_date_ranges (cfg : Config) (rows : list DimDate.row)
    (row : DimDate.row) :
  generate_dim_date cfg = inr rows ->
  row ∈ rows ->
  1 <= DimDate.year row <= 9999
  /\ 1 <= DimDate.month row <= 12
  /\ DimDate.quarter row = (DimDate.month row - 1) / 3 + 1
  /\ 1 <= DimDate.quarter row <= 4
  /\ 1 <= DimDate.fiscal_week row
  /\ (DimDate.is_weekend row = 0 \/ DimDate.is_weekend row = 1)
  /\ (DimDate.is_bank_holiday row = 0 \/ DimDate.is_bank_holiday row = 1).
Proof.
  intros Hgen Hin. apply list_elem_of_lookup_1 in Hin as [i Hrow].
  destruct (dim_date_row_columns cfg rows i row Hgen Hrow)
    as (d & _ & (Hy & Hm & _) & _ & Hyear & Hmonth & Hq & _ & Hwe & Hflag & _).
  rewrite (dim_date_fiscal_week cfg rows i row Hgen Hrow).
  rewrite Hyear, Hmonth, Hq, Hwe.
  assert (0 <= (month d - 1) / 3 < 4).
  { split; [apply Z.div_pos; lia | apply Z.div_lt_upper_bound; lia]. }
  assert (0 <= Z.of_nat i / 7) by (apply Z.div_pos; lia).
  split; [lia |]. split; [lia |]. split; [reflexivity |].
  split; [lia |]. split; [lia |]. split.
  - destruct (5 <=? weekday d); auto.
  - exact Hflag.
Qed.

Lemma X4_witness :
  exists ri rj,
    december_rows !! 0%nat = Some ri /\ december_rows !! 7%nat = Some rj
    /\ ((0 <= 7)%nat -> DimDate.fiscal_week ri <= DimDate.fiscal_week rj)
    /\ (7%nat = (0 + 7)%nat -> DimDate.fiscal_week rj = DimDate.fiscal_week ri + 1).
Proof.
  eexists. eexists. split; [reflexivity |]. split; [reflexivity |].
  apply (X4_fiscal_week_steps december december_rows 0 7);
    [exact december_generated | reflexivity | reflexivity].
Defined.

Lemma X5_witness :
  exists row,
    december_rows !! 6%nat = Some row
    /\ DimDate.day_of_week row = (weekday (START_DATE december) + Z.of_nat 6) mod 7
    /\ 0 <= DimDate.day_of_week row <= 6
    /\ DimDate.is_weekend row = (if 5 <=? DimDate.day_of_week row then 1 else 0).
Proof.
  eexists. split; [reflexivity |].
  apply (X5_day_of_week december december_rows 6);
    [exact december_generated | reflexivity].
Defined.

Lemma X6_witness :
  exists row d,
    december_rows !! 5%nat = Some row
    /\ toordinal d = toordinal (START_DATE december) + Z.of_nat 5
    /\ DimDate.full_date row = fmt_Y_m_d d
    /\ DimDate.month row = month d
    /\ DimDate.is_bank_holiday row
       = (if (month d =? 12) && (15 <=? day d) then 1 else 0).
Proof.
  eexists.
  destruct (X6_bank_holiday_flag december december_rows 5 _ december_generated
              eq_refl ltac:(vm_compute; discriminate)) as (d & H).
  exists d. split; [reflexivity | exact H].
Defined.

Lemma X7_witness :
  exists row,
    december_rows !! 9%nat = Some row
    /\ 1 <= DimDate.year row <= 9999
    /\ 1 <= DimDate.month row <= 12
    /\ DimDate.quarter row = (DimDate.month row - 1) / 3 + 1
    /\ 1 <= DimDate.quarter row <= 4
    /\ 1 <= DimDate.fiscal_week row
    /\ (DimDate.is_weekend row = 0 \/ DimDate.is_weekend row = 1)
    /\ (DimDate.is_bank_holiday row = 0 \/ DimDate.is_bank_holiday row = 1).
Proof.
  eexists. split; [reflexivity |].
  apply (X7_dim_date_ranges december december_rows);
    [exact december_generated | apply (list_elem_of_lookup_2 _ 9%nat); reflexivity].
Defined.

(** ** Rounding *)

Module RoundFacts.

Lemma round_half_even_near x :
  (inject_Z (Py.round_half_even x) - (1 # 2) <= x
   /\ x <= inject_Z (Py.round_half_even x) + (1 # 2))%Q.
Proof.
  unfold Py.round_half_even. cbv zeta.
  pose proof (Qfloor_le x) as Hlo. pose proof (Qlt_floor x) as Hhi.
  rewrite inject_Z_plus in Hhi. change (inject_Z 1) with 1%Q in Hhi.
  destruct (Qcompare (x - inject_Z (Qfloor x)) (1 # 2)) eqn:Hc.
  - apply Qeq_alt in Hc. destruct (Z.even (Qfloor x));
      rewrite ?inject_Z_plus; change (inject_Z 1) with 1%Q; split; lra.
  - apply Qlt_alt in Hc. split; lra.
  - apply Qgt_alt in Hc. rewrite inject_Z_plus. change (inject_Z 1) with 1%Q.
    split; lra.
Qed.

Lemma round_half_even_ge n x :
  (inject_Z n <= x)%Q -> n <= Py.round_half_even x.
Proof.
  intros H. destruct (round_half_even_near x) as [_ Hhi].
  assert (Hlt : (inject_Z n < inject_Z (Py.round_half_even x + 1))%Q)
    by (rewrite inject_Z_plus; change (inject_Z 1) with 1%Q; lra).
  rewrite <- Zlt_Qlt in Hlt. lia.
Qed.

Lemma round_half_even_le n x :
  (x <= inject_Z n)%Q -> Py.round_half_even x <= n.
Proof.
  intros H. destruct (round_half_even_near x) as [Hlo _].
  assert (Hlt : (inject_Z (Py.round_half_even x) < inject_Z (n + 1))%Q)
    by (rewrite inject_Z_plus; change (inject_Z 1) with 1%Q; lra).
  rewrite <- Zlt_Qlt in Hlt. lia.
Qed.

(** [round(x, 2)] is a whole number of hundredths. *)
Lemma round2_eq x :
  (Py.round x 2 * 100 == inject_Z (Py.round_half_even (x * 100)))%Q.
Proof.
  change (Py.round x 2)
    with (Qred (Qmake (Py.round_half_even (x * inject_Z 100)) 100)).
  rewrite Qred_correct. change (inject_Z 100) with 100%Q.
  rewrite (Qmake_Qdiv _ 100). change (inject_Z (Z.pos 100)) with 100%Q. field.
Qed.

(** [round(x, 1)] is a whole number of tenths. *)
Lemma round1_eq x :
  (Py.round x 1 * 10 == inject_Z (Py.round_half_even (x * 10)))%Q.
Proof.
  change (Py.round x 1)
    with (Qred (Qmake (Py.round_half_even (x * inject_Z 10)) 10)).
  rewrite Qred_correct. change (inject_Z 10) with 10%Q.
  rewrite (Qmake_Qdiv _ 10). change (inject_Z (Z.pos 10)) with 10%Q. field.
Qed.

(** Rounding keeps a value between two grid points it lies between. *)
Lemma round2_between a b x :
  (inject_Z a <= x * 100)%Q -> (x * 100 <= inject_Z b)%Q ->
  (inject_Z a <= Py.round x 2 * 100)%Q /\ (Py.round x 2 * 100 <= inject_Z b)%Q.
Proof.
  intros Ha Hb. rewrite round2_eq. rewrite <- !Zle_Qle.
  split; [now apply round_half_even_ge | now apply round_half_even_le].
Qed.

Lemma round1_between a b x :
  (inject_Z a <= x * 10)%Q -> (x * 10 <= inject_Z b)%Q ->
  (inject_Z a <= Py.round x 1 * 10)%Q /\ (Py.round x 1 * 10 <= inject_Z b)%Q.
Proof.
  intros Ha Hb. rewrite round1_eq. rewrite <- !Zle_Qle.
  split; [now apply round_half_even_ge | now apply round_half_even_le].
Qed.

End RoundFacts.

Import RoundFacts.

(** ** The store and product dimensions *)

Module DimensionFacts.
Import ChoiceFacts.

Section WithRandomState.
Context {RS : RandomState}.

(** A loop that appends one row per item: the rows match the items one to
    one, in order. *)
Lemma sampling_for_rows {A B} (P : A -> B -> Prop)
    (body : A -> list B -> M (list B)) xs :
  (forall x s, sampling (body x s) (fun s' => exists r, s' = s ++ [r] /\ P x r)) ->
  sampling (for_ xs [] body) (Forall2 P xs).
Proof.
  intros Hbody.
  apply (sampling_for (fun done s => Forall2 P done s) body xs) with (done := []);
    [| constructor].
  intros done x s HR. eapply sampling_weaken; [apply Hbody |].
  cbn beta. intros s' (r & -> & Hr).
  apply Forall2_app; [exact HR | now constructor].
Qed.

Lemma Forall2_keyed {A B} (key : B -> A) (P : B -> Prop) xs rows :
  Forall2 (fun x r => key r = x /\ P r) xs rows ->
  map key rows = xs /\ Forall P rows.
Proof.
  induction 1 as [| x r xs rows [Hk HP] _ [IHk IHP]]; cbn.
  - split; constructor.
  - split; [now rewrite Hk, IHk | now constructor].
Qed.

(** What every store row looks like, given its [store_id]. *)
Definition store_ok (r : DimStore.row) : Prop :=
  DimStore.manager_id r = DimStore.store_id r
  /\ DimStore.store_name r = "Store " +:+ Py.fmt_0d 3 (DimStore.store_id r)
  /\ DimStore.region r = cyclic REGIONS (DimStore.store_id r)
  /\ DimStore.format r = cyclic FORMATS (DimStore.store_id r)
  /\ DimStore.opening_date r = "2015-01-01"
  /\ 3000 <= DimStore.size_sqft r < 20000
  /\ 80000 <= DimStore.target_weekly_sales r < 250000.

Lemma generate_dim_store_rows cfg :
  sampling (generate_dim_store cfg)
    (fun rows =>
       map DimStore.store_id rows = Py.range 1 (N_STORES cfg + 1)
       /\ Forall store_ok rows).
Proof.
  unfold generate_dim_store. eapply sampling_weaken.
  - apply (sampling_for_rows (fun i r => DimStore.store_id r = i /\ store_ok r)).
    intros i stores.
    eapply sampling_bind; [apply sampling_randint; lia |]. intros size Hsize.
    eapply sampling_bind; [apply sampling_randint; lia |]. intros target Htarget.
    apply sampling_ret. eexists. split; [reflexivity |].
    cbv beta in Hsize, Htarget. unfold store_ok. cbn. tauto.
  - cbn beta. intros rows. apply Forall2_keyed.
Qed.

(** What every product row looks like. *)
Definition product_ok (p : DimProduct.row) : Prop :=
  DimProduct.product_name p
  = DimProduct.subcategory p +:+ " Product " +:+ Py.str (DimProduct.product_id p)
  /\ (0.49 <= DimProduct.unit_price p)%Q
  /\ (DimProduct.unit_price p <= 8.99)%Q
  /\ (0.22 <= DimProduct.cost_price p)%Q
  /\ (DimProduct.cost_price p < DimProduct.unit_price p)%Q
  /\ DimProduct.margin_band p = margin_band_of (DimProduct.unit_price p)
  /\ 1 <= DimProduct.supplier_id p <= 49
  /\ (DimProduct.is_own_label p = 0 \/ DimProduct.is_own_label p = 1).

Lemma price_bounds u f :
  (0.49 <= u)%Q -> (u < 8.99)%Q -> (0.45 <= f)%Q -> (f < 0.70)%Q ->
  let price := Py.round u 2 in
  let cost := Py.round (price * f) 2 in
  (0.49 <= price)%Q /\ (price <= 8.99)%Q /\ (0.22 <= cost)%Q /\ (cost < price)%Q.
Proof.
  intros Hu0 Hu1 Hf0 Hf1 price cost.
  pose proof (round2_eq u) as Hp. fold price in Hp.
  set (k := Py.round_half_even (u * 100)) in *.
  assert (Hk0 : 49 <= k).
  { apply round_half_even_ge. change (inject_Z 49) with 49%Q. lra. }
  assert (Hk1 : k <= 899).
  { apply round_half_even_le. change (inject_Z 899) with 899%Q. lra. }
  rewrite Zle_Qle in Hk0, Hk1.
  change (inject_Z 49) with 49%Q in Hk0. change (inject_Z 899) with 899%Q in Hk1.
  clearbody k price.
  assert (Hp0 : (0.49 <= price)%Q) by lra.
  assert (Hp1 : (price <= 8.99)%Q) by lra.
  assert (Hpf0 : (0.2205 <= price * f)%Q) by nra.
  assert (Hpf1 : (price * f <= 0.7 * price)%Q) by nra.
  pose proof (round2_eq (price * f)) as Hc. fold cost in Hc.
  destruct (round_half_even_near (price * f * 100)) as [Hn0 _].
  assert (Hk' : 22 <= Py.round_half_even (price * f * 100)).
  { apply round_half_even_ge. change (inject_Z 22) with 22%Q. lra. }
  rewrite Zle_Qle in Hk'. change (inject_Z 22) with 22%Q in Hk'.
  set (k' := Py.round_half_even (price * f * 100)) in *.
  clearbody k' cost.
  repeat split; lra.
Qed.

Lemma new_product_row cat subcat pid :
  sampling (new_product cat subcat pid)
    (fun p => DimProduct.product_id p = pid
              /\ DimProduct.category p = cat
              /\ DimProduct.subcategory p = subcat
              /\ product_ok p).
Proof.
  unfold new_product.
  eapply sampling_bind; [apply sampling_uniform |]. intros u (r & Hr0 & Hr1 & Hu).
  eapply sampling_bind; [apply sampling_uniform |]. intros f (r' & Hr'0 & Hr'1 & Hf).
  eapply sampling_bind; [apply sampling_randint; lia |]. intros supplier Hs.
  eapply sampling_bind; [now apply sampling_choice_p |]. intros own Hown.
  apply sampling_ret. cbv beta in Hs.
  assert (Hu0 : (0.49 <= u)%Q) by (rewrite Hu; lra).
  assert (Hu1 : (u < 8.99)%Q) by (rewrite Hu; lra).
  assert (Hf0 : (0.45 <= f)%Q) by (rewrite Hf; lra).
  assert (Hf1 : (f < 0.70)%Q) by (rewrite Hf; lra).
  destruct (price_bounds u f Hu0 Hu1 Hf0 Hf1) as (H1 & H2 & H3 & H4).
  unfold product_ok. cbn [DimProduct.product_id DimProduct.category
    DimProduct.subcategory DimProduct.product_name DimProduct.unit_price
    DimProduct.cost_price DimProduct.margin_band DimProduct.supplier_id
    DimProduct.is_own_label].
  repeat (split; [first [reflexivity | assumption | lia] |]).
  apply elem_of_cons in Hown as [-> | Hown]; [now left |].
  apply elem_of_cons in Hown as [-> | Hown]; [now right |].
  now apply elem_of_nil in Hown.
Qed.

(** The (category, subcategory) keys in the order of the loops: [n] rows
    for each subcategory. *)
Definition product_groups (n : Z) : list (string * string) :=
  flat_map (fun '(cat, subcats) =>
              flat_map (fun subcat => replicate (Z.to_nat n) (cat, subcat)) subcats)
    CATEGORIES.

Definition product_group (p : DimProduct.row) : string * string :=
  (DimProduct.category p, DimProduct.subcategory p).

Lemma generate_dim_product_rows cfg :
  sampling (generate_dim_product cfg)
    (fun rows =>
       map product_group rows = product_groups (N_PRODUCTS cfg / 20)
       /\ Forall product_ok rows).
Proof.
  unfold generate_dim_product, product_groups. set (n := N_PRODUCTS cfg / 20).
  eapply sampling_bind.
  - apply (sampling_for
             (fun done st =>
                map product_group (fst st)
                = flat_map (fun '(cat, subcats) =>
                              flat_map (fun subcat =>
                                          replicate (Z.to_nat n) (cat, subcat)) subcats)
                    done
                /\ Forall product_ok (fst st))
             _ CATEGORIES) with (done := []); [| now split].
    intros done [cat subcats] st [Hkeys Hok].
    eapply sampling_weaken.
    + apply (sampling_for
               (fun done' st' =>
                  map product_group (fst st')
                  = map product_group (fst st)
                    ++ flat_map (fun subcat => replicate (Z.to_nat n) (cat, subcat)) done'
                  /\ Forall product_ok (fst st'))
               _ subcats) with (done := []);
        [| split; [now rewrite app_nil_r | exact Hok]].
      intros done' subcat st' [Hkeys' Hok'].
      eapply sampling_weaken.
      * apply (sampling_for
                 (fun done'' st'' =>
                    map product_group (fst st'')
                    = map product_group (fst st')
                      ++ replicate (length done'') (cat, subcat)
                    /\ Forall product_ok (fst st''))
                 _ (Py.range 0 n)) with (done := []);
          [| split; [now rewrite app_nil_r | exact Hok']].
        intros done'' k [products pid] [Hkeys'' Hok''].
        eapply sampling_bind; [apply new_product_row |].
        intros p (_ & Hcat & Hsub & Hp).
        apply sampling_ret. cbn [fst] in *. split.
        -- rewrite map_app, Hkeys'', length_app, <- app_assoc. f_equal.
           cbn [length map]. rewrite Nat.add_1_r, replicate_S_end.
           unfold product_group. now rewrite Hcat, Hsub.
        -- apply Forall_app. split; [exact Hok'' | now constructor].
      * cbn beta. intros st'' [Hkeys'' Hok'']. split; [| exact Hok''].
        rewrite app_nil_l, length_range in Hkeys''.
        replace (n - 0) with n in Hkeys'' by lia.
        rewrite Hkeys'', Hkeys', flat_map_app, <- app_assoc. cbn [flat_map].
        now rewrite app_nil_r.
    + cbn beta. intros st' [Hkeys' Hok']. split; [| exact Hok'].
      rewrite app_nil_l in Hkeys'. rewrite Hkeys', Hkeys, flat_map_app.
      cbn [flat_map]. now rewrite app_nil_r.
  - cbn beta. intros st [Hkeys Hok]. apply sampling_ret.
    rewrite app_nil_l in Hkeys. now split.
Qed.

End WithRandomState.
End DimensionFacts.

Import DimensionFacts.

(** X8: [generate_dim_store] never raises and touches neither files nor
    output; its rows carry the store ids 1, 2, ..., [N_STORES] in order
    (no rows when [N_STORES] is not positive), so [store_id] is a key. *)
Theorem X8_store_ids {RS : RandomState} (cfg : Config) (w : World) :
  exists rows w',
    generate_dim_store cfg w = (inr rows, w')
    /\ w_files w' = w_files w /\ w_stdout w' = w_stdout w
    /\ map DimStore.store_id rows = Py.range 1 (N_STORES cfg + 1)
    /\ length rows = Z.to_nat (N_STORES cfg)
    /\ NoDup (map DimStore.store_id rows).
Proof.
  destruct (generate_dim_store_rows cfg w) as (rows & s & Hrun & Hids & _).
  exists rows, (mkWorld s (w_files w) (w_stdout w)).
  split; [exact Hrun |]. split; [reflexivity |]. split; [reflexivity |].
  split; [exact Hids |]. split.
  - rewrite <- (length_map DimStore.store_id), Hids, length_range. f_equal. lia.
  - rewrite Hids. apply NoDup_range.
Qed.

(** X9: in every store row the manager id equals the store id, the name
    is the id padded to three digits, region and format are taken from the
    fixed lists at the position [store_id mod 10] and [store_id mod 4],
    the size lies in [3000, 20000) and the weekly target in
    [80000, 250000). *)
Theorem X9_store_attributes {RS : RandomState} (cfg : Config) (w : World) :
  exists rows w',
    generate_dim_store cfg w = (inr rows, w')
    /\ Forall (fun r =>
         DimStore.manager_id r = DimStore.store_id r
         /\ DimStore.store_name r = "Store " +:+ Py.fmt_0d 3 (DimStore.store_id r)
         /\ DimStore.region r
            = nth (Z.to_nat (DimStore.store_id r mod 10)) REGIONS EmptyString
         /\ DimStore.format r
            = nth (Z.to_nat (DimStore.store_id r mod 4)) FORMATS EmptyString
         /\ DimStore.opening_date r = "2015-01-01"
         /\ 3000 <= DimStore.size_sqft r < 20000
         /\ 80000 <= DimStore.target_weekly_sales r < 250000) rows.
Proof.
  destruct (generate_dim_store_rows cfg w) as (rows & s & Hrun & _ & Hok).
  exists rows, (mkWorld s (w_files w) (w_stdout w)).
  split; [exact Hrun | exact Hok].
Qed.

(** X10: the product rows come grouped by subcategory, in the order of the
    category table: [N_PRODUCTS // 20] consecutive rows for each of the 22
    subcategories, each with the category the subcategory is listed
    under. *)
Theorem X10_products_grouped {RS : RandomState} (cfg : Config) (w : World) :
  exists rows w',
    generate_dim_product cfg w = (inr rows, w')
    /\ w_files w' = w_files w /\ w_stdout w' = w_stdout w
    /\ map (fun p => (DimProduct.category p, DimProduct.subcategory p)) rows
       = flat_map (fun '(cat, subcats) =>
                     flat_map (fun subcat =>
                                 replicate (Z.to_nat (N_PRODUCTS cfg / 20))
                                   (cat, subcat)) subcats)
           CATEGORIES.
Proof.
  destruct (generate_dim_product_rows cfg w) as (rows & s & Hrun & Hgroups & _).
  exists rows, (mkWorld s (w_files w) (w_stdout w)).
  split; [exact Hrun |]. split; [reflexivity |]. split; [reflexivity |].
  exact Hgroups.
Qed.

(** X11: every product row has a unit price between 0.49 and 8.99, a cost
    price of at least 0.22 and strictly below the unit price, the margin
    band of its unit price, a supplier id in 1..49, an own-label flag of 0
    or 1, and a name made of the subcategory and the product id. *)
Theorem X11_product_attributes {RS : RandomState} (cfg : Config) (w : World) :
  exists rows w',
    generate_dim_product cfg w = (inr rows, w')
    /\ Forall (fun p =>
         DimProduct.product_name p
         = DimProduct.subcategory p +:+ " Product "
           +:+ Py.str (DimProduct.product_id p)
         /\ (0.49 <= DimProduct.unit_price p)%Q
         /\ (DimProduct.unit_price p <= 8.99)%Q
         /\ (0.22 <= DimProduct.cost_price p)%Q
         /\ (DimProduct.cost_price p < DimProduct.unit_price p)%Q
         /\ DimProduct.margin_band p
            = (if Py.Qltb (DimProduct.unit_price p) 2 then "Low"
               else if Py.Qltb (DimProduct.unit_price p) 5 then "Mid"
               else "High")
         /\ 1 <= DimProduct.supplier_id p <= 49
         /\ (DimProduct.is_own_label p = 0 \/ DimProduct.is_own_label p = 1)) rows.
Proof.
  destruct (generate_dim_product_rows cfg w) as (rows & s & Hrun & _ & Hok).
  exists rows, (mkWorld s (w_files w) (w_stdout w)).
  split; [exact Hrun | exact Hok].
Qed.

(** ** The whole script when it aborts *)



Lemma path_fact_not_dimension name :
  name ∈ ["fact_transactions.csv"; "fact_labour.csv"; "fact_shrinkage.csv"]%string ->
  path name <> path "dim_date.csv"
  /\ path name <> path "dim_store.csv"
  /\ path name <> path "dim_product.csv".
Proof.
  intros H. repeat (apply elem_of_cons in H as [-> | H]);
    [| | | now apply elem_of_nil in H];
    repeat split; vm_compute; discriminate.
Qed.

(** X12: with at least one day, at least one store and a product dimension
    numbered 1, 2, ..., [generate_fact_transactions] raises ValueError (the
    hour-of-day weights sum to 1.01): it prints its progress line, writes
    no file and returns no table. *)
Theorem X12_transactions_raise_value_error {RS : RandomState} (cfg : Config)
    (dim_date : list DimDate.row) (dim_store : list DimStore.row)
    (dim_product : list DimProduct.row) (w : World) :
  dim_date <> [] -> 1 <= N_STORES cfg ->
  map DimProduct.product_id dim_product
  = Py.range 1 (Z.of_nat (length dim_product) + 1) ->
  exists w',
    generate_fact_transactions cfg dim_date dim_store dim_product w
    = (inl Py.ValueError, w')
    /\ w_files w' = w_files w
    /\ w_stdout w'
       = w_stdout w ++ ["Generating transactions (this takes ~60 seconds)..."%string].
Proof.
  intros Hdays Hstores Hids. destruct w as [r f o].
  destruct (generate_fact_transactions_aborts cfg dim_date dim_store dim_product
              r f o Hdays Hstores Hids) as (s & Hrun).
  eexists. split; [exact Hrun |]. split; reflexivity.
Qed.

Lemma X12_witness :
  exists w',
    generate_fact_transactions (RS := scripted) one_store_day one_day [] one_product
      (world [])
    = (inl Py.ValueError, w')
    /\ w_files w' = w_files (world [])
    /\ w_stdout w'
       = w_stdout (world [])
         ++ ["Generating transactions (this takes ~60 seconds)..."%string].
Proof.
  apply (X12_transactions_raise_value_error (RS := scripted) one_store_day one_day
           [] one_product (world [])).
  - discriminate.
  - vm_compute. discriminate.
  - vm_compute. reflexivity.
Defined.

(** X13: with at least one day and one store the script stops with
    ValueError in the transaction generator: by then it has written the
    three dimension files and nothing else (the three fact files are as
    they were before the run), and the last line printed is the
    transaction progress line. *)
Theorem X13_main_aborts_after_dimensions {RS : RandomState} (cfg : Config)
    (dim_date : list DimDate.row) (w : World) :
  generate_dim_date cfg = inr dim_date ->
  dim_date <> [] -> 1 <= N_STORES cfg ->
  exists dim_store dim_product w',
    main cfg w = (inl Py.ValueError, w')
    /\ w_files w'
       = <[path "dim_product.csv" := TDimProduct dim_product]>
         (<[path "dim_store.csv" := TDimStore dim_store]>
         (<[path "dim_date.csv" := TDimDate dim_date]> (w_files w)))
    /\ (forall name,
          name ∈ ["fact_transactions.csv"; "fact_labour.csv";
                  "fact_shrinkage.csv"]%string ->
          w_files w' !! path name = w_files w !! path name)
    /\ w_stdout w'
       = w_stdout w
         ++ ["Generating dimension tables...";
             "  dim_date: " +:+ Py.str (len dim_date) +:+ " rows";
             "  dim_store: " +:+ Py.str (len dim_store) +:+ " rows";
             "  dim_product: " +:+ Py.str (len dim_product) +:+ " rows";
             "Generating fact tables...";
             "Generating transactions (this takes ~60 seconds)..."]%string.
Proof.
  intros Hdate Hdays Hstores. destruct w as [r0 f0 o0].
  destruct (main_aborts_after_dimensions cfg dim_date r0 f0 o0 Hdate Hdays Hstores)
    as (dim_store & dim_product & s & Hrun).
  exists dim_store, dim_product. eexists. split; [exact Hrun |].
  cbn [w_files w_stdout]. split; [reflexivity |]. split; [| reflexivity].
  intros name Hname. destruct (path_fact_not_dimension name Hname) as (H1 & H2 & H3).
  unfold written_before_facts.
  rewrite !lookup_insert_ne by congruence. reflexivity.
Qed.

Lemma X13_witness :
  exists dim_store dim_product w',
    main (RS := scripted) one_store_day (world []) = (inl Py.ValueError, w')
    /\ w_files w'
       = <[path "dim_product.csv" := TDimProduct dim_product]>
         (<[path "dim_store.csv" := TDimStore dim_store]>
         (<[path "dim_date.csv" := TDimDate one_day]> (w_files (world []))))
    /\ (forall name,
          name ∈ ["fact_transactions.csv"; "fact_labour.csv";
                  "fact_shrinkage.csv"]%string ->
          w_files w' !! path name = w_files (world []) !! path name)
    /\ w_stdout w'
       = w_stdout (world [])
         ++ ["Generating dimension tables...";
             "  dim_date: " +:+ Py.str (len one_day) +:+ " rows";
             "  dim_store: " +:+ Py.str (len dim_store) +:+ " rows";
             "  dim_product: " +:+ Py.str (len dim_product) +:+ " rows";
             "Generating fact tables...";
             "Generating transactions (this takes ~60 seconds)..."]%string.
Proof.
  apply (X13_main_aborts_after_dimensions (RS := scripted) one_store_day one_day
           (world [])).
  - exact one_day_generated.
  - discriminate.
  - vm_compute. discriminate.
Defined.

(** X14: when the configured days run past 9999-12-31 the script stops
    with OverflowError while building the date dimension: it has seeded
    the generator and printed its first line, and no file is written. *)
Theorem X14_main_overflow {RS : RandomState} (cfg : Config) (w : World) :
  1 <= N_DAYS cfg ->
  MAXORDINAL < toordinal (START_DATE cfg) + N_DAYS cfg - 1 ->
  main cfg w
  = (inl Py.OverflowError,
     mkWorld (seed SEED) (w_files w)
       (w_stdout w ++ ["Generating dimension tables..."%string])).
Proof.
  intros Hdays Hhi. destruct w as [r0 f0 o0].
  apply main_stops_at_dates. now apply generate_dim_date_overflow.
Qed.

Lemma X14_witness :
  main (RS := scripted) (mkConfig 20 500 2 (mkdate 9999 12 31)) (world [])
  = (inl Py.OverflowError,
     mkWorld (seed SEED) (w_files (world []))
       (w_stdout (world []) ++ ["Generating dimension tables..."%string])).
Proof.
  apply (X14_main_overflow (RS := scripted)); vm_compute; (reflexivity || discriminate).
Defined.

(** ** Labour and shrinkage, row by row *)

Module StoreDayFacts.
Import ChoiceFacts.

Section WithRandomState.
Context {RS : RandomState}.

(** Loops whose body may rely on its item being one of the list. *)
Lemma sampling_for_in {A S} (R : list A -> S -> Prop) (body : A -> S -> M S) xs :
  (forall done x s, x ∈ xs -> R done s -> sampling (body x s) (R (done ++ [x]))) ->
  forall s, R [] s -> sampling (for_ xs s body) (R xs).
Proof.
  intros Hbody.
  assert (H : forall rest done s,
             (forall x, x ∈ rest -> x ∈ xs) -> R done s ->
             sampling (for_ rest s body) (R (done ++ rest))).
  { induction rest as [| x rest IH]; intros done s Hsub HR; cbn.
    - rewrite app_nil_r. now apply sampling_ret.
    - eapply sampling_bind;
        [apply (Hbody done x s); [apply Hsub; now left | exact HR] |].
      intros s' HR'.
      replace (done ++ x :: rest) with ((done ++ [x]) ++ rest)
        by (now rewrite <- app_assoc).
      apply IH; [| exact HR']. intros y Hy. apply Hsub. now right. }
  intros s HR. now apply (H xs [] s).
Qed.

(** The row belongs to a store in 1..[N_STORES] and copies the date and
    the fiscal week of one row of the date dimension. *)
Definition of_store_day (cfg : Config) (dim_date : list DimDate.row)
    (store_id : Z) (date : string) (fiscal_week : Z) : Prop :=
  1 <= store_id <= N_STORES cfg
  /\ exists d, d ∈ dim_date
       /\ date = DimDate.full_date d /\ fiscal_week = DimDate.fiscal_week d.

(** *** Labour *)

Definition labour_ok (cfg : Config) (dim_date : list DimDate.row)
    (r : FactLabour.row) : Prop :=
  of_store_day cfg dim_date (FactLabour.store_id r) (FactLabour.shift_date r)
    (FactLabour.fiscal_week r)
  /\ (40 <= FactLabour.contracted_hours r)%Q
  /\ (FactLabour.contracted_hours r <= 120)%Q
  /\ (36 <= FactLabour.actual_hours r)%Q
  /\ (FactLabour.actual_hours r <= 138)%Q
  /\ (10.42 <= FactLabour.hourly_rate r)%Q
  /\ (FactLabour.hourly_rate r <= 13.50)%Q
  /\ (375.12 <= FactLabour.total_labour_cost r)%Q
  /\ (FactLabour.total_labour_cost r <= 1863)%Q.

Lemma shift_bounds contracted f hourly_rate :
  (40 <= contracted)%Q -> (contracted < 120)%Q ->
  (0.90 <= f)%Q -> (f < 1.15)%Q ->
  (10.42 <= hourly_rate)%Q -> (hourly_rate < 13.50)%Q ->
  let actual := (contracted * f)%Q in
  (40 <= Py.round contracted 1)%Q /\ (Py.round contracted 1 <= 120)%Q
  /\ (36 <= Py.round actual 1)%Q /\ (Py.round actual 1 <= 138)%Q
  /\ (10.42 <= Py.round hourly_rate 2)%Q /\ (Py.round hourly_rate 2 <= 13.50)%Q
  /\ (375.12 <= Py.round (actual * hourly_rate) 2)%Q
  /\ (Py.round (actual * hourly_rate) 2 <= 1863)%Q.
Proof.
  intros Hc0 Hc1 Hf0 Hf1 Hr0 Hr1 actual.
  assert (Ha0 : (36 <= actual)%Q) by (unfold actual; nra).
  assert (Ha1 : (actual <= 138)%Q) by (unfold actual; nra).
  assert (Hp0 : (375.12 <= actual * hourly_rate)%Q) by nra.
  assert (Hp1 : (actual * hourly_rate <= 1863)%Q) by nra.
  clearbody actual.
  destruct (round1_between 400 1200 contracted) as [H1 H2];
    [change (inject_Z 400) with 400%Q; lra
    | change (inject_Z 1200) with 1200%Q; lra |].
  destruct (round1_between 360 1380 actual) as [H3 H4];
    [change (inject_Z 360) with 360%Q; lra
    | change (inject_Z 1380) with 1380%Q; lra |].
  destruct (round2_between 1042 1350 hourly_rate) as [H5 H6];
    [change (inject_Z 1042) with 1042%Q; lra
    | change (inject_Z 1350) with 1350%Q; lra |].
  destruct (round2_between 37512 186300 (actual * hourly_rate)) as [H7 H8];
    [change (inject_Z 37512) with 37512%Q; lra
    | change (inject_Z 186300) with 186300%Q; lra |].
  change (inject_Z 400) with 400%Q in H1. change (inject_Z 1200) with 1200%Q in H2.
  change (inject_Z 360) with 360%Q in H3. change (inject_Z 1380) with 1380%Q in H4.
  change (inject_Z 1042) with 1042%Q in H5. change (inject_Z 1350) with 1350%Q in H6.
  change (inject_Z 37512) with 37512%Q in H7.
  change (inject_Z 186300) with 186300%Q in H8.
  set (c1 := Py.round contracted 1) in *. set (a1 := Py.round actual 1) in *.
  set (r2 := Py.round hourly_rate 2) in *.
  set (t2 := Py.round (actual * hourly_rate) 2) in *.
  clearbody c1 a1 r2 t2.
  repeat split; lra.
Qed.

Lemma new_shift_row cfg dim_date d store_id :
  d ∈ dim_date -> 1 <= store_id <= N_STORES cfg ->
  sampling (new_shift d store_id) (labour_ok cfg dim_date).
Proof.
  intros Hd Hs. unfold new_shift.
  eapply sampling_bind; [apply sampling_uniform |].
  intros contracted (u & Hu0 & Hu1 & Hc).
  eapply sampling_bind; [apply sampling_uniform |]. intros f (u' & Hu'0 & Hu'1 & Hf).
  eapply sampling_bind; [apply sampling_uniform |].
  intros hourly_rate (u'' & Hu''0 & Hu''1 & Hr).
  apply sampling_ret.
  assert (Hc0 : (40 <= contracted)%Q) by (rewrite Hc; lra).
  assert (Hc1 : (contracted < 120)%Q) by (rewrite Hc; lra).
  assert (Hf0 : (0.90 <= f)%Q) by (rewrite Hf; lra).
  assert (Hf1 : (f < 1.15)%Q) by (rewrite Hf; lra).
  assert (Hr0 : (10.42 <= hourly_rate)%Q) by (rewrite Hr; lra).
  assert (Hr1 : (hourly_rate < 13.50)%Q) by (rewrite Hr; lra).
  split; [| exact (shift_bounds contracted f hourly_rate Hc0 Hc1 Hf0 Hf1 Hr0 Hr1)].
  split; [exact Hs |]. now exists d.
Qed.

Lemma generate_fact_labour_rows cfg dim_date :
  sampling (generate_fact_labour cfg dim_date) (Forall (labour_ok cfg dim_date)).
Proof.
  unfold generate_fact_labour.
  apply (sampling_for_in (fun _ rows => Forall (labour_ok cfg dim_date) rows));
    [| constructor].
  intros _ d labour Hd Hok.
  apply (sampling_for_in (fun _ rows => Forall (labour_ok cfg dim_date) rows));
    [| exact Hok].
  intros _ s labour' Hs Hok'. apply elem_of_range in Hs.
  eapply sampling_bind; [apply (new_shift_row cfg dim_date d s Hd); lia |].
  intros r Hr. apply sampling_ret.
  apply Forall_app. split; [exact Hok' | now constructor].
Qed.

(** *** Shrinkage *)

Definition shrinkage_key (r : FactShrinkage.row) : Z * string :=
  (FactShrinkage.store_id r, FactShrinkage.shrinkage_date r).

Definition shrinkage_ok (cfg : Config) (dim_date : list DimDate.row)
    (r : FactShrinkage.row) : Prop :=
  of_store_day cfg dim_date (FactShrinkage.store_id r)
    (FactShrinkage.shrinkage_date r) (FactShrinkage.fiscal_week r)
  /\ FactShrinkage.cause_code r ∈ CAUSE_CODES
  /\ FactShrinkage.category r ∈ SHRINK_CATEGORIES.

(** The store-days in the order the loops visit them. *)
Definition store_day_keys (cfg : Config) (dim_date : list DimDate.row)
    : list (Z * string) :=
  flat_map (fun d => map (fun s => (s, DimDate.full_date d))
                       (Py.range 1 (N_STORES cfg + 1))) dim_date.

Lemma generate_fact_shrinkage_rows cfg dim_date :
  sampling (generate_fact_shrinkage cfg dim_date)
    (fun rows =>
       Forall (shrinkage_ok cfg dim_date) rows
       /\ sublist (map shrinkage_key rows) (store_day_keys cfg dim_date)).
Proof.
  unfold generate_fact_shrinkage, store_day_keys.
  apply (sampling_for_in
           (fun done rows =>
              Forall (shrinkage_ok cfg dim_date) rows
              /\ sublist (map shrinkage_key rows)
                   (flat_map (fun d => map (fun s => (s, DimDate.full_date d))
                                         (Py.range 1 (N_STORES cfg + 1))) done)));
    [| split; constructor].
  intros done d shrinkage Hd [Hok Hsub].
  eapply sampling_weaken.
  - apply (sampling_for_in
             (fun done' rows' =>
                Forall (shrinkage_ok cfg dim_date) rows'
                /\ exists ks,
                     map shrinkage_key rows' = map shrinkage_key shrinkage ++ ks
                     /\ sublist ks (map (fun s => (s, DimDate.full_date d)) done')));
      [| split; [exact Hok | exists []; split; [now rewrite app_nil_r | constructor]]].
    intros done' s rows' Hs (Hok' & ks & Hkeys & Hks). apply elem_of_range in Hs.
    eapply sampling_bind; [apply sampling_random |]. intros r _.
    destruct (Py.Qltb r 0.3).
    + eapply sampling_bind; [apply sampling_exponential |]. intros base _.
      eapply sampling_bind; [apply sampling_random |]. intros r' _.
      eapply sampling_bind; [now apply sampling_choice_p |]. intros cause Hcause.
      eapply sampling_bind; [now apply sampling_choice |]. intros category Hcat.
      apply sampling_ret. split.
      * apply Forall_app. split; [exact Hok' |]. constructor; [| constructor].
        split; [| split; [exact Hcause | exact Hcat]].
        split; [cbn; lia |]. now exists d.
      * exists (ks ++ [(s, DimDate.full_date d)]). split.
        -- rewrite map_app, Hkeys, <- app_assoc. reflexivity.
        -- rewrite map_app. apply sublist_app; [exact Hks | reflexivity].
    + apply sampling_ret. split; [exact Hok' |]. exists ks. split; [exact Hkeys |].
      rewrite map_app. rewrite <- (app_nil_r ks).
      apply sublist_app; [exact Hks | apply sublist_nil_l].
  - cbn beta. intros rows' (Hok' & ks & Hkeys & Hks). split; [exact Hok' |].
    rewrite Hkeys, flat_map_app. cbn [flat_map]. rewrite app_nil_r.
    now apply sublist_app.
Qed.

End WithRandomState.
End StoreDayFacts.

Import StoreDayFacts.

(** X18: [generate_fact_labour] never raises and touches neither files nor
    output; every row belongs to a store in 1..[N_STORES], copies the date
    and fiscal week of a row of the date dimension, and has contracted
    hours in [40, 120], actual hours in [36, 138], an hourly rate in
    [10.42, 13.50] and a cost in [375.12, 1863]. *)
Theorem X18_labour_rows {RS : RandomState} (cfg : Config)
    (dim_date : list DimDate.row) (w : World) :
  exists rows w',
    generate_fact_labour cfg dim_date w = (inr rows, w')
    /\ w_files w' = w_files w /\ w_stdout w' = w_stdout w
    /\ Forall (fun r =>
         (1 <= FactLabour.store_id r <= N_STORES cfg
          /\ exists d, d ∈ dim_date
               /\ FactLabour.shift_date r = DimDate.full_date d
               /\ FactLabour.fiscal_week r = DimDate.fiscal_week d)
         /\ (40 <= FactLabour.contracted_hours r)%Q
         /\ (FactLabour.contracted_hours r <= 120)%Q
         /\ (36 <= FactLabour.actual_hours r)%Q
         /\ (FactLabour.actual_hours r <= 138)%Q
         /\ (10.42 <= FactLabour.hourly_rate r)%Q
         /\ (FactLabour.hourly_rate r <= 13.50)%Q
         /\ (375.12 <= FactLabour.total_labour_cost r)%Q
         /\ (FactLabour.total_labour_cost r <= 1863)%Q) rows.
Proof.
  destruct (generate_fact_labour_rows cfg dim_date w) as (rows & s & Hrun & Hok).
  exists rows, (mkWorld s (w_files w) (w_stdout w)).
  split; [exact Hrun |]. split; [reflexivity |]. split; [reflexivity |].
  exact Hok.
Qed.

(** X19: [generate_fact_shrinkage] never raises and touches neither files
    nor output; every row belongs to a store in 1..[N_STORES], copies the
    date and fiscal week of a row of the date dimension, and takes its
    cause code and category from the two fixed lists. *)
Theorem X19_shrinkage_rows {RS : RandomState} (cfg : Config)
    (dim_date : list DimDate.row) (w : World) :
  exists rows w',
    generate_fact_shrinkage cfg dim_date w = (inr rows, w')
    /\ w_files w' = w_files w /\ w_stdout w' = w_stdout w
    /\ Forall (fun r =>
         (1 <= FactShrinkage.store_id r <= N_STORES cfg
          /\ exists d, d ∈ dim_date
               /\ FactShrinkage.shrinkage_date r = DimDate.full_date d
               /\ FactShrinkage.fiscal_week r = DimDate.fiscal_week d)
         /\ FactShrinkage.cause_code r ∈ CAUSE_CODES
         /\ FactShrinkage.category r ∈ SHRINK_CATEGORIES) rows.
Proof.
  destruct (generate_fact_shrinkage_rows cfg dim_date w)
    as (rows & s & Hrun & Hok & _).
  exists rows, (mkWorld s (w_files w) (w_stdout w)).
  split; [exact Hrun |]. split; [reflexivity |]. split; [reflexivity |].
  exact Hok.
Qed.

(** X20: the shrinkage table has at most one row per store and day: its
    (store, date) keys are, in order, some of the store-days the loops
    visit (a sublist of them), so there are no more rows than store-days,
    and no key occurs twice when the dates of the dimension are distinct. *)
Theorem X20_shrinkage_store_days {RS : RandomState} (cfg : Config)
    (dim_date : list DimDate.row) (w : World) :
  exists rows w',
    generate_fact_shrinkage cfg dim_date w = (inr rows, w')
    /\ sublist
         (map (fun r => (FactShrinkage.store_id r, FactShrinkage.shrinkage_date r))
            rows)
         (flat_map (fun d => map (fun s => (s, DimDate.full_date d))
                               (Py.range 1 (N_STORES cfg + 1))) dim_date)
    /\ Z.of_nat (length rows)
       <= Z.of_nat (length dim_date) * Z.max 0 (N_STORES cfg)
    /\ (NoDup (map DimDate.full_date dim_date) ->
        NoDup (map (fun r => (FactShrinkage.store_id r,
                              FactShrinkage.shrinkage_date r)) rows)).
Proof.
  destruct (generate_fact_shrinkage_rows cfg dim_date w)
    as (rows & s & Hrun & _ & Hsub).
  exists rows, (mkWorld s (w_files w) (w_stdout w)).
  split; [exact Hrun |]. split; [exact Hsub |]. split.
  - apply sublist_length in Hsub. unfold store_day_keys in Hsub.
    rewrite length_map, length_store_days, length_range in Hsub. nia.
  - intros Hdates. refine (sublist_NoDup _ _ _ Hsub).
    apply NoDup_store_days; [apply NoDup_range | exact Hdates].
Qed.

(** ** The loader: what ends a run, and what no run does *)

(** The store file alone, and it is empty. *)
Definition empty_store_file : Loader.World :=
  Loader.mkWorld (<[Loader.DATA_DIR +:+ "/dim_store.csv" := EmptyString]> ∅) ∅ [].

(** X21: a declared file that exists but cannot be read by [read_csv]
    stops the loader with the reader's error at that file: the files
    declared before it, being missing, have had their warning; no table is
    written, the files are untouched, and neither the total nor the
    closing lines are printed. *)
Theorem X21_loader_stops_at_unreadable_file
    (read_csv : string -> option Loader.DataFrame)
    (pre post : list (string * string * string))
    (filepath table_name contents : string) (w : Loader.World) :
  Loader.TABLES = pre ++ (filepath, table_name, "bronze"%string) :: post ->
  Forall (fun e : string * string * string => Loader.fs w !! e.1.1 = None) pre ->
  Loader.fs w !! filepath = Some contents ->
  read_csv contents = None ->
  Loader.main read_csv w
  = (inl Loader.ReadError,
     Loader.mkWorld (Loader.fs w) (Loader.db w)
       (Loader.stdout w ++ ["Loading data to " +:+ Loader.DB_PATH]
        ++ map (fun e : string * string * string => Loader.warning e.1.1) pre)).
Proof.
  intros Htables Hpre Hfile Hread.
  rewrite (main_stops read_csv pre filepath table_name post w contents
             Htables Hpre Hfile).
  unfold error_at. now rewrite Hread.
Qed.

Lemma X21_witness :
  Loader.main parse_lines empty_store_file
  = (inl Loader.ReadError,
     Loader.mkWorld (Loader.fs empty_store_file) (Loader.db empty_store_file)
       (Loader.stdout empty_store_file ++ ["Loading data to " +:+ Loader.DB_PATH]
        ++ map (fun e : string * string * string => Loader.warning e.1.1)
             [(Loader.DATA_DIR +:+ "/dim_date.csv", "dim_date", "bronze")]%string)).
Proof.
  eapply (X21_loader_stops_at_unreadable_file parse_lines
            [(Loader.DATA_DIR +:+ "/dim_date.csv", "dim_date", "bronze")]%string).
  - reflexivity.
  - constructor; [vm_compute; reflexivity | constructor].
  - vm_compute. reflexivity.
  - reflexivity.
Defined.

